(** * Raise3D printer API client: a shallow embedding and its properties

    The development follows [custom_components/raise3d/api.py] (the REST
    client, its login handshake and its re-authentication wrapper) and
    [custom_components/raise3d/__init__.py] (the transient-failure retry
    helper [_async_call_api_method]).

    Python values are modelled by the inductive [json]; Python floats are the
    kernel's binary64 floats; exceptions are the constructors of [exn];
    asynchronous methods are computations in a state-and-error monad whose
    state holds the client object and the trace of observable events (HTTP
    requests sent, clock readings, sleeps, files opened). *)

From Stdlib Require Import ZArith List String Ascii Bool Lia DecimalString.
From Stdlib Require Import Floats.PrimFloat Floats.FloatOps Floats.SpecFloat.
Import ListNotations.
Set Warnings "-register-all".
Open Scope string_scope.
Open Scope Z_scope.
Open Scope list_scope.

(** ** [hashlib]: SHA-1 and MD5 over byte strings

    [hashlib.sha1(b).hexdigest()] and [hashlib.md5(b).hexdigest()], written
    out on 32-bit words held in [Z]. *)
Module Hashlib.

Definition mask32 (x : Z) : Z := Z.land x 0xFFFFFFFF.
Definition add32 (x y : Z) : Z := mask32 (x + y).
Definition not32 (x : Z) : Z := Z.lxor (mask32 x) 0xFFFFFFFF.
Definition rotl32 (x n : Z) : Z :=
  mask32 (Z.lor (Z.shiftl x n) (Z.shiftr (mask32 x) (32 - n))).

Definition bytes_of_string (s : string) : list Z :=
  map (fun c => Z.of_nat (nat_of_ascii c)) (list_ascii_of_string s).

Fixpoint le_bytes (n : nat) (x : Z) : list Z :=
  match n with
  | O => []
  | S k => Z.land x 255 :: le_bytes k (Z.shiftr x 8)
  end.

Definition be_bytes (n : nat) (x : Z) : list Z := rev (le_bytes n x).

Definition word_of_le (bs : list Z) : Z :=
  fold_right (fun b acc => b + 256 * acc) 0 bs.

Definition word_of_be (bs : list Z) : Z := word_of_le (rev bs).

(** Merkle-Damgard padding: a 0x80 byte, zeros up to 56 mod 64, then the
    bit length on 8 bytes ([len_bytes] fixes the byte order). *)
Definition pad (len_bytes : nat -> Z -> list Z) (msg : list Z) : list Z :=
  let len := Z.of_nat (List.length msg) in
  msg ++ [128] ++ repeat 0 (Z.to_nat ((55 - len) mod 64))
      ++ len_bytes 8%nat ((8 * len) mod 2 ^ 64).

Definition blocks (bs : list Z) : list (list Z) :=
  map (fun i => firstn 64 (skipn (64 * i) bs)) (seq 0 (List.length bs / 64)).

Definition block_words (word_of : list Z -> Z) (blk : list Z) : list Z :=
  map (fun i => word_of (firstn 4 (skipn (4 * i) blk))) (seq 0 16).

Definition hex_digit (n : Z) : ascii :=
  if n <? 10 then ascii_of_nat (Z.to_nat (48 + n))
  else ascii_of_nat (Z.to_nat (87 + n)).

Fixpoint hex_of_bytes (bs : list Z) : string :=
  match bs with
  | [] => EmptyString
  | b :: r => String (hex_digit (b / 16)) (String (hex_digit (b mod 16)) (hex_of_bytes r))
  end.

(** *** SHA-1 *)

(** The schedule is kept newest-first: [nth 2 ws 0] is W[t-3]. *)
Fixpoint sha1_schedule (n : nat) (ws : list Z) : list Z :=
  match n with
  | O => ws
  | S k =>
      let w := rotl32 (Z.lxor (Z.lxor (nth 2 ws 0) (nth 7 ws 0))
                              (Z.lxor (nth 13 ws 0) (nth 15 ws 0))) 1 in
      sha1_schedule k (w :: ws)
  end.

Definition sha1_f (t : nat) (b c d : Z) : Z :=
  if (t <? 20)%nat then Z.lor (Z.land b c) (Z.land (not32 b) d)
  else if (t <? 40)%nat then Z.lxor (Z.lxor b c) d
  else if (t <? 60)%nat then Z.lor (Z.lor (Z.land b c) (Z.land b d)) (Z.land c d)
  else Z.lxor (Z.lxor b c) d.

Definition sha1_k (t : nat) : Z :=
  if (t <? 20)%nat then 0x5A827999
  else if (t <? 40)%nat then 0x6ED9EBA1
  else if (t <? 60)%nat then 0x8F1BBCDC
  else 0xCA62C1D6.

Definition sha1_state : Type := Z * Z * Z * Z * Z.

Definition sha1_round (st : sha1_state) (tw : nat * Z) : sha1_state :=
  let '(a, b, c, d, e) := st in
  let '(t, w) := tw in
  let temp := add32 (add32 (add32 (add32 (rotl32 a 5) (sha1_f t b c d)) e) (sha1_k t)) w in
  (temp, a, rotl32 b 30, c, d).

Definition sha1_block (h : sha1_state) (blk : list Z) : sha1_state :=
  let ws := rev (sha1_schedule 64 (rev (block_words word_of_be blk))) in
  let '(a, b, c, d, e) := fold_left sha1_round (combine (seq 0 80) ws) h in
  let '(h0, h1, h2, h3, h4) := h in
  (add32 h0 a, add32 h1 b, add32 h2 c, add32 h3 d, add32 h4 e).

Definition sha1_init : sha1_state :=
  (0x67452301, 0xEFCDAB89, 0x98BADCFE, 0x10325476, 0xC3D2E1F0).

Definition sha1_digest (msg : list Z) : list Z :=
  let '(h0, h1, h2, h3, h4) := fold_left sha1_block (blocks (pad be_bytes msg)) sha1_init in
  be_bytes 4 h0 ++ be_bytes 4 h1 ++ be_bytes 4 h2 ++ be_bytes 4 h3 ++ be_bytes 4 h4.

Definition sha1_hexdigest (s : string) : string :=
  hex_of_bytes (sha1_digest (bytes_of_string s)).

(** *** MD5 *)

Definition md5_K : list Z :=
  [ 0xd76aa478; 0xe8c7b756; 0x242070db; 0xc1bdceee;
    0xf57c0faf; 0x4787c62a; 0xa8304613; 0xfd469501;
    0x698098d8; 0x8b44f7af; 0xffff5bb1; 0x895cd7be;
    0x6b901122; 0xfd987193; 0xa679438e; 0x49b40821;
    0xf61e2562; 0xc040b340; 0x265e5a51; 0xe9b6c7aa;
    0xd62f105d; 0x02441453; 0xd8a1e681; 0xe7d3fbc8;
    0x21e1cde6; 0xc33707d6; 0xf4d50d87; 0x455a14ed;
    0xa9e3e905; 0xfcefa3f8; 0x676f02d9; 0x8d2a4c8a;
    0xfffa3942; 0x8771f681; 0x6d9d6122; 0xfde5380c;
    0xa4beea44; 0x4bdecfa9; 0xf6bb4b60; 0xbebfbc70;
    0x289b7ec6; 0xeaa127fa; 0xd4ef3085; 0x04881d05;
    0xd9d4d039; 0xe6db99e5; 0x1fa27cf8; 0xc4ac5665;
    0xf4292244; 0x432aff97; 0xab9423a7; 0xfc93a039;
    0x655b59c3; 0x8f0ccc92; 0xffeff47d; 0x85845dd1;
    0x6fa87e4f; 0xfe2ce6e0; 0xa3014314; 0x4e0811a1;
    0xf7537e82; 0xbd3af235; 0x2ad7d2bb; 0xeb86d391 ].

Definition md5_s : list Z :=
  [ 7; 12; 17; 22; 7; 12; 17; 22; 7; 12; 17; 22; 7; 12; 17; 22;
    5; 9; 14; 20; 5; 9; 14; 20; 5; 9; 14; 20; 5; 9; 14; 20;
    4; 11; 16; 23; 4; 11; 16; 23; 4; 11; 16; 23; 4; 11; 16; 23;
    6; 10; 15; 21; 6; 10; 15; 21; 6; 10; 15; 21; 6; 10; 15; 21 ].

Definition md5_state : Type := Z * Z * Z * Z.

Definition md5_round (m : list Z) (st : md5_state) (i : nat) : md5_state :=
  let '(a, b, c, d) := st in
  let '(f, g) :=
    if (i <? 16)%nat then (Z.lor (Z.land b c) (Z.land (not32 b) d), i)
    else if (i <? 32)%nat then (Z.lor (Z.land d b) (Z.land (not32 d) c), (5 * i + 1) mod 16)%nat
    else if (i <? 48)%nat then (Z.lxor (Z.lxor b c) d, (3 * i + 5) mod 16)%nat
    else (Z.lxor c (Z.lor b (not32 d)), (7 * i) mod 16)%nat in
  let f' := add32 (add32 (add32 f a) (nth i md5_K 0)) (nth g m 0) in
  (d, add32 b (rotl32 f' (nth i md5_s 0)), b, c).

Definition md5_block (h : md5_state) (blk : list Z) : md5_state :=
  let m := block_words word_of_le blk in
  let '(a, b, c, d) := fold_left (md5_round m) (seq 0 64) h in
  let '(a0, b0, c0, d0) := h in
  (add32 a0 a, add32 b0 b, add32 c0 c, add32 d0 d).

Definition md5_init : md5_state :=
  (0x67452301, 0xefcdab89, 0x98badcfe, 0x10325476).

Definition md5_digest (msg : list Z) : list Z :=
  let '(a, b, c, d) := fold_left md5_block (blocks (pad le_bytes msg)) md5_init in
  le_bytes 4 a ++ le_bytes 4 b ++ le_bytes 4 c ++ le_bytes 4 d.

Definition md5_hexdigest (s : string) : string :=
  hex_of_bytes (md5_digest (bytes_of_string s)).

End Hashlib.

(** ** Python values

    A parsed JSON document, which is also what the client passes around as
    query parameters and request bodies.  [JDict] is a Python [dict]: its
    keys are unique and kept in insertion order. *)
Inductive json : Type :=
| JNull
| JBool (b : bool)
| JInt (z : Z)
| JFloat (f : float)
| JStr (s : string)
| JList (l : list json)
| JDict (d : list (string * json)).

Definition dict : Type := list (string * json).

Fixpoint dict_lookup (k : string) (d : dict) : option json :=
  match d with
  | [] => None
  | (k', v) :: r => if String.eqb k k' then Some v else dict_lookup k r
  end.

(** [d[k] = v] *)
Fixpoint dict_set (k : string) (v : json) (d : dict) : dict :=
  match d with
  | [] => [(k, v)]
  | (k', v') :: r =>
      if String.eqb k k' then (k, v) :: r else (k', v') :: dict_set k v r
  end.

(** [d.update(upd)] *)
Definition dict_update (d upd : dict) : dict :=
  fold_left (fun acc kv => dict_set (fst kv) (snd kv) acc) upd d.

(** [bool(v)] *)
Definition truthy (v : json) : bool :=
  match v with
  | JNull => false
  | JBool b => b
  | JInt z => negb (z =? 0)
  | JFloat f => negb (PrimFloat.eqb f 0%float)
  | JStr s => negb (String.eqb s EmptyString)
  | JList l => match l with [] => false | _ => true end
  | JDict d => match d with [] => false | _ => true end
  end.

(** [v == 1]: booleans and floats compare with integers by value. *)
Definition eq_one (v : json) : bool :=
  match v with
  | JBool b => b
  | JInt z => z =? 1
  | JFloat f => PrimFloat.eqb f 1%float
  | _ => false
  end.

(** ** Exceptions

    The classes the two modules raise or catch.  [APIResponseError] is the
    client's own subclass of [aiohttp.ClientResponseError]; [ClientError]
    stands for [aiohttp.ClientError("API Error: " + str(detail))]. *)
Inductive exn : Type :=
| RuntimeError (msg : string)
| ValueError (msg : string)
| TypeError (msg : string)
| KeyError (key : string)
| AttributeError (msg : string)
| OverflowError (msg : string)
| OSError (path : string)
| ClientError (detail : json)
| ServerDisconnectedError
| ClientOSError (errno : Z)
| ClientResponseError (status : Z) (message : string)
| APIResponseError (status : Z) (message : json)
| OtherException (name : string).

(** [isinstance(e, aiohttp.ClientResponseError)] together with [e.status] *)
Definition response_error_status (e : exn) : option Z :=
  match e with
  | ClientResponseError status _ => Some status
  | APIResponseError status _ => Some status
  | _ => None
  end.

Inductive result (A : Type) : Type :=
| Ok (a : A)
| Err (e : exn).
Arguments Ok {A} a.
Arguments Err {A} e.

(** Code that only computes and raises runs in [result]. *)
Definition rbind {A B} (r : result A) (k : A -> result B) : result B :=
  match r with
  | Ok a => k a
  | Err e => Err e
  end.

(** [try: r except Exception as e: handler(e)] *)
Definition rtry {A} (r : result A) (handler : exn -> result A) : result A :=
  match r with
  | Ok a => Ok a
  | Err e => handler e
  end.

Declare Scope result_scope.
Delimit Scope result_scope with result.
Notation "x <- r ;; k" := (rbind r (fun x => k))
  (at level 100, r at next level, right associativity) : result_scope.

(** ** Conversions *)

(** [str(z)] for an integer *)
Definition str_of_int (z : Z) : string :=
  DecimalString.NilZero.string_of_int (Z.to_int z).

(** [int(f)] for a float: truncation toward zero. *)
Definition int_of_float (f : float) : result Z :=
  match Prim2SF f with
  | S754_zero _ => Ok 0
  | S754_finite s m e =>
      let mag := if 0 <=? e then Z.pos m * 2 ^ e else Z.pos m / 2 ^ (- e) in
      Ok (if s then - mag else mag)
  | S754_infinity _ => Err (OverflowError "cannot convert float infinity to integer")
  | S754_nan => Err (ValueError "cannot convert float NaN to integer")
  end.

(** *** Strings

    A Python [str] is a sequence of Unicode code points.  It is held as a
    [string], the bytes of its UTF-8 encoding, which are the bytes
    [str.encode()] hands to [hashlib].  Concatenation, equality, emptiness
    and the search for an ASCII separator read the same on the bytes;
    [str.strip], [int] and [s[1:]] go through the code points. *)

Definition byte_of (c : ascii) : Z := Z.of_nat (nat_of_ascii c).

Definition chr_byte (b : Z) : ascii := ascii_of_nat (Z.to_nat b).

(** The code points of the bytes read so far; [pending] is the part already
    read of a character that still needs [need] bytes. *)
Fixpoint decode_utf8 (s : string) (pending : Z) (need : nat) : list Z :=
  match s with
  | EmptyString => []
  | String c r =>
      let b := byte_of c in
      match need with
      | O =>
          if b <? 0x80 then b :: decode_utf8 r 0 0
          else if b <? 0xE0 then decode_utf8 r (b - 0xC0) 1
          else if b <? 0xF0 then decode_utf8 r (b - 0xE0) 2
          else decode_utf8 r (b - 0xF0) 3
      | S O => (64 * pending + (b - 0x80)) :: decode_utf8 r 0 0
      | S k => decode_utf8 r (64 * pending + (b - 0x80)) k
      end
  end.

Definition code_points (s : string) : list Z := decode_utf8 s 0 0.

(** The UTF-8 bytes of one code point. *)
Definition utf8_char (cp : Z) : string :=
  let cont (x : Z) := chr_byte (0x80 + x mod 64) in
  if cp <? 0x80 then String (chr_byte cp) EmptyString
  else if cp <? 0x800 then
    String (chr_byte (0xC0 + cp / 64)) (String (cont cp) EmptyString)
  else if cp <? 0x10000 then
    String (chr_byte (0xE0 + cp / 4096))
      (String (cont (cp / 64)) (String (cont cp) EmptyString))
  else
    String (chr_byte (0xF0 + cp / 262144))
      (String (cont (cp / 4096)) (String (cont (cp / 64)) (String (cont cp) EmptyString))).

Fixpoint str_of_code_points (l : list Z) : string :=
  match l with
  | [] => EmptyString
  | cp :: r => (utf8_char cp ++ str_of_code_points r)%string
  end.

(** [Py_UNICODE_ISSPACE]: the white space of [str.strip], [str.isspace] and,
    above ASCII, of [int]. *)
Definition Py_UNICODE_ISSPACE (cp : Z) : bool :=
  existsb (fun range => (fst range <=? cp) && (cp <=? snd range))
    [(0x9, 0xD); (0x1C, 0x20); (0x85, 0x85); (0xA0, 0xA0); (0x1680, 0x1680);
     (0x2000, 0x200A); (0x2028, 0x2029); (0x202F, 0x202F); (0x205F, 0x205F);
     (0x3000, 0x3000)].

(** [Py_ISSPACE]: the white space [int] skips in ASCII text; the separators
    0x1C to 0x1F are not part of it. *)
Definition Py_ISSPACE (c : Z) : bool :=
  ((0x9 <=? c) && (c <=? 0xD)) || (c =? 0x20).

(** The digit zero of each run of ten decimal digits (Unicode 14.0, the
    character database of CPython 3.11). *)
Definition decimal_zeros : list Z :=
  [0x30; 0x660; 0x6F0; 0x7C0; 0x966; 0x9E6; 0xA66; 0xAE6; 0xB66; 0xBE6; 0xC66;
   0xCE6; 0xD66; 0xDE6; 0xE50; 0xED0; 0xF20; 0x1040; 0x1090; 0x17E0; 0x1810;
   0x1946; 0x19D0; 0x1A80; 0x1A90; 0x1B50; 0x1BB0; 0x1C40; 0x1C50; 0xA620;
   0xA8D0; 0xA900; 0xA9D0; 0xA9F0; 0xAA50; 0xABF0; 0xFF10; 0x104A0; 0x10D30;
   0x11066; 0x110F0; 0x11136; 0x111D0; 0x112F0; 0x11450; 0x114D0; 0x11650;
   0x116C0; 0x11730; 0x118E0; 0x11950; 0x11C50; 0x11D50; 0x11DA0; 0x16A60;
   0x16AC0; 0x16B50; 0x1D7CE; 0x1D7D8; 0x1D7E2; 0x1D7EC; 0x1D7F6; 0x1E140;
   0x1E2F0; 0x1E950; 0x1FBF0].

(** [Py_UNICODE_TODECIMAL] *)
Definition Py_UNICODE_TODECIMAL (cp : Z) : option Z :=
  match find (fun zero => (zero <=? cp) && (cp <? zero + 10)) decimal_zeros with
  | Some zero => Some (cp - zero)
  | None => None
  end.

Fixpoint lstrip (is_space : Z -> bool) (l : list Z) : list Z :=
  match l with
  | c :: r => if is_space c then lstrip is_space r else l
  | [] => []
  end.

(** [s.strip()] *)
Definition strip (s : string) : string :=
  str_of_code_points
    (rev (lstrip Py_UNICODE_ISSPACE (rev (lstrip Py_UNICODE_ISSPACE (code_points s))))).

(** [s[1:]] *)
Definition str_tail (s : string) : string := str_of_code_points (tl (code_points s)).

(** What [int] makes of a character before it parses: a character below 127
    stays, other white space becomes a space, other decimal digits their
    ASCII digit, and anything else a character no number contains. *)
Definition transform_decimal_and_space (cp : Z) : Z :=
  if cp <? 127 then cp
  else if Py_UNICODE_ISSPACE cp then 0x20
  else match Py_UNICODE_TODECIMAL cp with
       | Some d => 0x30 + d
       | None => 0x3F
       end.

(** The run of decimal digits and underscores at the head of [l]: the value
    of the digits, their number and what follows the run.  Two underscores
    in a row, or an underscore at the end of the run, are an error. *)
Fixpoint scan_digits (l : list Z) (acc digits : Z) (prev_underscore : bool)
    : option (Z * Z * list Z) :=
  match l with
  | c :: r =>
      if (0x30 <=? c) && (c <=? 0x39) then
        scan_digits r (10 * acc + (c - 0x30)) (digits + 1) false
      else if c =? 0x5F then
        if prev_underscore then None else scan_digits r acc digits true
      else if prev_underscore then None
      else Some (acc, digits, l)
  | [] => if prev_underscore then None else Some (acc, digits, [])
  end.

(** [sys.get_int_max_str_digits()], at its default *)
Definition int_max_str_digits : Z := 4300.

(** [int(s)] for a string, base 10: white space, a sign, digits with single
    underscores between them, white space.  More digits than the limit are
    refused before what follows them is looked at. *)
Definition int_of_string (s : string) : result Z :=
  let invalid := Err (ValueError "invalid literal for int() with base 10") in
  let str := lstrip Py_ISSPACE (map transform_decimal_and_space (code_points s)) in
  let signed :=
    match str with
    | c :: r => if c =? 0x2B then (1, r) else if c =? 0x2D then (-1, r) else (1, str)
    | [] => (1, str)
    end in
  match snd signed with
  | c :: _ =>
      if c =? 0x5F then invalid
      else
        match scan_digits (snd signed) 0 0 false with
        | None => invalid
        | Some (z, digits, rest) =>
            if int_max_str_digits <? digits then
              Err (ValueError "Exceeds the limit (4300 digits) for integer string conversion")
            else if digits =? 0 then invalid
            else if forallb Py_ISSPACE rest then Ok (fst signed * z)
            else invalid
        end
  | [] => invalid
  end.

(** [int(v)] *)
Definition py_int (v : json) : result Z :=
  match v with
  | JNull => Err (TypeError "int() argument must be a string, a bytes-like object or a real number")
  | JBool b => Ok (if b then 1 else 0)
  | JInt z => Ok z
  | JFloat f => int_of_float f
  | JStr s => int_of_string s
  | JList _ | JDict _ =>
      Err (TypeError "int() argument must be a string, a bytes-like object or a real number")
  end.

(** [v.get(k, default)]: only a dict has [get]. *)
Definition py_get (v : json) (k : string) (default : json) : result json :=
  match v with
  | JDict d => Ok (match dict_lookup k d with Some x => x | None => default end)
  | _ => Err (AttributeError "object has no attribute 'get'")
  end.

(** [v[k]] for a string key *)
Definition py_getitem (v : json) (k : string) : result json :=
  match v with
  | JDict d =>
      match dict_lookup k d with Some x => Ok x | None => Err (KeyError k) end
  | _ => Err (TypeError "object is not subscriptable by a string key")
  end.

(** ** The client object, the outside world and the monad of methods *)

Inductive http_method : Type := GET | POST.

(** The [data=] argument: form fields, or the two-part multipart body that
    [upload_file] builds. *)
Inductive payload : Type :=
| FormData (fields : dict)
| MultipartUpload (desc : json) (filename : string) (content : string).

(** What [session.request] is given. *)
Record request : Type := {
  rq_method : http_method;
  rq_url : string;
  rq_json : option json;
  rq_data : option payload;
  rq_params : dict
}.

(** What comes back: the transport raises, or a response arrives with its
    status line and what [await response.json()] will yield. *)
Inductive answer : Type :=
| Failure (e : exn)
| Response (status : Z) (reason : string) (body : result json).

Inductive event : Type :=
| EvRequest (rq : request)
| EvTime (now : float)
| EvSleep (seconds : float)
| EvOpen (path : string).

(** The printer, the clock and the file system, each a function of what has
    been observed so far. *)
Record world : Type := {
  server : list event -> request -> answer;
  time_time : list event -> float;
  open_rb : list event -> string -> option string
}.

(** The attributes of an API object.  [is_camera_api] and [is_host_based]
    are [isinstance(self, Raise3DCameraAPI)] and
    [isinstance(self, Raise3DHostBasedAPIBase)]. *)
Record client : Type := {
  session_closed : bool;
  printer_url : string;
  printer_token : json;
  printer_password : string;
  printer_auto_auth : bool;
  is_camera_api : bool;
  camera_url : string;
  camera_username : json;
  camera_password : json;
  is_host_based : bool;
  host : string;
  camera_port : Z;
  printer_port : Z
}.

Record state : Type := {
  self : client;
  trace : list event
}.

Definition M (A : Type) : Type := world -> state -> result A * state.

Definition ret {A} (a : A) : M A := fun _ st => (Ok a, st).

Definition raise {A} (e : exn) : M A := fun _ st => (Err e, st).

Definition bind {A B} (m : M A) (k : A -> M B) : M B :=
  fun w st =>
    match m w st with
    | (Ok a, st') => k a w st'
    | (Err e, st') => (Err e, st')
    end.

(** [try: m except Exception as e: handler(e)] *)
Definition try_except {A} (m : M A) (handler : exn -> M A) : M A :=
  fun w st =>
    match m w st with
    | (Ok a, st') => (Ok a, st')
    | (Err e, st') => handler e w st'
    end.

Definition lift {A} (r : result A) : M A := fun _ st => (r, st).

Definition get_self : M client := fun _ st => (Ok (self st), st).

Definition set_self (f : client -> client) : M unit :=
  fun _ st => (Ok tt, {| self := f (self st); trace := trace st |}).

Definition emit (ev : event) (st : state) : state :=
  {| self := self st; trace := trace st ++ [ev] |}.

Declare Scope monad_scope.
Delimit Scope monad_scope with monad.
Notation "x <- m ;; k" := (bind m (fun x => k))
  (at level 100, m at next level, right associativity) : monad_scope.
Notation "' p <- m ;; k" := (bind m (fun p => k))
  (at level 100, p pattern, m at next level, right associativity) : monad_scope.
Notation "m ;; k" := (bind m (fun _ => k))
  (at level 100, right associativity) : monad_scope.
Open Scope monad_scope.

(** [time.time()] *)
Definition time_now : M float :=
  fun w st => let t := time_time w (trace st) in (Ok t, emit (EvTime t) st).

(** [await asyncio.sleep(seconds)] *)
Definition asyncio_sleep (seconds : float) : M unit :=
  fun _ st => (Ok tt, emit (EvSleep seconds) st).

(** [open(path, "rb")] followed by reading the file *)
Definition open_read (path : string) : M string :=
  fun w st =>
    match open_rb w (trace st) path with
    | Some content => (Ok content, emit (EvOpen path) st)
    | None => (Err (OSError path), emit (EvOpen path) st)
    end.

(** [async with self.session.request(..., raise_for_status=True) as response]:
    the request is sent; a response whose status is 400 or more is turned
    into [ClientResponseError] by aiohttp before the body of the [with] runs. *)
Definition session_request (rq : request) : M (Z * result json) :=
  fun w st =>
    let st' := emit (EvRequest rq) st in
    match server w (trace st) rq with
    | Failure e => (Err e, st')
    | Response status reason body =>
        if 400 <=? status then (Err (ClientResponseError status reason), st')
        else (Ok (status, body), st')
    end.

Definition set_printer_token (v : json) (c : client) : client :=
  {| session_closed := session_closed c; printer_url := printer_url c;
     printer_token := v; printer_password := printer_password c;
     printer_auto_auth := printer_auto_auth c; is_camera_api := is_camera_api c;
     camera_url := camera_url c; camera_username := camera_username c;
     camera_password := camera_password c; is_host_based := is_host_based c;
     host := host c; camera_port := camera_port c; printer_port := printer_port c |}.

Definition set_camera_username (v : json) (c : client) : client :=
  {| session_closed := session_closed c; printer_url := printer_url c;
     printer_token := printer_token c; printer_password := printer_password c;
     printer_auto_auth := printer_auto_auth c; is_camera_api := is_camera_api c;
     camera_url := camera_url c; camera_username := v;
     camera_password := camera_password c; is_host_based := is_host_based c;
     host := host c; camera_port := camera_port c; printer_port := printer_port c |}.

Definition set_camera_password (v : json) (c : client) : client :=
  {| session_closed := session_closed c; printer_url := printer_url c;
     printer_token := printer_token c; printer_password := printer_password c;
     printer_auto_auth := printer_auto_auth c; is_camera_api := is_camera_api c;
     camera_url := camera_url c; camera_username := camera_username c;
     camera_password := v; is_host_based := is_host_based c;
     host := host c; camera_port := camera_port c; printer_port := printer_port c |}.

(** The [camera_port] setter of [Raise3DHostBasedAPIBase] also rebuilds
    [camera_url]. *)
Definition set_camera_port (port : Z) (c : client) : client :=
  {| session_closed := session_closed c; printer_url := printer_url c;
     printer_token := printer_token c; printer_password := printer_password c;
     printer_auto_auth := printer_auto_auth c; is_camera_api := is_camera_api c;
     camera_url := ("http://" ++ host c ++ ":" ++ str_of_int port)%string;
     camera_username := camera_username c;
     camera_password := camera_password c; is_host_based := is_host_based c;
     host := host c; camera_port := port; printer_port := printer_port c |}.

(** [Raise3DAPIBase.close]: closes the aiohttp session. *)
Definition close : M unit :=
  set_self (fun c =>
  {| session_closed := true; printer_url := printer_url c;
     printer_token := printer_token c; printer_password := printer_password c;
     printer_auto_auth := printer_auto_auth c; is_camera_api := is_camera_api c;
     camera_url := camera_url c; camera_username := camera_username c;
     camera_password := camera_password c; is_host_based := is_host_based c;
     host := host c; camera_port := camera_port c; printer_port := printer_port c |}).

(** The arguments of [printer_request].  [c_auto_auth] is the keyword
    argument [auto_auth], which only the stateful client accepts; [None]
    means it was not passed. *)
Record call : Type := {
  c_method : http_method;
  c_endpoint : string;
  c_params : option dict;
  c_json : option json;
  c_data : option payload;
  c_auth : bool;
  c_auto_auth : option bool
}.

(** A timestamp argument: a [datetime] (held as what its [timestamp()]
    method returns) or any other Python value, [Value JNull] being [None]. *)
Inductive pyobj : Type :=
| Datetime (posix : float)
| Value (v : json).

Definition str_partition_head (sep : ascii) : string -> string :=
  fix go (s : string) : string :=
    match s with
    | EmptyString => EmptyString
    | String c r => if Ascii.eqb c sep then EmptyString else String c (go r)
    end.

(** [s.rpartition(sep)]: [Some (head, tail)] around the last [sep]. *)
Fixpoint str_rsplit (sep : ascii) (s : string) : option (string * string) :=
  match s with
  | EmptyString => None
  | String c r =>
      match str_rsplit sep r with
      | Some (h, t) => Some (String c h, t)
      | None => if Ascii.eqb c sep then Some (EmptyString, r) else None
      end
  end.

Definition rpartition (sep : ascii) (s : string) : string * string :=
  match str_rsplit sep s with
  | Some ht => ht
  | None => (EmptyString, s)
  end.

(** ** class [Raise3DPrinterAPI] *)
Module Raise3DPrinterAPI.

Definition generate_sign (password : string) (timestamp : pyobj) : M (string * Z) :=
  timestamp <- match timestamp with
               | Value JNull => t <- time_now;; ret (Value (JFloat t))
               | Datetime posix => ret (Value (JFloat posix))
               | _ => ret timestamp
               end;;
  timestamp <- match timestamp with
               | Value (JFloat f) => lift (int_of_float (PrimFloat.mul f 1000%float))
               | _ => raise (ValueError "invalid timestamp argument")
               end;;
  let sha1_hash :=
    Hashlib.sha1_hexdigest
      ("password=" ++ password ++ "&timestamp=" ++ str_of_int timestamp)%string in
  let sign := Hashlib.md5_hexdigest sha1_hash in
  ret (sign, timestamp).

(** The request [printer_request] hands to the session: the URL and the
    query parameters, the token first when the call is authenticated. *)
Definition build_request (this : client) (c : call) : request :=
  let url := (printer_url this ++ c_endpoint c)%string in
  let pass_params : dict := [] in
  let pass_params :=
    if c_auth c then dict_set "token" (printer_token this) pass_params
    else pass_params in
  let pass_params :=
    match c_params c with
    | Some params =>
        if truthy (JDict params) then dict_update pass_params params
        else pass_params
    | None => pass_params
    end in
  {| rq_method := c_method c; rq_url := url; rq_json := c_json c;
     rq_data := c_data c; rq_params := pass_params |}.

(** What [printer_request] does with a response: its status and the
    document [response.json()] gave. *)
Definition handle_response (status : Z) (response_data : json) : result json :=
  (success <- (if status =? 200 then
                 s <- py_get response_data "status" JNull;; Ok (eq_one s)
               else Ok false);;
   if (success : bool) then py_get response_data "data" JNull
   else
     error_code <- rtry
       (err <- py_get response_data "error" (JDict []);;
        code <- py_get err "code" JNull;;
        py_int code)
       (fun e =>
          match e with
          | TypeError _ | ValueError _ =>
              err <- py_get response_data "error" (JDict []);;
              msg <- py_get err "msg" (JStr "Unknown error");;
              Err (ClientError msg)
          | _ => Err e
          end);;
     err <- py_get response_data "error" (JDict []);;
     error_msg <- py_get err "msg" (JStr "Unknown error");;
     Err (APIResponseError error_code error_msg))%result.

(** The body of [printer_request], after the keyword arguments are bound. *)
Definition printer_request_body (c : call) : M json :=
  this <- get_self;;
  if session_closed this then raise (RuntimeError "Client session is closed!")
  else if c_auth c && negb (truthy (printer_token this)) then
    raise (ValueError "Authentication token is required for this API call.")
  else
    '(status, body) <- session_request (build_request this c);;
    response_data <- lift body;;
    lift (handle_response status response_data).

(** [Raise3DPrinterAPI.printer_request] has no [auto_auth] parameter. *)
Definition printer_request (c : call) : M json :=
  match c_auto_auth c with
  | Some _ =>
      raise (TypeError "printer_request() got an unexpected keyword argument 'auto_auth'")
  | None => printer_request_body c
  end.

(** The remaining methods call [self.printer_request], which a subclass
    overrides: [dispatch] is the method the object at hand resolves it to. *)
Section Methods.
Variable dispatch : call -> M json.

Definition _prv1 (method : http_method) (url : string)
    (params : option dict) (json_ : option json) (data : option payload)
    (auth : bool) (auto_auth : option bool) : M json :=
  dispatch {| c_method := method; c_endpoint := ("/v1" ++ url)%string;
              c_params := params; c_json := json_; c_data := data;
              c_auth := auth; c_auto_auth := auto_auth |}.

Definition login (sign : string) (timestamp : Z) (auto_auth : option bool) : M json :=
  _prv1 GET "/login"
    (Some [("sign", JStr sign); ("timestamp", JInt timestamp)]) None None
    false auto_auth.

Definition get_system_info : M json :=
  _prv1 GET "/printer/system" None None None true None.

Definition get_camera_info : M json :=
  _prv1 GET "/printer/camera" None None None true None.

Definition get_running_status : M json :=
  _prv1 GET "/printer/runningstatus" None None None true None.

Definition get_basic_info : M json :=
  _prv1 GET "/printer/basic" None None None true None.

Definition get_statistics : M json :=
  _prv1 GET "/dashboard/statistics" None None None true None.

Definition get_left_nozzle_info : M json :=
  _prv1 GET "/printer/nozzle1" None None None true None.

Definition get_right_nozzle_info : M json :=
  _prv1 GET "/printer/nozzle2" None None None true None.

Definition set_left_nozzle_temp (temperature : Z) : M json :=
  _prv1 POST "/printer/nozzle1/temp/set" None
    (Some (JDict [("temperature", JInt temperature)])) None true None.

Definition set_right_nozzle_temp (temperature : Z) : M json :=
  _prv1 POST "/printer/nozzle2/temp/set" None
    (Some (JDict [("temperature", JInt temperature)])) None true None.

Definition set_left_nozzle_flowrate (flowrate : Z) : M json :=
  _prv1 POST "/printer/nozzle1/flowrate/set" None
    (Some (JDict [("flowrate", JInt flowrate)])) None true None.

Definition set_right_nozzle_flowrate (flowrate : Z) : M json :=
  _prv1 POST "/printer/nozzle2/flowrate/set" None
    (Some (JDict [("flowrate", JInt flowrate)])) None true None.

Definition set_heatbed_temp (temperature : Z) : M json :=
  _prv1 POST "/printer/heatbedtemp/set" None
    (Some (JDict [("temperature", JInt temperature)])) None true None.

Definition set_feedrate (feedrate : Z) : M json :=
  _prv1 POST "/printer/feedrate/set" None
    (Some (JDict [("feedrate", JInt feedrate)])) None true None.

Definition set_fan_speed (fanspeed : Z) : M json :=
  _prv1 POST "/printer/fanspeed/set" None
    (Some (JDict [("fanspeed", JInt fanspeed)])) None true None.

Definition set_if_given (k : string) (o : option Z) (d : dict) : dict :=
  match o with Some v => dict_set k (JInt v) d | None => d end.

(** [is_relative_pos] is an [int] or a [bool]: [inl] or [inr]. *)
Definition axis_control (is_relative_pos : Z + bool)
    (x y z e feed nozzle : option Z) : M json :=
  let params : dict :=
    [("is_relative_pos",
      JInt (match is_relative_pos with
            | inl n => n
            | inr b => if b then 1 else 0
            end))] in
  let params := set_if_given "x" x params in
  let params := set_if_given "y" y params in
  let params := set_if_given "z" z params in
  let params := set_if_given "e" e params in
  let params := set_if_given "nozzle" nozzle params in
  let params := set_if_given "feed" feed params in
  _prv1 POST "/printer/axiscontrol/set" None (Some (JDict params)) None true None.

Definition move_home : M json :=
  axis_control (inr false) (Some 0) (Some 0) (Some 0) None None None.

Definition move_file (file_src file_dst : string) : M json :=
  _prv1 POST "/filepos/moveto" None None
    (Some (FormData [("file_src", JStr file_src); ("file_dst", JStr file_dst)]))
    true None.

Definition copy_file (file_src file_dst : string) : M json :=
  _prv1 POST "/filepos/copy" None None
    (Some (FormData [("file_src", JStr file_src); ("file_dst", JStr file_dst)]))
    true None.

Definition rename_file (file_path new_name : string) : M json :=
  _prv1 POST "/filepos/rename" None None
    (Some (FormData [("file_path", JStr file_path); ("new_name", JStr new_name)]))
    true None.

Definition delete_file (file_path : string) : M json :=
  _prv1 POST "/filepos/delete" (Some [("data_path", JStr file_path)])
    None None true None.

Definition get_current_job : M json :=
  _prv1 GET "/job/currentjob" None None None true None.

Definition set_current_job (operate : string) : M json :=
  _prv1 POST "/job/currentjob" (Some [("operate", JStr operate)])
    None None true None.

Definition create_job (file_path : string) : M json :=
  _prv1 POST "/job/create" (Some [("file_path", JStr file_path)])
    None None true None.

Definition recover_last_job : M json :=
  _prv1 POST "/job/recover/set" None None None true None.

Definition list_jobs (start_pos max_num : Z) : M json :=
  _prv1 GET "/dashboard/job"
    (Some [("start_pos", JInt start_pos); ("max_num", JInt max_num)])
    None None true None.

Definition get_job (job_id : string) (pos : Z) : M json :=
  _prv1 GET "/dashboard/job" (Some [("job_id", JStr job_id); ("pos", JInt pos)])
    None None true None.

(** [height = width or 32] when no height is given, then [width = height]
    when no width is given. *)
Definition image_size (width height : option Z) : Z * Z :=
  let height :=
    match height with
    | Some h => h
    | None => match width with
              | Some w => if w =? 0 then 32 else w
              | None => 32
              end
    end in
  let width := match width with Some w => w | None => height end in
  (width, height).

Definition get_job_image (job_id : string) (width height : option Z) : M json :=
  let '(width, height) := image_size width height in
  _prv1 GET "/dashboard/imagedownload"
    (Some [("job_id", JStr job_id); ("width", JInt width); ("height", JInt height)])
    None None true None.

Definition create_directory (dir_path : string) : M json :=
  _prv1 POST "/filepos/dir/create" None None
    (Some (FormData [("dir_path", JStr dir_path)])) true None.

Definition rename_directory (dir_path new_name : string) : M json :=
  _prv1 POST "/filepos/dir/rename" None None
    (Some (FormData [("dir_path", JStr dir_path); ("new_name", JStr new_name)]))
    true None.

Definition delete_directory (dir_path : string) : M json :=
  _prv1 POST "/filepos/dir/delete" (Some [("dir_path", JStr dir_path)])
    None None true None.

Definition upload_file (file_path destination_path : string) : M json :=
  let '(dir_path, filename) := rpartition "/" destination_path in
  file <- open_read file_path;;
  _prv1 POST "/fileops/upload" None None
    (Some (MultipartUpload (JDict [("dir_path", JStr dir_path)]) filename file))
    true None.

Definition download_image (data_path : string) (width height : option Z) : M json :=
  let '(width, height) := image_size width height in
  _prv1 GET "/fileops/imagedownload"
    (Some [("data_path", JStr data_path); ("width", JInt width); ("height", JInt height)])
    None None true None.

Definition list_directory (directory_path : string) (start_pos max_num : Z) : M json :=
  _prv1 GET "/fileops/list"
    (Some [("dir", JStr directory_path); ("start_pos", JInt start_pos);
           ("max_num", JInt max_num)])
    None None true None.

End Methods.
End Raise3DPrinterAPI.

(** ** class [Raise3DStatefulPrinterAPI] *)
Module Raise3DStatefulPrinterAPI.

(** [login], given what [self.printer_request] resolves to.  The extra
    keyword arguments ([**kwargs], which no caller passes) are left out. *)
Definition login_via (dispatch : call -> M json)
    (sign : option string) (timestamp : option Z) : M json :=
  match timestamp, sign with
  | None, Some _ => raise (ValueError "signature provided without timestamp")
  | _, _ =>
      this <- get_self;;
      '(sign, timestamp) <-
        Raise3DPrinterAPI.generate_sign (printer_password this) (Value JNull);;
      response_data <- Raise3DPrinterAPI.login dispatch sign timestamp (Some false);;
      token <- lift (py_getitem response_data "token");;
      set_self (set_printer_token token);;
      ret response_data
  end.

(** [printer_request], given what [self.login()] resolves to.  The calls to
    the logger are left out. *)
Definition printer_request_via (login : M json) (c : call) : M json :=
  this <- get_self;;
  let auto_auth :=
    match c_auto_auth c with
    | None => printer_auto_auth this
    | Some b => b
    end in
  let super_call :=
    {| c_method := c_method c; c_endpoint := c_endpoint c; c_params := c_params c;
       c_json := c_json c; c_data := c_data c; c_auth := c_auth c;
       c_auto_auth := None |} in
  try_except (Raise3DPrinterAPI.printer_request super_call)
    (fun exc =>
       match response_error_status exc with
       | Some status =>
           if negb auto_auth || negb (status =? 401) then raise exc
           else (login;; Raise3DPrinterAPI.printer_request super_call)
       | None => raise exc
       end).

(** [printer_request] and [login] call each other; [depth] bounds the
    nesting of calls.  One level is all that is ever used
    ([printer_request_depth] below), since [login] passes
    [auto_auth=False]. *)
Fixpoint printer_request_upto (depth : nat) (c : call) : M json :=
  printer_request_via
    (match depth with
     | O => raise (OtherException "RecursionError")
     | S d => login_via (printer_request_upto d) None None
     end) c.

Definition printer_request : call -> M json := printer_request_upto 1.

Definition login : option string -> option Z -> M json := login_via printer_request.

Definition get_camera_info : M json :=
  response_data <- Raise3DPrinterAPI.get_camera_info printer_request;;
  this <- get_self;;
  (if is_camera_api this then
     user_name <- lift (py_getitem response_data "user_name");;
     set_self (set_camera_username user_name);;
     password <- lift (py_getitem response_data "password");;
     set_self (set_camera_password password);;
     if is_host_based this then
       uri <- lift (py_getitem response_data "camerserver_URI");;
       port <- match uri with
               | JStr s =>
                   lift (int_of_string (str_tail (str_partition_head "/" s)))
               | _ => raise (AttributeError "object has no attribute 'partition'")
               end;;
       set_self (set_camera_port port)
     else ret tt
   else ret tt);;
  ret response_data.

End Raise3DStatefulPrinterAPI.

(** ** The operations of the printer API, as data *)
Inductive operation : Type :=
| PrinterRequest (c : call)
| GetSystemInfo | GetCameraInfo | GetRunningStatus | GetBasicInfo | GetStatistics
| GetLeftNozzleInfo | GetRightNozzleInfo
| SetLeftNozzleTemp (temperature : Z) | SetRightNozzleTemp (temperature : Z)
| SetLeftNozzleFlowrate (flowrate : Z) | SetRightNozzleFlowrate (flowrate : Z)
| SetHeatbedTemp (temperature : Z) | SetFeedrate (feedrate : Z)
| SetFanSpeed (fanspeed : Z)
| AxisControl (is_relative_pos : Z + bool) (x y z e feed nozzle : option Z)
| MoveHome
| MoveFile (file_src file_dst : string) | CopyFile (file_src file_dst : string)
| RenameFile (file_path new_name : string) | DeleteFile (file_path : string)
| GetCurrentJob | SetCurrentJob (operate : string) | CreateJob (file_path : string)
| RecoverLastJob | ListJobs (start_pos max_num : Z) | GetJob (job_id : string) (pos : Z)
| GetJobImage (job_id : string) (width height : option Z)
| CreateDirectory (dir_path : string) | RenameDirectory (dir_path new_name : string)
| DeleteDirectory (dir_path : string)
| UploadFile (file_path destination_path : string)
| DownloadImage (data_path : string) (width height : option Z)
| ListDirectory (directory_path : string) (start_pos max_num : Z).

(** Every operation but login, on an object whose [printer_request] is
    [dispatch] and whose [get_camera_info] is [camera_info]. *)
Definition perform (dispatch : call -> M json) (camera_info : M json)
    (op : operation) : M json :=
  match op with
  | PrinterRequest c => dispatch c
  | GetSystemInfo => Raise3DPrinterAPI.get_system_info dispatch
  | GetCameraInfo => camera_info
  | GetRunningStatus => Raise3DPrinterAPI.get_running_status dispatch
  | GetBasicInfo => Raise3DPrinterAPI.get_basic_info dispatch
  | GetStatistics => Raise3DPrinterAPI.get_statistics dispatch
  | GetLeftNozzleInfo => Raise3DPrinterAPI.get_left_nozzle_info dispatch
  | GetRightNozzleInfo => Raise3DPrinterAPI.get_right_nozzle_info dispatch
  | SetLeftNozzleTemp t => Raise3DPrinterAPI.set_left_nozzle_temp dispatch t
  | SetRightNozzleTemp t => Raise3DPrinterAPI.set_right_nozzle_temp dispatch t
  | SetLeftNozzleFlowrate f => Raise3DPrinterAPI.set_left_nozzle_flowrate dispatch f
  | SetRightNozzleFlowrate f => Raise3DPrinterAPI.set_right_nozzle_flowrate dispatch f
  | SetHeatbedTemp t => Raise3DPrinterAPI.set_heatbed_temp dispatch t
  | SetFeedrate f => Raise3DPrinterAPI.set_feedrate dispatch f
  | SetFanSpeed f => Raise3DPrinterAPI.set_fan_speed dispatch f
  | AxisControl r x y z e feed nozzle =>
      Raise3DPrinterAPI.axis_control dispatch r x y z e feed nozzle
  | MoveHome => Raise3DPrinterAPI.move_home dispatch
  | MoveFile a b => Raise3DPrinterAPI.move_file dispatch a b
  | CopyFile a b => Raise3DPrinterAPI.copy_file dispatch a b
  | RenameFile a b => Raise3DPrinterAPI.rename_file dispatch a b
  | DeleteFile a => Raise3DPrinterAPI.delete_file dispatch a
  | GetCurrentJob => Raise3DPrinterAPI.get_current_job dispatch
  | SetCurrentJob o => Raise3DPrinterAPI.set_current_job dispatch o
  | CreateJob a => Raise3DPrinterAPI.create_job dispatch a
  | RecoverLastJob => Raise3DPrinterAPI.recover_last_job dispatch
  | ListJobs a b => Raise3DPrinterAPI.list_jobs dispatch a b
  | GetJob a b => Raise3DPrinterAPI.get_job dispatch a b
  | GetJobImage a w h => Raise3DPrinterAPI.get_job_image dispatch a w h
  | CreateDirectory a => Raise3DPrinterAPI.create_directory dispatch a
  | RenameDirectory a b => Raise3DPrinterAPI.rename_directory dispatch a b
  | DeleteDirectory a => Raise3DPrinterAPI.delete_directory dispatch a
  | UploadFile a b => Raise3DPrinterAPI.upload_file dispatch a b
  | DownloadImage a w h => Raise3DPrinterAPI.download_image dispatch a w h
  | ListDirectory a b c => Raise3DPrinterAPI.list_directory dispatch a b c
  end.

(** On a plain [Raise3DPrinterAPI] object and on a stateful one. *)
Definition perform_plain : operation -> M json :=
  perform Raise3DPrinterAPI.printer_request
          (Raise3DPrinterAPI.get_camera_info Raise3DPrinterAPI.printer_request).

Definition perform_stateful : operation -> M json :=
  perform Raise3DStatefulPrinterAPI.printer_request
          Raise3DStatefulPrinterAPI.get_camera_info.

(** ** [_async_call_api_method] of [__init__.py]

    [__method] stands for the bound method with its arguments; the logger
    calls are left out. *)
Definition _async_call_api_method {A} (__method : M A) : M A :=
  try_except __method
    (fun exc =>
       let again := (asyncio_sleep 1.5%float;; __method) in
       match exc with
       | ServerDisconnectedError => again
       | ClientOSError errno => if negb (errno =? 104) then raise exc else again
       | ClientResponseError status _
       | APIResponseError status _ =>
           if negb (status =? 429) then raise exc else again
       | _ => raise exc
       end).

(** ** Worlds and clients to run the model on *)

Definition is_request (ev : event) : bool :=
  match ev with EvRequest _ => true | _ => false end.

(** A printer that gives the answers of a script in order, whatever is
    asked; the clock stands still and no file can be opened. *)
Definition scripted (answers : list answer) (now : float) : world :=
  {| server := fun tr _ =>
       nth (List.length (filter is_request tr)) answers (Failure ServerDisconnectedError);
     time_time := fun _ => now;
     open_rb := fun _ _ => None |}.

Definition sample_client (token : json) (auto_auth : bool) : client :=
  {| session_closed := false; printer_url := "http://10.0.0.5:10800";
     printer_token := token; printer_password := "secret";
     printer_auto_auth := auto_auth; is_camera_api := true;
     camera_url := "http://10.0.0.5:30"; camera_username := JNull;
     camera_password := JNull; is_host_based := true; host := "10.0.0.5";
     camera_port := 30; printer_port := 10800 |}.

Definition fresh (c : client) : state := {| self := c; trace := [] |}.

Definition simple_call (method : http_method) (endpoint : string) (auth : bool) : call :=
  {| c_method := method; c_endpoint := endpoint; c_params := None;
     c_json := None; c_data := None; c_auth := auth; c_auto_auth := None |}.

Definition ok_body (data : json) : result json :=
  Ok (JDict [("status", JInt 1); ("data", data)]).

Definition sent (st : state) : list string :=
  flat_map (fun ev => match ev with EvRequest rq => [rq_url rq] | _ => [] end) (trace st).

(** ** The vocabulary of the statements *)

(** What [printer_request] makes of the printer's answer. *)
Definition outcome (a : answer) : result json :=
  match a with
  | Failure e => Err e
  | Response status reason body =>
      if 400 <=? status then Err (ClientResponseError status reason)
      else match body with
           | Ok response_data =>
               Raise3DPrinterAPI.handle_response status response_data
           | Err e => Err e
           end
  end.

(** The login request for the stored password at millisecond time [ms]. *)
Definition login_request (this : client) (ms : Z) : request :=
  {| rq_method := GET;
     rq_url := (printer_url this ++ "/v1/login")%string;
     rq_json := None;
     rq_data := None;
     rq_params :=
       [("sign",
         JStr (Hashlib.md5_hexdigest
                 (Hashlib.sha1_hexdigest
                    ("password=" ++ printer_password this ++ "&timestamp="
                       ++ str_of_int ms)%string)));
        ("timestamp", JInt ms)] |}.

Definition super_call (c : call) : call :=
  {| c_method := c_method c; c_endpoint := c_endpoint c; c_params := c_params c;
     c_json := c_json c; c_data := c_data c; c_auth := c_auth c;
     c_auto_auth := None |}.

(** The [auto_auth] in force for a call: the keyword when given, the
    attribute otherwise. *)
Definition effective_auto_auth (this : client) (c : call) : bool :=
  match c_auto_auth c with
  | None => printer_auto_auth this
  | Some b => b
  end.

Definition lookup_or (k : string) (d : dict) (default : json) : json :=
  match dict_lookup k d with
  | Some v => v
  | None => default
  end.

(** The error branch of [handle_response]. *)
Definition api_error (response_data : json) : result json :=
  (error_code <- rtry
     (err <- py_get response_data "error" (JDict []);;
      code <- py_get err "code" JNull;;
      py_int code)
     (fun e =>
        match e with
        | TypeError _ | ValueError _ =>
            err <- py_get response_data "error" (JDict []);;
            msg <- py_get err "msg" (JStr "Unknown error");;
            Err (ClientError msg)
        | _ => Err e
        end);;
   err <- py_get response_data "error" (JDict []);;
   error_msg <- py_get err "msg" (JStr "Unknown error");;
   Err (APIResponseError error_code error_msg))%result.


(** A login request is among the events [evs]. *)
Definition login_sent (this : client) (evs : list event) : Prop :=
  exists ms : Z, In (EvRequest (login_request this ms)) evs.

(** From [st] to [st']: the password and the URL are the same, the trace
    has grown, and the token is the same unless a login request was sent. *)
Definition frame (st st' : state) : Prop :=
  printer_password (self st') = printer_password (self st) /\
  printer_url (self st') = printer_url (self st) /\
  exists evs : list event,
    trace st' = trace st ++ evs /\
    (printer_token (self st') = printer_token (self st) \/ login_sent (self st) evs).

Definition keeps {A} (m : M A) : Prop :=
  forall (w : world) (st : state), frame st (snd (m w st)).

Definition closed_client : client :=
  {| session_closed := true; printer_url := "http://10.0.0.5:10800";
     printer_token := JStr "tok"; printer_password := "secret";
     printer_auto_auth := true; is_camera_api := false;
     camera_url := EmptyString; camera_username := JNull;
     camera_password := JNull; is_host_based := false; host := "10.0.0.5";
     camera_port := 30; printer_port := 10800 |}.

Definition busy_answer : answer :=
  Response 200 "OK"
    (Ok (JDict [("status", JInt 0);
                ("error", JDict [("code", JStr "12"); ("msg", JStr "busy")])])).

Definition not_found_answer : answer :=
  Response 404 "Not Found"
    (Ok (JDict [("status", JInt 0);
                ("error", JDict [("code", JInt 5); ("msg", JStr "no such endpoint")])])).

Definition system_info_call : call := simple_call GET "/v1/printer/system" true.

(** The printer rejects the token, accepts the login and then answers. *)
Definition relogin_world : world :=
  scripted [Response 401 "Unauthorized" (Err (OtherException "no body"));
            Response 200 "OK" (ok_body (JDict [("token", JStr "new")]));
            Response 200 "OK" (ok_body (JDict [("machine_id", JStr "m1")]))]
           1700000000.5%float.

(** ** More of [__init__.py] and of the host-based client *)

(** [convert_unempty]: a string that is empty once stripped becomes [None]. *)
Definition convert_unempty (value : json) : json :=
  match value with
  | JStr s => if negb (truthy (JStr (strip s))) then JNull else value
  | _ => value
  end.

(** [wrap_convert_unempty(converter)]; the converter may raise. *)
Definition wrap_convert_unempty (converter : json -> result json)
    (value : json) : result json :=
  let value := convert_unempty value in
  match value with
  | JNull => Ok JNull
  | _ => converter value
  end.

(** The part of the update coordinator that [_async_update_data] touches:
    whether [async_shutdown] has been called. *)
Record coordinator : Type := {
  shutdown_requested : bool
}.

(** [Raise3DUpdateCoordinator._async_update_data]; [update_method] is the
    bound method [getattr(self.raise3d_api, self.update_method_name)], and
    a returned [JNull] is [None]. *)
Definition _async_update_data (update_method : M json) (co : coordinator)
    : M (json * coordinator) :=
  try_except
    (data <- _async_call_api_method update_method;; ret (data, co))
    (fun exc =>
       match response_error_status exc with
       | Some status =>
           if status =? 404 then ret (JNull, {| shutdown_requested := true |})
           else raise exc
       | None => raise exc
       end).

(** [f"http://{host}:{port}"] *)
Definition http_url (host : string) (port : Z) : string :=
  ("http://" ++ host ++ ":" ++ str_of_int port)%string.

(** The [printer_port] setter of [Raise3DHostBasedAPIBase] also rebuilds
    [printer_url]. *)
Definition set_printer_port (port : Z) (c : client) : client :=
  {| session_closed := session_closed c;
     printer_url := ("http://" ++ host c ++ ":" ++ str_of_int port)%string;
     printer_token := printer_token c; printer_password := printer_password c;
     printer_auto_auth := printer_auto_auth c; is_camera_api := is_camera_api c;
     camera_url := camera_url c; camera_username := camera_username c;
     camera_password := camera_password c; is_host_based := is_host_based c;
     host := host c; camera_port := camera_port c; printer_port := port |}.

(** ** class [Raise3DHostBasedStatefulAPI] *)
Module Raise3DHostBasedStatefulAPI.

(** The constructors along the method resolution order: the host-based
    base sets the host and, through the two setters, the ports and URLs;
    then the stateful printer class, the printer class and the camera class
    store their arguments.  [session_is_closed] is the state of the session
    handed in. *)
Definition init (host_ : string) (camera_port_ printer_port_ : Z)
    (printer_password_ : string) (printer_auto_auth_ : bool)
    (session_is_closed : bool) : client :=
  let blank :=
    {| session_closed := session_is_closed; printer_url := EmptyString;
       printer_token := JNull; printer_password := printer_password_;
       printer_auto_auth := printer_auto_auth_; is_camera_api := true;
       camera_url := EmptyString; camera_username := JNull;
       camera_password := JNull; is_host_based := true; host := host_;
       camera_port := 0; printer_port := 0 |} in
  set_printer_port printer_port_ (set_camera_port camera_port_ blank).

End Raise3DHostBasedStatefulAPI.

(** The configuration a config entry holds, as the config flow's schema
    validates it: [data[CONF_HOST]], [data[CONF_PORT]], [data[CONF_PASSWORD]]. *)
Record config_data : Type := {
  conf_host : string;
  conf_port : Z;
  conf_password : string
}.

Definition DEFAULT_CAMERA_PORT : Z := 30.

(** [async_initialize_api_from_configuration]: a host-based stateful client
    is built on the (open) session of the host application and logged in;
    the object built is the [self] of the state from then on, and it is
    returned. *)
Definition async_initialize_api_from_configuration (data : config_data) : M client :=
  set_self (fun _ =>
    Raise3DHostBasedStatefulAPI.init (conf_host data) DEFAULT_CAMERA_PORT
      (conf_port data) (conf_password data) true false);;
  Raise3DStatefulPrinterAPI.login None None;;
  raise3d_api <- get_self;;
  ret raise3d_api.

(** The two fields of a config entry that [async_migrate_entry] reads. *)
Record config_entry : Type := {
  version : Z;
  minor_version : Z
}.

(** [Raise3DFlowHandler.VERSION] and [MINOR_VERSION] *)
Definition FLOW_VERSION : Z := 2.
Definition FLOW_MINOR_VERSION : Z := 2.

(** [hass.config_entries.async_update_entry(config_entry, version=...,
    minor_version=..., ...)] is a method of the host application: given the
    entry and the version asked for, it yields the entry as it is after the
    call, or raises.  The migration is written for any such method. *)
Definition update_entry : Type := config_entry -> Z -> Z -> M config_entry.

(** A host that sets the version it is asked for. *)
Definition obliging_update_entry : update_entry :=
  fun _ version_ minor_version_ =>
    ret {| version := version_; minor_version := minor_version_ |}.

(** A host that leaves the entry as it is. *)
Definition idle_update_entry : update_entry := fun entry _ _ => ret entry.

(** The block [if config_entry.version == 1:] of [async_migrate_entry]: the
    printer is asked for its machine id, and the host is asked to make it
    the unique id of the entry and to set version 2.1. *)
Definition migrate_version_1 (async_update_entry : update_entry)
    (data : config_data) (entry : config_entry) : M config_entry :=
  if version entry =? 1 then
    async_initialize_api_from_configuration data;;
    system_info <- Raise3DPrinterAPI.get_system_info
                     Raise3DStatefulPrinterAPI.printer_request;;
    new_unique_id <- lift (py_getitem system_info "machine_id");;
    async_update_entry entry 2 1
  else ret entry.

(** The block [if config_entry.version == 2:].  [rename_unique_ids] stands
    for the work the entity registry of the host application does in the
    step from 2.1 (collecting the entity keys, [async_migrate_entries]); it
    may do anything and may raise.  The name [config_entries] read after
    that step is bound nowhere in the module, so evaluating it raises
    [NameError]. *)
Definition migrate_version_2 (async_update_entry : update_entry)
    (rename_unique_ids : M unit) (entry : config_entry) : M config_entry :=
  if version entry =? 2 then
    entry <- (if minor_version entry =? 1 then
                rename_unique_ids;;
                async_update_entry entry 2 2
              else ret entry);;
    raise (OtherException "NameError: name 'config_entries' is not defined")
  else ret entry.

(** [async_migrate_entry]: the value returned, with the entry as the host
    left it. *)
Definition async_migrate_entry (async_update_entry : update_entry)
    (rename_unique_ids : M unit) (data : config_data) (entry : config_entry)
    : M (bool * config_entry) :=
  if (FLOW_VERSION <? version entry)
     || ((version entry =? FLOW_VERSION) && (FLOW_MINOR_VERSION <? minor_version entry))
  then ret (false, entry)
  else
    entry <- migrate_version_1 async_update_entry data entry;;
    entry <- migrate_version_2 async_update_entry rename_unique_ids entry;;
    ret (true, entry).

(** ** More vocabulary *)

Definition is_time (ev : event) : bool :=
  match ev with EvTime _ => true | _ => false end.

Definition is_sleep (ev : event) : bool :=
  match ev with EvSleep _ => true | _ => false end.

(** The requests among some events, in order. *)
Definition requests (evs : list event) : list request :=
  flat_map (fun ev => match ev with EvRequest rq => [rq] | _ => [] end) evs.

(** A client whose two URLs are the ones its host and ports give. *)
Definition urls_consistent (c : client) : Prop :=
  printer_url c = http_url (host c) (printer_port c)
  /\ camera_url c = http_url (host c) (camera_port c).

(** Only white space (the empty string included): what [str.strip] reduces to
    nothing. *)
Definition all_space (s : string) : bool :=
  forallb Py_UNICODE_ISSPACE (code_points s).

(** Computations that add nothing to the trace. *)
Definition quiet {A} (m : M A) : Prop :=
  forall (w : world) (st : state), trace (snd (m w st)) = trace st.

Definition camera_info_call : call :=
  {| c_method := GET; c_endpoint := "/v1/printer/camera"; c_params := None;
     c_json := None; c_data := None; c_auth := true; c_auto_auth := None |}.

(** An API method (anything but the raw [printer_request]). *)
Definition is_api_method (op : operation) : bool :=
  match op with PrinterRequest _ => false | _ => true end.


(** [sep in s] for one character *)
Fixpoint has_char (sep : ascii) (s : string) : bool :=
  match s with
  | EmptyString => false
  | String c r => Ascii.eqb c sep || has_char sep r
  end.

(** The call [upload_file] makes once the file is read. *)
Definition upload_call (dir_path filename content : string) : call :=
  {| c_method := POST; c_endpoint := "/v1/fileops/upload"; c_params := None;
     c_json := None;
     c_data := Some (MultipartUpload (JDict [("dir_path", JStr dir_path)])
                       filename content);
     c_auth := true; c_auto_auth := None |}.

(** A lower-case hexadecimal digit. *)
Definition is_hex_char (c : ascii) : bool :=
  let n := nat_of_ascii c in
  ((48 <=? n) && (n <=? 57))%nat || ((97 <=? n) && (n <=? 102))%nat.

Fixpoint string_forall (p : ascii -> bool) (s : string) : bool :=
  match s with
  | EmptyString => true
  | String c r => p c && string_forall p r
  end.

(** The call [axis_control] makes with a JSON body. *)
Definition axis_call (body : dict) : call :=
  {| c_method := POST; c_endpoint := "/v1/printer/axiscontrol/set";
     c_params := None; c_json := Some (JDict body); c_data := None;
     c_auth := true; c_auto_auth := None |}.

Definition opt_json (o : option Z) : option json :=
  match o with
  | Some v => Some (JInt v)
  | None => None
  end.

(** The exceptions that come out of [handle_response]. *)
Definition response_handling_error (e : exn) : bool :=
  match e with
  | APIResponseError _ _ | ClientError _ | AttributeError _ | OverflowError _ => true
  | _ => false
  end.

(** What the [except (TypeError, ValueError)] clause catches. *)
Definition type_or_value_error (e : exn) : bool :=
  match e with
  | TypeError _ | ValueError _ => true
  | _ => false
  end.

Definition unauthorized_body : dict :=
  [("status", JInt 0);
   ("error", JDict [("code", JInt 401); ("msg", JStr "token expired")])].

Definition rate_limit_body : dict :=
  [("status", JInt 0);
   ("error", JDict [("code", JStr "429"); ("msg", JStr "slow down")])].

(** Computations that keep a property of the client object. *)
Definition preserves (P : client -> Prop) {A} (m : M A) : Prop :=
  forall (w : world) (st : state), P (self st) -> P (self (snd (m w st))).

Definition camera_info_world : world :=
  scripted [Response 200 "OK"
              (ok_body (JDict [("user_name", JStr "cam"); ("password", JStr "pw");
                               ("camerserver_URI", JStr ":8554/stream")]))]
           0%float.

Definition configured_client : client :=
  set_printer_token (JStr "tok")
    (Raise3DHostBasedStatefulAPI.init "10.0.0.5" 30 10800 "secret" true false).

Definition no_password_world : world :=
  scripted [Response 200 "OK" (ok_body (JDict [("user_name", JStr "cam")]))] 0%float.

Definition empty_token_world : world :=
  scripted [Response 401 "Unauthorized" (Err (OtherException "no body"));
            Response 200 "OK" (ok_body (JDict [("token", JStr EmptyString)]));
            Response 200 "OK" (ok_body (JDict [("machine_id", JStr "m1")]))]
           2.5%float.

(** ** Properties *)

(** *** [hashlib] and [int()] on reference values *)

Example sha1_empty :
  Hashlib.sha1_hexdigest EmptyString = "da39a3ee5e6b4b0d3255bfef95601890afd80709".
Proof. vm_compute. reflexivity. Qed.

Example sha1_abc :
  Hashlib.sha1_hexdigest "abc" = "a9993e364706816aba3e25717850c26c9cd0d89d".
Proof. vm_compute. reflexivity. Qed.

Example sha1_two_blocks :
  Hashlib.sha1_hexdigest
    "The quick brown fox jumps over the lazy dog, and then the quick brown fox jumps again."
  = "32cc7ebec1e37d54a7f82a3dedf2161ed24866f2".
Proof. vm_compute. reflexivity. Qed.

Example md5_empty :
  Hashlib.md5_hexdigest EmptyString = "d41d8cd98f00b204e9800998ecf8427e".
Proof. vm_compute. reflexivity. Qed.

Example md5_abc :
  Hashlib.md5_hexdigest "abc" = "900150983cd24fb0d6963f7d28e17f72".
Proof. vm_compute. reflexivity. Qed.

Example md5_two_blocks :
  Hashlib.md5_hexdigest
    "The quick brown fox jumps over the lazy dog, and then the quick brown fox jumps again."
  = "bbee31dd4d80ac8fa15e70a3e5cb3999".
Proof. vm_compute. reflexivity. Qed.

Example int_of_string_examples :
  int_of_string " 42 " = Ok 42 /\ int_of_string "-7" = Ok (-7) /\
  int_of_string "1_000" = Ok 1000 /\ int_of_string EmptyString = Err (ValueError "invalid literal for int() with base 10") /\
  int_of_string "4x" = Err (ValueError "invalid literal for int() with base 10") /\
  int_of_string "1__0" = Err (ValueError "invalid literal for int() with base 10") /\
  int_of_string "10_" = Err (ValueError "invalid literal for int() with base 10").
Proof. repeat split; reflexivity. Qed.

(** [int] and [str.strip] do not agree on white space: the separator 0x1C
    is stripped but makes no number; the no-break space and the Arabic-Indic
    digits are Unicode that [int] accepts.  4300 digits are converted, 4301
    are refused, also when an invalid character follows them. *)
Example int_of_string_unicode :
  int_of_string (str_of_code_points [0x1C; 0x31; 0x32])
  = Err (ValueError "invalid literal for int() with base 10")
  /\ strip (str_of_code_points [0x1C; 0x31; 0x32]) = "12"
  /\ int_of_string (str_of_code_points [0x661; 0x662]) = Ok 12
  /\ int_of_string (str_of_code_points [0xA0; 0x31; 0x32; 0x2003]) = Ok 12
  /\ int_of_string (str_of_code_points [0x2D; 0xFF14; 0x5F; 0x1D7D0]) = Ok (-42)
  /\ int_of_string (str_of_code_points (repeat 0x30 4299 ++ [0x37])) = Ok 7
  /\ int_of_string (str_of_code_points (repeat 0x30 4301 ++ [0x78]))
     = Err (ValueError "Exceeds the limit (4300 digits) for integer string conversion").
Proof. repeat split; vm_compute; reflexivity. Qed.

Example strip_examples :
  strip (str_of_code_points [0xA0; 0x2003; 0x85]) = EmptyString
  /\ strip (str_of_code_points [0x3000; 0x61; 0x20; 0xE9; 0x1F; 0x0A])
     = str_of_code_points [0x61; 0x20; 0xE9]
  /\ str_tail (str_of_code_points [0xE9; 0x31; 0x32]) = "12"
  /\ str_tail EmptyString = EmptyString.
Proof. repeat split; vm_compute; reflexivity. Qed.

Example int_of_float_examples :
  int_of_float 1.5%float = Ok 1 /\ int_of_float (-2.75)%float = Ok (-2) /\
  int_of_float 1700000000000%float = Ok 1700000000000 /\
  int_of_float PrimFloat.nan = Err (ValueError "cannot convert float NaN to integer") /\
  int_of_float PrimFloat.infinity = Err (OverflowError "cannot convert float infinity to integer").
Proof. repeat split; vm_compute; reflexivity. Qed.


Ltac run_monad :=
  unfold bind, ret, raise, lift, get_self, set_self, try_except,
    time_now, asyncio_sleep, session_request; simpl.

Section PlainRequest.
Variables (c : call) (w : world) (st : state).

Lemma body_closed :
  session_closed (self st) = true ->
  Raise3DPrinterAPI.printer_request_body c w st
  = (Err (RuntimeError "Client session is closed!"), st).
Proof.
  intros Hc. unfold Raise3DPrinterAPI.printer_request_body. run_monad.
  now rewrite Hc.
Qed.

Lemma body_missing_token :
  session_closed (self st) = false ->
  c_auth c = true ->
  truthy (printer_token (self st)) = false ->
  Raise3DPrinterAPI.printer_request_body c w st
  = (Err (ValueError "Authentication token is required for this API call."), st).
Proof.
  intros Hc Ha Ht. unfold Raise3DPrinterAPI.printer_request_body. run_monad.
  now rewrite Hc, Ha, Ht.
Qed.

Lemma body_sent :
  session_closed (self st) = false ->
  (c_auth c = true -> truthy (printer_token (self st)) = true) ->
  Raise3DPrinterAPI.printer_request_body c w st
  = (outcome (server w (trace st) (Raise3DPrinterAPI.build_request (self st) c)),
     emit (EvRequest (Raise3DPrinterAPI.build_request (self st) c)) st).
Proof.
  intros Hc Ht. unfold Raise3DPrinterAPI.printer_request_body. run_monad.
  rewrite Hc.
  assert (E : c_auth c && negb (truthy (printer_token (self st))) = false).
  { destruct (c_auth c); [rewrite Ht by reflexivity|]; reflexivity. }
  rewrite E. unfold outcome.
  destruct (server w (trace st) _) as [e | status reason body]; [reflexivity|].
  destruct (400 <=? status); [reflexivity|].
  destruct body; reflexivity.
Qed.

End PlainRequest.

(** [generate_sign] on each kind of timestamp. *)
Lemma generate_sign_float (password : string) (f : float) (w : world) (st : state) :
  Raise3DPrinterAPI.generate_sign password (Value (JFloat f)) w st
  = (match int_of_float (PrimFloat.mul f 1000%float) with
     | Ok ms =>
         Ok (Hashlib.md5_hexdigest
               (Hashlib.sha1_hexdigest
                  ("password=" ++ password ++ "&timestamp=" ++ str_of_int ms)%string),
             ms)
     | Err e => Err e
     end, st).
Proof.
  unfold Raise3DPrinterAPI.generate_sign. run_monad.
  destruct (int_of_float _); reflexivity.
Qed.

Lemma generate_sign_datetime (password : string) (posix : float) (w : world) (st : state) :
  Raise3DPrinterAPI.generate_sign password (Datetime posix) w st
  = Raise3DPrinterAPI.generate_sign password (Value (JFloat posix)) w st.
Proof. reflexivity. Qed.

Lemma generate_sign_now (password : string) (w : world) (st : state) :
  Raise3DPrinterAPI.generate_sign password (Value JNull) w st
  = Raise3DPrinterAPI.generate_sign password
      (Value (JFloat (time_time w (trace st)))) w
      (emit (EvTime (time_time w (trace st))) st).
Proof. reflexivity. Qed.

Lemma generate_sign_int (password : string) (z : Z) (w : world) (st : state) :
  Raise3DPrinterAPI.generate_sign password (Value (JInt z)) w st
  = (Err (ValueError "invalid timestamp argument"), st).
Proof. reflexivity. Qed.

(** The reference vector, on the float and the [datetime] that stand for
    1700000000000 ms. *)
Example generate_sign_golden (w : world) (st : state) :
  Raise3DPrinterAPI.generate_sign "secret" (Value (JFloat 1700000000%float)) w st
  = (Ok ("5403004a58bd1eee5f04caed7a75e7aa", 1700000000000), st)
  /\ Raise3DPrinterAPI.generate_sign "secret" (Datetime 1700000000%float) w st
     = (Ok ("5403004a58bd1eee5f04caed7a75e7aa", 1700000000000), st).
Proof.
  rewrite generate_sign_datetime, generate_sign_float.
  split; vm_compute; reflexivity.
Qed.

(** C1 (the code departs from the claim).  With the password "secret" and the
    integer millisecond timestamp 1700000000000, [generate_sign] does not
    return a signature: it raises [ValueError("invalid timestamp argument")],
    as it does for every integer timestamp, although its signature
    documents [int] as an accepted type. *)
Theorem generate_sign_integer_timestamp_raises :
  forall (w : world) (st : state),
    Raise3DPrinterAPI.generate_sign "secret" (Value (JInt 1700000000000)) w st
    = (Err (ValueError "invalid timestamp argument"), st).
Proof. intros. apply generate_sign_int. Qed.

Lemma bind_ext {A B} (m : M A) (k1 k2 : A -> M B) (w : world) (st : state) :
  (forall a st', k1 a w st' = k2 a w st') ->
  bind m k1 w st = bind m k2 w st.
Proof.
  intros H. unfold bind. destruct (m w st) as [[a | e] st']; [apply H | reflexivity].
Qed.

(** *** The stateful client: unfolding [printer_request] and [login] *)

Lemma build_request_super (this : client) (c : call) :
  Raise3DPrinterAPI.build_request this (super_call c)
  = Raise3DPrinterAPI.build_request this c.
Proof. reflexivity. Qed.

Lemma plain_super (c : call) (w : world) (st : state) :
  Raise3DPrinterAPI.printer_request (super_call c) w st
  = Raise3DPrinterAPI.printer_request_body c w st.
Proof. reflexivity. Qed.

Lemma printer_request_via_eq (login : M json) (c : call) (w : world) (st : state) :
  Raise3DStatefulPrinterAPI.printer_request_via login c w st
  = match Raise3DPrinterAPI.printer_request_body c w st with
    | (Ok a, st1) => (Ok a, st1)
    | (Err exc, st1) =>
        match response_error_status exc with
        | Some status =>
            if effective_auto_auth (self st) c && (status =? 401) then
              match login w st1 with
              | (Ok _, st2) => Raise3DPrinterAPI.printer_request_body c w st2
              | (Err e, st2) => (Err e, st2)
              end
            else (Err exc, st1)
        | None => (Err exc, st1)
        end
    end.
Proof.
  unfold Raise3DStatefulPrinterAPI.printer_request_via. run_monad.
  fold (super_call c). rewrite plain_super.
  destruct (Raise3DPrinterAPI.printer_request_body c w st) as [[a | exc] st1];
    [reflexivity|].
  destruct (response_error_status exc) as [status|]; [|reflexivity].
  unfold effective_auto_auth.
  destruct (match c_auto_auth c with
            | Some b => b
            | None => printer_auto_auth (self st)
            end); simpl; [|reflexivity].
  destruct (status =? 401); simpl; [|reflexivity].
  destruct (login w st1) as [[r | e] st2]; [|reflexivity].
  rewrite plain_super. reflexivity.
Qed.

Lemma printer_request_via_no_auto (l1 l2 : M json) (c : call) (w : world) (st : state) :
  c_auto_auth c = Some false ->
  Raise3DStatefulPrinterAPI.printer_request_via l1 c w st
  = Raise3DStatefulPrinterAPI.printer_request_via l2 c w st.
Proof.
  intros H. rewrite !printer_request_via_eq.
  unfold effective_auto_auth. rewrite H. simpl.
  destruct (Raise3DPrinterAPI.printer_request_body c w st) as [[a | exc] st1];
    [reflexivity|].
  destruct (response_error_status exc); reflexivity.
Qed.

Lemma printer_request_via_ext (l1 l2 : M json) (c : call) (w : world) (st : state) :
  (forall st', l1 w st' = l2 w st') ->
  Raise3DStatefulPrinterAPI.printer_request_via l1 c w st
  = Raise3DStatefulPrinterAPI.printer_request_via l2 c w st.
Proof.
  intros H. rewrite !printer_request_via_eq.
  destruct (Raise3DPrinterAPI.printer_request_body c w st) as [[a | exc] st1];
    [reflexivity|].
  destruct (response_error_status exc); [|reflexivity].
  destruct (_ && _); [|reflexivity].
  now rewrite H.
Qed.

Lemma login_via_ext (f g : call -> M json) (sign : option string)
    (timestamp : option Z) (w : world) (st : state) :
  (forall c st', c_auto_auth c = Some false -> f c w st' = g c w st') ->
  Raise3DStatefulPrinterAPI.login_via f sign timestamp w st
  = Raise3DStatefulPrinterAPI.login_via g sign timestamp w st.
Proof.
  intros H. unfold Raise3DStatefulPrinterAPI.login_via.
  destruct timestamp, sign; try reflexivity;
    (apply bind_ext; intros this st1; apply bind_ext; intros [s0 t0] st2;
     unfold bind, Raise3DPrinterAPI.login, Raise3DPrinterAPI._prv1;
     rewrite H by reflexivity; reflexivity).
Qed.

(** Whatever the depth allowed, the calls nest once: the result is that of
    depth one. *)
Lemma printer_request_depth (d : nat) (c : call) (w : world) (st : state) :
  Raise3DStatefulPrinterAPI.printer_request_upto (S d) c w st
  = Raise3DStatefulPrinterAPI.printer_request c w st.
Proof.
  unfold Raise3DStatefulPrinterAPI.printer_request.
  change (Raise3DStatefulPrinterAPI.printer_request_via
            (Raise3DStatefulPrinterAPI.login_via
               (Raise3DStatefulPrinterAPI.printer_request_upto d) None None) c w st
          = Raise3DStatefulPrinterAPI.printer_request_via
              (Raise3DStatefulPrinterAPI.login_via
                 (Raise3DStatefulPrinterAPI.printer_request_upto 0) None None) c w st).
  apply printer_request_via_ext. intros st'.
  apply login_via_ext. intros c' st'' Hc'.
  destruct d; [reflexivity|].
  change (Raise3DStatefulPrinterAPI.printer_request_via
            (Raise3DStatefulPrinterAPI.login_via
               (Raise3DStatefulPrinterAPI.printer_request_upto d) None None) c' w st''
          = Raise3DStatefulPrinterAPI.printer_request_via
              (raise (OtherException "RecursionError")) c' w st'').
  now apply printer_request_via_no_auto.
Qed.

(** The two methods satisfy the equations of the source: [printer_request]
    calls [self.login()], and [login] calls [self.printer_request]. *)
Lemma printer_request_unfold (c : call) (w : world) (st : state) :
  Raise3DStatefulPrinterAPI.printer_request c w st
  = Raise3DStatefulPrinterAPI.printer_request_via
      (Raise3DStatefulPrinterAPI.login None None) c w st.
Proof.
  rewrite <- (printer_request_depth 1). reflexivity.
Qed.

Lemma login_unfold (sign : option string) (timestamp : option Z) :
  Raise3DStatefulPrinterAPI.login sign timestamp
  = Raise3DStatefulPrinterAPI.login_via
      Raise3DStatefulPrinterAPI.printer_request sign timestamp.
Proof. reflexivity. Qed.

(** A call made with [auto_auth=False] is the plain request. *)
Lemma printer_request_no_auto (c : call) (w : world) (st : state) :
  effective_auto_auth (self st) c = false ->
  Raise3DStatefulPrinterAPI.printer_request c w st
  = Raise3DPrinterAPI.printer_request_body c w st.
Proof.
  intros H. rewrite printer_request_unfold, printer_request_via_eq, H. simpl.
  destruct (Raise3DPrinterAPI.printer_request_body c w st) as [[a | exc] st1];
    [reflexivity|].
  destruct (response_error_status exc); reflexivity.
Qed.

(** What [login] does on an open session, step by step. *)
Lemma login_eq (sign : option string) (timestamp : option Z) (w : world) (st : state) :
  (timestamp = None -> sign = None) ->
  session_closed (self st) = false ->
  Raise3DStatefulPrinterAPI.login sign timestamp w st
  = let t := time_time w (trace st) in
    let st1 := emit (EvTime t) st in
    match int_of_float (PrimFloat.mul t 1000%float) with
    | Err e => (Err e, st1)
    | Ok ms =>
        let rq := login_request (self st) ms in
        let st2 := emit (EvRequest rq) st1 in
        match outcome (server w (trace st1) rq) with
        | Err e => (Err e, st2)
        | Ok data =>
            match py_getitem data "token" with
            | Err e => (Err e, st2)
            | Ok token =>
                (Ok data,
                 {| self := set_printer_token token (self st); trace := trace st2 |})
            end
        end
    end.
Proof.
  intros Hv Hopen.
  assert (E : Raise3DStatefulPrinterAPI.login sign timestamp w st
              = Raise3DStatefulPrinterAPI.login None None w st).
  { destruct timestamp, sign; try reflexivity.
    specialize (Hv eq_refl). discriminate. }
  rewrite E. clear E Hv.
  unfold Raise3DStatefulPrinterAPI.login, Raise3DStatefulPrinterAPI.login_via.
  unfold bind at 1. unfold get_self. unfold bind at 1.
  rewrite generate_sign_now, generate_sign_float. cbv zeta.
  destruct (int_of_float _) as [ms | e]; [|reflexivity].
  unfold bind at 1.
  unfold Raise3DPrinterAPI.login, Raise3DPrinterAPI._prv1.
  rewrite printer_request_no_auto by reflexivity.
  rewrite body_sent by (simpl; first [exact Hopen | discriminate]).
  change (Raise3DPrinterAPI.build_request _ _) with (login_request (self st) ms).
  destruct (outcome _) as [data | e]; [|reflexivity].
  run_monad. destruct (py_getitem data "token"); reflexivity.
Qed.

Lemma stateful_closed (c : call) (w : world) (st : state) :
  session_closed (self st) = true ->
  Raise3DStatefulPrinterAPI.printer_request c w st
  = (Err (RuntimeError "Client session is closed!"), st).
Proof.
  intros H. rewrite printer_request_unfold, printer_request_via_eq, body_closed by exact H.
  reflexivity.
Qed.

Lemma stateful_missing_token (c : call) (w : world) (st : state) :
  session_closed (self st) = false ->
  c_auth c = true ->
  truthy (printer_token (self st)) = false ->
  Raise3DStatefulPrinterAPI.printer_request c w st
  = (Err (ValueError "Authentication token is required for this API call."), st).
Proof.
  intros Ho Ha Ht.
  rewrite printer_request_unfold, printer_request_via_eq, body_missing_token by assumption.
  reflexivity.
Qed.

(** C2 (the code departs from the claim).  On a stateful client with
    auto-authentication enabled, an open session and no token held, an
    authenticated request raises the "token is required" [ValueError]
    straight away: the login protocol is not run and nothing is sent (the
    trace is unchanged), whatever the printer would have answered. *)
Theorem no_token_with_auto_auth_raises :
  forall (w : world),
    Raise3DStatefulPrinterAPI.printer_request
      (simple_call GET "/v1/printer/system" true) w (fresh (sample_client JNull true))
    = (Err (ValueError "Authentication token is required for this API call."),
       fresh (sample_client JNull true)).
Proof. intros w. now apply stateful_missing_token. Qed.

(** C8.  Once the session is closed, every request through the client,
    stateful or plain, raises [RuntimeError] (a different class from the
    network and API errors) and leaves the state as it was: the client
    object is untouched and no event, so no request, is added to the trace.
    This holds for every method, endpoint, parameters and [auth] flag. *)
Theorem closed_session_fails_fast :
  forall (c : call) (w : world) (st : state),
    session_closed (self st) = true ->
    Raise3DStatefulPrinterAPI.printer_request c w st
    = (Err (RuntimeError "Client session is closed!"), st)
    /\ Raise3DPrinterAPI.printer_request (super_call c) w st
       = (Err (RuntimeError "Client session is closed!"), st)
    /\ response_error_status (RuntimeError "Client session is closed!") = None.
Proof.
  intros c w st H. repeat split.
  - now apply stateful_closed.
  - rewrite plain_super. now apply body_closed.
Qed.

Lemma closed_session_fails_fast_witness :
  Raise3DStatefulPrinterAPI.printer_request
    (simple_call POST "/v1/job/recover/set" true)
    (scripted [Response 200 "OK" (ok_body JNull)] 0%float) (fresh closed_client)
  = (Err (RuntimeError "Client session is closed!"), fresh closed_client).
Proof.
  apply (closed_session_fails_fast
           (simple_call POST "/v1/job/recover/set" true)
           (scripted [Response 200 "OK" (ok_body JNull)] 0%float)
           (fresh closed_client)).
  reflexivity.
Defined.

(** C9.  A call of the stateful [login] with a signature and no timestamp
    raises [ValueError] and leaves the state as it was: nothing is sent and
    the clock is not even read. *)
Theorem login_rejects_signature_without_timestamp :
  forall (sign : string) (w : world) (st : state),
    Raise3DStatefulPrinterAPI.login (Some sign) None w st
    = (Err (ValueError "signature provided without timestamp"), st).
Proof.
  intros sign w st.
  unfold Raise3DStatefulPrinterAPI.login, Raise3DStatefulPrinterAPI.login_via.
  reflexivity.
Qed.

(** C10.  When the arguments of the stateful [login] pass the check (no
    signature without a timestamp), they are not used: the call is the call
    without arguments, and on an open session it reads the clock and sends
    one login request whose signature and timestamp are computed from the
    stored password and that clock reading. *)
Theorem login_discards_supplied_arguments :
  forall (sign : option string) (timestamp : option Z) (w : world) (st : state),
    (timestamp = None -> sign = None) ->
    Raise3DStatefulPrinterAPI.login sign timestamp w st
    = Raise3DStatefulPrinterAPI.login None None w st
    /\ (session_closed (self st) = false ->
        forall ms : Z,
          int_of_float (PrimFloat.mul (time_time w (trace st)) 1000%float) = Ok ms ->
          trace (snd (Raise3DStatefulPrinterAPI.login sign timestamp w st))
          = trace st ++ [EvTime (time_time w (trace st));
                         EvRequest (login_request (self st) ms)]).
Proof.
  intros sign timestamp w st Hv. split.
  - destruct timestamp, sign; try reflexivity.
    specialize (Hv eq_refl). discriminate.
  - intros Hopen ms Hms. rewrite login_eq by assumption. cbv zeta.
    rewrite Hms.
    destruct (outcome _) as [data | e]; [destruct (py_getitem data "token")|];
      simpl; now rewrite <- app_assoc.
Qed.

Lemma login_discards_supplied_arguments_witness :
  Raise3DStatefulPrinterAPI.login (Some "0123456789abcdef") (Some 42)
    (scripted [Response 200 "OK" (ok_body (JDict [("token", JStr "t1")]))]
              1700000000.5%float)
    (fresh (sample_client JNull true))
  = Raise3DStatefulPrinterAPI.login None None
      (scripted [Response 200 "OK" (ok_body (JDict [("token", JStr "t1")]))]
                1700000000.5%float)
      (fresh (sample_client JNull true)).
Proof.
  apply (login_discards_supplied_arguments (Some "0123456789abcdef") (Some 42)).
  discriminate.
Defined.

(** *** Responses: success and the two kinds of API error *)

Lemma handle_response_success (body : dict) (s : json) :
  dict_lookup "status" body = Some s ->
  eq_one s = true ->
  Raise3DPrinterAPI.handle_response 200 (JDict body)
  = Ok (lookup_or "data" body JNull).
Proof.
  intros Hs H1. unfold Raise3DPrinterAPI.handle_response, lookup_or. simpl.
  now rewrite Hs, H1.
Qed.

Lemma handle_response_eq (status : Z) (response_data : json) :
  Raise3DPrinterAPI.handle_response status response_data
  = (success <- (if status =? 200 then
                   s <- py_get response_data "status" JNull;; Ok (eq_one s)
                 else Ok false);;
     if (success : bool) then py_get response_data "data" JNull
     else api_error response_data)%result.
Proof. reflexivity. Qed.

(** The error branch never returns. *)
Lemma api_error_raises (response_data a : json) : api_error response_data <> Ok a.
Proof.
  unfold api_error.
  destruct (rtry _ _) as [z | e]; simpl; [|discriminate].
  destruct (py_get response_data "error" (JDict [])) as [err | e]; simpl; [|discriminate].
  destruct (py_get err "msg" (JStr "Unknown error")); simpl; discriminate.
Qed.

Lemma handle_response_ok_inv (status : Z) (response_data a : json) :
  Raise3DPrinterAPI.handle_response status response_data = Ok a ->
  status = 200 /\
  exists body s,
    response_data = JDict body /\ dict_lookup "status" body = Some s /\
    eq_one s = true /\ a = lookup_or "data" body JNull.
Proof.
  rewrite handle_response_eq. intros H.
  destruct (status =? 200) eqn:E200.
  - apply Z.eqb_eq in E200. split; [exact E200|].
    destruct response_data as [| | | | | | body];
      try (cbn -[api_error] in H; discriminate).
    cbn -[api_error] in H. unfold lookup_or.
    destruct (dict_lookup "status" body) as [s|] eqn:Es.
    + destruct (eq_one s) eqn:E1.
      * exists body, s. repeat split; try assumption. now inversion H.
      * exfalso. revert H. apply api_error_raises.
    + exfalso. revert H. cbn -[api_error]. apply api_error_raises.
  - exfalso. revert H. cbn -[api_error]. apply api_error_raises.
Qed.

Lemma outcome_ok_inv (ans : answer) (a : json) :
  outcome ans = Ok a ->
  exists reason body s,
    ans = Response 200 reason (Ok (JDict body)) /\
    dict_lookup "status" body = Some s /\ eq_one s = true /\
    a = lookup_or "data" body JNull.
Proof.
  destruct ans as [e | status reason [response_data | e]]; simpl;
    try discriminate; destruct (400 <=? status); try discriminate.
  intros H. apply handle_response_ok_inv in H.
  destruct H as [-> (body & s & -> & Hs & H1 & ->)].
  now exists reason, body, s.
Qed.

Lemma outcome_http_error (status : Z) (reason : string) (body : result json) :
  400 <= status ->
  outcome (Response status reason body) = Err (ClientResponseError status reason).
Proof.
  intros H. simpl. apply Z.leb_le in H. now rewrite H.
Qed.

(** C5.  When a request is executed (the session is open and the token
    check passes) and the printer answers HTTP 200 with a JSON object whose
    [status] equals 1 (Python's [==]), the call returns the value under
    [data] as it stands, on the plain and on the stateful client, after
    sending that one request.  Conversely a call that returns normally was
    answered that way: every other status / [status] combination raises. *)
Theorem success_returns_data_unchanged :
  forall (c : call) (w : world) (st : state),
    session_closed (self st) = false ->
    (c_auth c = true -> truthy (printer_token (self st)) = true) ->
    (forall reason body s data,
        server w (trace st) (Raise3DPrinterAPI.build_request (self st) c)
        = Response 200 reason (Ok (JDict body)) ->
        dict_lookup "status" body = Some s ->
        eq_one s = true ->
        dict_lookup "data" body = Some data ->
        Raise3DPrinterAPI.printer_request (super_call c) w st
        = (Ok data, emit (EvRequest (Raise3DPrinterAPI.build_request (self st) c)) st)
        /\ Raise3DStatefulPrinterAPI.printer_request c w st
           = (Ok data, emit (EvRequest (Raise3DPrinterAPI.build_request (self st) c)) st))
    /\ (forall a st',
          Raise3DPrinterAPI.printer_request (super_call c) w st = (Ok a, st') ->
          exists reason body s,
            server w (trace st) (Raise3DPrinterAPI.build_request (self st) c)
            = Response 200 reason (Ok (JDict body))
            /\ dict_lookup "status" body = Some s /\ eq_one s = true).
Proof.
  intros c w st Hopen Htok. split.
  - intros reason body s data Hans Hs H1 Hd.
    assert (E : Raise3DPrinterAPI.printer_request_body c w st
                = (Ok data,
                   emit (EvRequest (Raise3DPrinterAPI.build_request (self st) c)) st)).
    { rewrite body_sent, Hans by assumption. simpl.
      rewrite (handle_response_success body s Hs H1).
      unfold lookup_or. now rewrite Hd. }
    split.
    + now rewrite plain_super.
    + now rewrite printer_request_unfold, printer_request_via_eq, E.
  - intros a st' H. rewrite plain_super, body_sent in H by assumption.
    inversion H as [[Ha Hst]]. apply outcome_ok_inv in Ha.
    destruct Ha as (reason & body & s & Hans & Hs & H1 & _).
    now exists reason, body, s.
Qed.

Lemma success_returns_data_unchanged_witness :
  Raise3DStatefulPrinterAPI.printer_request
    (simple_call GET "/v1/printer/basic" true)
    (scripted [Response 200 "OK"
                 (Ok (JDict [("status", JInt 1);
                             ("data", JDict [("machine_name", JStr "Pro2")])]))]
              0%float)
    (fresh (sample_client (JStr "tok") true))
  = (Ok (JDict [("machine_name", JStr "Pro2")]),
     emit (EvRequest
             (Raise3DPrinterAPI.build_request (sample_client (JStr "tok") true)
                (simple_call GET "/v1/printer/basic" true)))
          (fresh (sample_client (JStr "tok") true))).
Proof.
  refine (proj2 (proj1 (success_returns_data_unchanged
            (simple_call GET "/v1/printer/basic" true)
            (scripted [Response 200 "OK"
                         (Ok (JDict [("status", JInt 1);
                                     ("data", JDict [("machine_name", JStr "Pro2")])]))]
                      0%float)
            (fresh (sample_client (JStr "tok") true))
            eq_refl (fun _ => eq_refl))
          "OK" [("status", JInt 1); ("data", JDict [("machine_name", JStr "Pro2")])]
          (JInt 1) (JDict [("machine_name", JStr "Pro2")])
          eq_refl eq_refl eq_refl eq_refl)).
Defined.

Section ApiError.
Variables (body err : dict).
Hypothesis error_field :
  dict_lookup "error" body = None /\ err = [] \/
  dict_lookup "error" body = Some (JDict err).

Let code : json := lookup_or "code" err JNull.
Let msg : json := lookup_or "msg" err (JStr "Unknown error").

Lemma error_object : py_get (JDict body) "error" (JDict []) = Ok (JDict err).
Proof.
  simpl. destruct error_field as [[-> ->] | ->]; reflexivity.
Qed.

Lemma api_error_specific (z : Z) :
  py_int code = Ok z -> api_error (JDict body) = Err (APIResponseError z msg).
Proof.
  intros H. unfold api_error. rewrite error_object.
  cbn [rbind py_get]. fold (lookup_or "code" err JNull). fold code.
  rewrite H. reflexivity.
Qed.

Lemma api_error_generic (m : string) :
  py_int code = Err (TypeError m) \/ py_int code = Err (ValueError m) ->
  api_error (JDict body) = Err (ClientError msg).
Proof.
  intros H. unfold api_error. rewrite error_object.
  cbn [rbind py_get]. fold (lookup_or "code" err JNull). fold code.
  destruct H as [-> | ->]; reflexivity.
Qed.

End ApiError.

Lemma handle_response_failure (status : Z) (body : dict) :
  status <> 200 \/ eq_one (lookup_or "status" body JNull) = false ->
  Raise3DPrinterAPI.handle_response status (JDict body) = api_error (JDict body).
Proof.
  intros H. rewrite handle_response_eq.
  destruct (status =? 200) eqn:E; [|reflexivity].
  apply Z.eqb_eq in E. destruct H as [H | H]; [contradiction|].
  cbn [rbind py_get]. fold (lookup_or "status" body JNull). now rewrite H.
Qed.

(** C6, as the code has it.  For an executed request answered with a JSON
    object: a status of 400 or more is raised by the HTTP layer as
    [ClientResponseError] carrying the HTTP status and reason, whatever the
    body says; below 400, when the answer is not a success and [error] is
    absent or an object, an [error.code] that [int()] accepts gives
    [APIResponseError] with that integer and [error.msg] (or "Unknown
    error"), and an [error.code] that is absent or that [int()] rejects
    with [TypeError] or [ValueError] gives the generic [ClientError]. *)
Theorem error_code_selects_exception :
  forall (c : call) (w : world) (st : state) (status : Z) (reason : string)
         (body : dict),
    session_closed (self st) = false ->
    (c_auth c = true -> truthy (printer_token (self st)) = true) ->
    server w (trace st) (Raise3DPrinterAPI.build_request (self st) c)
    = Response status reason (Ok (JDict body)) ->
    (400 <= status ->
     fst (Raise3DPrinterAPI.printer_request (super_call c) w st)
     = Err (ClientResponseError status reason))
    /\ (status < 400 ->
        status <> 200 \/ eq_one (lookup_or "status" body JNull) = false ->
        forall err : dict,
          dict_lookup "error" body = None /\ err = [] \/
          dict_lookup "error" body = Some (JDict err) ->
          (forall z : Z,
              py_int (lookup_or "code" err JNull) = Ok z ->
              fst (Raise3DPrinterAPI.printer_request (super_call c) w st)
              = Err (APIResponseError z (lookup_or "msg" err (JStr "Unknown error"))))
          /\ (forall m : string,
                py_int (lookup_or "code" err JNull) = Err (TypeError m) \/
                py_int (lookup_or "code" err JNull) = Err (ValueError m) ->
                fst (Raise3DPrinterAPI.printer_request (super_call c) w st)
                = Err (ClientError (lookup_or "msg" err (JStr "Unknown error"))))).
Proof.
  intros c w st status reason body Hopen Htok Hans.
  rewrite plain_super, body_sent, Hans by assumption.
  cbn [fst]. split.
  - intros H. now apply outcome_http_error.
  - intros Hlt Hfail err Herr.
    assert (E : outcome (Response status reason (Ok (JDict body)))
                = api_error (JDict body)).
    { simpl. destruct (400 <=? status) eqn:E4; [apply Z.leb_le in E4; lia|].
      now apply handle_response_failure. }
    rewrite E. split.
    + intros z Hz. now apply api_error_specific.
    + intros m Hm. now apply (api_error_generic body err Herr m).
Qed.

Lemma error_code_selects_exception_witness :
  fst (Raise3DPrinterAPI.printer_request
         (super_call (simple_call GET "/v1/printer/basic" true))
         (scripted [busy_answer] 0%float) (fresh (sample_client (JStr "tok") true)))
  = Err (APIResponseError 12 (JStr "busy")).
Proof.
  refine (proj1 (proj2 (error_code_selects_exception
            (simple_call GET "/v1/printer/basic" true)
            (scripted [busy_answer] 0%float)
            (fresh (sample_client (JStr "tok") true))
            200 "OK"
            [("status", JInt 0);
             ("error", JDict [("code", JStr "12"); ("msg", JStr "busy")])]
            eq_refl (fun _ => eq_refl) eq_refl)
          _ (or_intror eq_refl)
          [("code", JStr "12"); ("msg", JStr "busy")] (or_intror eq_refl))
          12 eq_refl).
  reflexivity.
Defined.

(** An [error.code] that is absent or no number gives the generic error. *)
Example generic_error_examples :
  api_error (JDict [("status", JInt 0)]) = Err (ClientError (JStr "Unknown error"))
  /\ api_error (JDict [("error", JDict [("msg", JStr "oops")])])
     = Err (ClientError (JStr "oops"))
  /\ api_error (JDict [("error", JDict [("code", JStr "E12"); ("msg", JStr "oops")])])
     = Err (ClientError (JStr "oops"))
  /\ api_error (JDict [("error", JDict [("code", JNull)])])
     = Err (ClientError (JStr "Unknown error")).
Proof. repeat split. Qed.

(** The code is read by [int]: a string of Arabic-Indic digits is the
    integer 12, a float is truncated, and digits behind the separator 0x1C
    are no number. *)
Example error_code_is_read_by_int :
  api_error (JDict [("error", JDict [("code", JStr (str_of_code_points [0x661; 0x662]))])])
  = Err (APIResponseError 12 (JStr "Unknown error"))
  /\ api_error (JDict [("error", JDict [("code", JFloat 401.5%float)])])
     = Err (APIResponseError 401 (JStr "Unknown error"))
  /\ api_error (JDict [("error", JDict [("code", JStr " 429 ")])])
     = Err (APIResponseError 429 (JStr "Unknown error"))
  /\ api_error
       (JDict [("error", JDict [("code", JStr (str_of_code_points [0x1C; 0x31; 0x32]));
                                ("msg", JStr "oops")])])
     = Err (ClientError (JStr "oops")).
Proof. repeat split; vm_compute; reflexivity. Qed.

(** C6, as the claim states it, fails: the printer answers HTTP 404 with a
    body whose [error.code] is the integer 5, and the error raised is the
    HTTP layer's [ClientResponseError(404, "Not Found")], not the API error
    carrying 5 and [error.msg]. *)
Lemma http_error_hides_error_code :
  fst (Raise3DPrinterAPI.printer_request
         (super_call (simple_call GET "/v1/printer/basic" true))
         (scripted [not_found_answer] 0%float)
         (fresh (sample_client (JStr "tok") true)))
  = Err (ClientResponseError 404 "Not Found")
  /\ py_int (JInt 5) = Ok 5
  /\ Err (ClientResponseError 404 "Not Found")
     <> (Err (APIResponseError 5 (JStr "no such endpoint")) : result json).
Proof. repeat split. discriminate. Qed.

(** *** The transient-failure handler *)


(** A 429 followed by a 200: the caller gets the data, after one delay. *)
Example rate_limited_then_ok :
  let w := scripted [Response 429 "Too Many Requests" (Err (OtherException "no body"));
                     Response 200 "OK" (ok_body (JStr "idle"))] 0%float in
  let r := _async_call_api_method
             (Raise3DPrinterAPI.get_running_status
                Raise3DStatefulPrinterAPI.printer_request)
             w (fresh (sample_client (JStr "tok") true)) in
  fst r = Ok (JStr "idle")
  /\ trace (snd r)
     = [EvRequest (Raise3DPrinterAPI.build_request (sample_client (JStr "tok") true)
                     (simple_call GET "/v1/printer/runningstatus" true));
        EvSleep 1.5%float;
        EvRequest (Raise3DPrinterAPI.build_request (sample_client (JStr "tok") true)
                     (simple_call GET "/v1/printer/runningstatus" true))].
Proof. split; reflexivity. Qed.

(** Two 429 in a row: the second one reaches the caller, after one delay and
    two requests. *)
Example rate_limited_twice :
  let w := scripted [Response 429 "Too Many Requests" (Err (OtherException "no body"));
                     Response 429 "Too Many Requests" (Err (OtherException "no body"));
                     Response 200 "OK" (ok_body (JStr "idle"))] 0%float in
  let r := _async_call_api_method
             (Raise3DPrinterAPI.get_running_status
                Raise3DStatefulPrinterAPI.printer_request)
             w (fresh (sample_client (JStr "tok") true)) in
  fst r = Err (ClientResponseError 429 "Too Many Requests")
  /\ List.length (filter is_request (trace (snd r))) = 2%nat.
Proof. split; reflexivity. Qed.

(** *** Re-authentication after a 401 *)

Lemma outcome_401 (reason : string) (body : result json) :
  outcome (Response 401 reason body) = Err (ClientResponseError 401 reason).
Proof. reflexivity. Qed.

Lemma outcome_success (reason : string) (body : dict) (s data : json) :
  dict_lookup "status" body = Some s ->
  eq_one s = true ->
  dict_lookup "data" body = Some data ->
  outcome (Response 200 reason (Ok (JDict body))) = Ok data.
Proof.
  intros Hs H1 Hd. simpl. rewrite (handle_response_success body s Hs H1).
  unfold lookup_or. now rewrite Hd.
Qed.

(** C3, as the code has it.  Auto-authentication is in force and the
    printer answers the first attempt with HTTP 401.  Then the client reads
    the clock and logs in once.  If the login fails, in whichever way (the
    clock gives no millisecond value, the login request fails or is answered
    with an error, or the data it returns holds no token), its error is
    raised and the original request is not sent again.  If the login
    returns a token the call can use, the token is stored and the original
    request is sent once more, with the new token; what that retry yields is
    the result: the [data] of a successful answer, and for a second 401 the
    [ClientResponseError] of that 401, with no further login or request. *)
Theorem relogin_once_then_retry_once :
  forall (c : call) (w : world) (st : state) (reason : string) (body : result json),
    session_closed (self st) = false ->
    (c_auth c = true -> truthy (printer_token (self st)) = true) ->
    effective_auto_auth (self st) c = true ->
    let rq1 := Raise3DPrinterAPI.build_request (self st) c in
    server w (trace st) rq1 = Response 401 reason body ->
    let t := time_time w (trace st ++ [EvRequest rq1]) in
    let tr2 := trace st ++ [EvRequest rq1; EvTime t] in
    (forall e : exn,
        int_of_float (PrimFloat.mul t 1000%float) = Err e ->
        Raise3DStatefulPrinterAPI.printer_request c w st
        = (Err e, {| self := self st; trace := tr2 |}))
    /\ (forall ms : Z,
          int_of_float (PrimFloat.mul t 1000%float) = Ok ms ->
          let lrq := login_request (self st) ms in
          let login_answer := server w tr2 lrq in
          let tr3 := trace st ++ [EvRequest rq1; EvTime t; EvRequest lrq] in
          (forall e : exn,
              outcome login_answer = Err e
              \/ (exists data : json,
                     outcome login_answer = Ok data
                     /\ py_getitem data "token" = Err e) ->
              Raise3DStatefulPrinterAPI.printer_request c w st
              = (Err e, {| self := self st; trace := tr3 |}))
          /\ (forall data token : json,
                outcome login_answer = Ok data ->
                py_getitem data "token" = Ok token ->
                (c_auth c = true -> truthy token = true) ->
                let this' := set_printer_token token (self st) in
                let rq2 := Raise3DPrinterAPI.build_request this' c in
                Raise3DStatefulPrinterAPI.printer_request c w st
                = (outcome (server w tr3 rq2),
                   {| self := this'; trace := tr3 ++ [EvRequest rq2] |})
                /\ (forall reason2 body2 s data2,
                      server w tr3 rq2 = Response 200 reason2 (Ok (JDict body2)) ->
                      dict_lookup "status" body2 = Some s -> eq_one s = true ->
                      dict_lookup "data" body2 = Some data2 ->
                      fst (Raise3DStatefulPrinterAPI.printer_request c w st) = Ok data2)
                /\ (forall reason2 body2,
                      server w tr3 rq2 = Response 401 reason2 body2 ->
                      fst (Raise3DStatefulPrinterAPI.printer_request c w st)
                      = Err (ClientResponseError 401 reason2)))).
Proof.
  intros c w st reason body Hopen Htok Hauto rq1 Hans t tr2.
  assert (Estart :
    Raise3DStatefulPrinterAPI.printer_request c w st
    = match Raise3DStatefulPrinterAPI.login None None w (emit (EvRequest rq1) st) with
      | (Ok _, st2) => Raise3DPrinterAPI.printer_request_body c w st2
      | (Err e, st2) => (Err e, st2)
      end).
  { rewrite printer_request_unfold, printer_request_via_eq.
    rewrite body_sent by assumption. fold rq1. rewrite Hans, outcome_401.
    cbn [response_error_status]. rewrite Hauto. reflexivity. }
  assert (Etr2 : (trace st ++ [EvRequest rq1]) ++ [EvTime t] = tr2)
    by (unfold tr2; now rewrite <- app_assoc).
  assert (Elogin :
    Raise3DStatefulPrinterAPI.login None None w (emit (EvRequest rq1) st)
    = match int_of_float (PrimFloat.mul t 1000%float) with
      | Err e => (Err e, {| self := self st; trace := tr2 |})
      | Ok ms =>
          match outcome (server w tr2 (login_request (self st) ms)) with
          | Err e =>
              (Err e,
               {| self := self st;
                  trace := tr2 ++ [EvRequest (login_request (self st) ms)] |})
          | Ok data =>
              match py_getitem data "token" with
              | Err e =>
                  (Err e,
                   {| self := self st;
                      trace := tr2 ++ [EvRequest (login_request (self st) ms)] |})
              | Ok token =>
                  (Ok data,
                   {| self := set_printer_token token (self st);
                      trace := tr2 ++ [EvRequest (login_request (self st) ms)] |})
              end
          end
      end).
  { rewrite login_eq by (try exact Hopen; reflexivity).
    cbv zeta. unfold emit. cbn [trace self]. fold t. rewrite Etr2.
    destruct (int_of_float _) as [ms | e]; [|reflexivity].
    destruct (outcome _) as [data | e]; [|reflexivity].
    destruct (py_getitem data "token"); reflexivity. }
  rewrite Estart, Elogin. split.
  - intros e He. now rewrite He.
  - intros ms Hms lrq login_answer tr3. rewrite Hms.
    fold lrq. fold login_answer.
    replace (tr2 ++ [EvRequest lrq]) with tr3
      by (unfold tr3, tr2; now rewrite <- app_assoc).
    split.
    + intros e [He | (data & Hdata & He)]; [now rewrite He|].
      now rewrite Hdata, He.
    + intros data token Hdata Htoken Huse this' rq2. rewrite Hdata, Htoken.
      rewrite body_sent by assumption.
      unfold emit. cbn [self trace]. fold this'. fold rq2.
      split; [reflexivity|]. cbn [fst]. split.
      * intros reason2 body2 s data2 H2 Hs H1 Hd. rewrite H2.
        now apply (outcome_success reason2 body2 s data2).
      * intros reason2 body2 H2. now rewrite H2.
Qed.

Lemma relogin_once_then_retry_once_witness :
  fst (Raise3DStatefulPrinterAPI.printer_request system_info_call relogin_world
         (fresh (sample_client (JStr "old") true)))
  = Ok (JDict [("machine_id", JStr "m1")]).
Proof.
  refine (proj1 (proj2 (proj2 (proj2 (relogin_once_then_retry_once
            system_info_call relogin_world (fresh (sample_client (JStr "old") true))
            "Unauthorized" (Err (OtherException "no body"))
            eq_refl (fun _ => eq_refl) eq_refl eq_refl)
          1700000000500 eq_refl)
          (JDict [("token", JStr "new")]) (JStr "new")
          eq_refl eq_refl (fun _ => eq_refl)))
          "OK" [("status", JInt 1); ("data", JDict [("machine_id", JStr "m1")])]
          (JInt 1) (JDict [("machine_id", JStr "m1")])
          eq_refl eq_refl eq_refl eq_refl).
Defined.

(** The same run, observed: one login between the two system requests, and
    the new token stored. *)
Example relogin_trace :
  let r := Raise3DStatefulPrinterAPI.printer_request system_info_call relogin_world
             (fresh (sample_client (JStr "old") true)) in
  sent (snd r) = ["http://10.0.0.5:10800/v1/printer/system";
                  "http://10.0.0.5:10800/v1/login";
                  "http://10.0.0.5:10800/v1/printer/system"]
  /\ printer_token (self (snd r)) = JStr "new".
Proof. split; reflexivity. Qed.

(** Two 401 in a row around a good login: the second 401 is raised, after
    one login and one retry. *)
Example second_401_is_raised :
  let w := scripted [Response 401 "Unauthorized" (Err (OtherException "no body"));
                     Response 200 "OK" (ok_body (JDict [("token", JStr "new")]));
                     Response 401 "Unauthorized" (Err (OtherException "no body"));
                     Response 200 "OK" (ok_body JNull)] 0%float in
  let r := Raise3DStatefulPrinterAPI.printer_request system_info_call w
             (fresh (sample_client (JStr "old") true)) in
  fst r = Err (ClientResponseError 401 "Unauthorized")
  /\ sent (snd r) = ["http://10.0.0.5:10800/v1/printer/system";
                     "http://10.0.0.5:10800/v1/login";
                     "http://10.0.0.5:10800/v1/printer/system"].
Proof. split; reflexivity. Qed.

(** C3, as the claim states it, fails: the first attempt gets HTTP 401 with
    auto-authentication on, the login that follows is refused with HTTP 403,
    and the original request is not retried: it was sent once, and the
    caller gets the login's error. *)
Lemma failed_relogin_is_not_followed_by_a_retry :
  let w := scripted [Response 401 "Unauthorized" (Err (OtherException "no body"));
                     Response 403 "Forbidden" (Err (OtherException "no body"));
                     Response 200 "OK" (ok_body (JDict [("machine_id", JStr "m1")]))]
                    0%float in
  let r := Raise3DStatefulPrinterAPI.printer_request system_info_call w
             (fresh (sample_client (JStr "old") true)) in
  fst r = Err (ClientResponseError 403 "Forbidden")
  /\ sent (snd r) = ["http://10.0.0.5:10800/v1/printer/system";
                     "http://10.0.0.5:10800/v1/login"].
Proof. split; reflexivity. Qed.

(** A login that is answered, but with data that hold no token: the
    [KeyError] of the login is raised and the original request is not sent
    again. *)
Example relogin_without_token_is_not_followed_by_a_retry :
  let w := scripted [Response 401 "Unauthorized" (Err (OtherException "no body"));
                     Response 200 "OK" (ok_body (JDict [("user", JStr "admin")]));
                     Response 200 "OK" (ok_body (JDict [("machine_id", JStr "m1")]))]
                    0%float in
  let r := Raise3DStatefulPrinterAPI.printer_request system_info_call w
             (fresh (sample_client (JStr "old") true)) in
  fst r = Err (KeyError "token")
  /\ sent (snd r) = ["http://10.0.0.5:10800/v1/printer/system";
                     "http://10.0.0.5:10800/v1/login"]
  /\ printer_token (self (snd r)) = JStr "old".
Proof. repeat split; reflexivity. Qed.

(** *** What an operation may change *)

Lemma frame_same (st st' : state) (evs : list event) :
  self st' = self st -> trace st' = trace st ++ evs -> frame st st'.
Proof.
  intros Hs Ht. unfold frame. rewrite Hs. repeat split.
  exists evs. now split; [|left].
Qed.

Lemma frame_refl (st : state) : frame st st.
Proof. apply (frame_same st st []); [reflexivity | now rewrite app_nil_r]. Qed.

Lemma frame_trans (a b c : state) : frame a b -> frame b c -> frame a c.
Proof.
  intros (Hp1 & Hu1 & evs1 & Ht1 & Hk1) (Hp2 & Hu2 & evs2 & Ht2 & Hk2).
  unfold frame. repeat split; try congruence.
  exists (evs1 ++ evs2). split; [rewrite Ht2, Ht1; now rewrite app_assoc|].
  destruct Hk2 as [Hk2 | (ms & Hin)].
  - destruct Hk1 as [Hk1 | (ms & Hin)]; [left; congruence|].
    right. exists ms. apply in_or_app. now left.
  - right. exists ms. apply in_or_app. right.
    unfold login_request in *. now rewrite <- Hp1, <- Hu1.
Qed.

Lemma keeps_ret {A} (a : A) : keeps (ret a).
Proof. intros w st. apply frame_refl. Qed.

Lemma keeps_raise {A} (e : exn) : keeps (@raise A e).
Proof. intros w st. apply frame_refl. Qed.

Lemma keeps_lift {A} (r : result A) : keeps (lift r).
Proof. intros w st. apply frame_refl. Qed.

Lemma keeps_get_self : keeps get_self.
Proof. intros w st. apply frame_refl. Qed.

Lemma keeps_bind {A B} (m : M A) (k : A -> M B) :
  keeps m -> (forall a, keeps (k a)) -> keeps (bind m k).
Proof.
  intros Hm Hk w st. unfold bind. specialize (Hm w st).
  destruct (m w st) as [[a | e] st1]; [|exact Hm].
  eapply frame_trans; [exact Hm | apply Hk].
Qed.

Lemma keeps_set_self (f : client -> client) :
  (forall c, printer_password (f c) = printer_password c) ->
  (forall c, printer_url (f c) = printer_url c) ->
  (forall c, printer_token (f c) = printer_token c) ->
  keeps (set_self f).
Proof.
  intros Hp Hu Hk w st. unfold frame. simpl. rewrite Hp, Hu, Hk.
  repeat split. exists []. now rewrite app_nil_r; split; [|left].
Qed.

Lemma keeps_time_now : keeps time_now.
Proof. intros w st. now apply (frame_same _ _ [EvTime (time_time w (trace st))]). Qed.

Lemma keeps_open_read (path : string) : keeps (open_read path).
Proof.
  intros w st. unfold open_read.
  destruct (open_rb w (trace st) path); now apply (frame_same _ _ [EvOpen path]).
Qed.

Lemma keeps_session_request (rq : request) : keeps (session_request rq).
Proof.
  intros w st. unfold session_request.
  destruct (server w (trace st) rq) as [e | status reason body];
    [|destruct (400 <=? status)]; now apply (frame_same _ _ [EvRequest rq]).
Qed.

Ltac keeps_step :=
  first [ apply keeps_ret | apply keeps_raise | apply keeps_lift
        | apply keeps_get_self | apply keeps_time_now | apply keeps_open_read
        | apply keeps_session_request
        | apply keeps_set_self; reflexivity
        | apply keeps_bind; [|intros ?; cbv beta] ].

(** The plain request leaves the client object alone and sends at most one
    request. *)
Lemma body_self (c : call) (w : world) (st : state) :
  self (snd (Raise3DPrinterAPI.printer_request_body c w st)) = self st
  /\ exists evs, trace (snd (Raise3DPrinterAPI.printer_request_body c w st))
                 = trace st ++ evs.
Proof.
  destruct (session_closed (self st)) eqn:Hc.
  - rewrite body_closed by exact Hc. split; [reflexivity|].
    exists []. now rewrite app_nil_r.
  - destruct (c_auth c && negb (truthy (printer_token (self st)))) eqn:E.
    + apply andb_prop in E. destruct E as [Ha Ht].
      apply negb_true_iff in Ht.
      rewrite body_missing_token by assumption. split; [reflexivity|].
      exists []. now rewrite app_nil_r.
    + rewrite body_sent; [split; [reflexivity | eexists; reflexivity] | exact Hc |].
      intros Ha. rewrite Ha in E. simpl in E. now apply negb_false_iff in E.
Qed.

Lemma keeps_body (c : call) : keeps (Raise3DPrinterAPI.printer_request_body c).
Proof.
  intros w st. destruct (body_self c w st) as [Hs [evs Ht]].
  now apply (frame_same _ _ evs).
Qed.

Lemma login_closed_eq (w : world) (st : state) :
  session_closed (self st) = true ->
  Raise3DStatefulPrinterAPI.login None None w st
  = let st1 := emit (EvTime (time_time w (trace st))) st in
    match int_of_float (PrimFloat.mul (time_time w (trace st)) 1000%float) with
    | Err e => (Err e, st1)
    | Ok _ => (Err (RuntimeError "Client session is closed!"), st1)
    end.
Proof.
  intros Hc.
  unfold Raise3DStatefulPrinterAPI.login, Raise3DStatefulPrinterAPI.login_via.
  unfold bind at 1. unfold get_self. unfold bind at 1.
  rewrite generate_sign_now, generate_sign_float. cbv zeta.
  destruct (int_of_float _) as [ms | e]; [|reflexivity].
  unfold bind at 1.
  unfold Raise3DPrinterAPI.login, Raise3DPrinterAPI._prv1.
  rewrite printer_request_no_auto by reflexivity.
  rewrite body_closed by exact Hc. reflexivity.
Qed.

Lemma login_closed (sign : option string) (timestamp : option Z) (w : world) (st : state) :
  session_closed (self st) = true ->
  self (snd (Raise3DStatefulPrinterAPI.login sign timestamp w st)) = self st
  /\ exists evs, trace (snd (Raise3DStatefulPrinterAPI.login sign timestamp w st))
                 = trace st ++ evs.
Proof.
  intros Hc.
  assert (E : self (snd (Raise3DStatefulPrinterAPI.login None None w st)) = self st
              /\ exists evs, trace (snd (Raise3DStatefulPrinterAPI.login None None w st))
                             = trace st ++ evs).
  { rewrite login_closed_eq by exact Hc. cbv zeta.
    destruct (int_of_float _); (split; [reflexivity | eexists; reflexivity]). }
  destruct timestamp, sign; try exact E.
  split; [reflexivity|]. exists []. now rewrite app_nil_r.
Qed.

Lemma keeps_login (sign : option string) (timestamp : option Z) :
  keeps (Raise3DStatefulPrinterAPI.login sign timestamp).
Proof.
  intros w st. destruct (session_closed (self st)) eqn:Hc.
  - destruct (login_closed sign timestamp w st Hc) as [Hs [evs Ht]].
    now apply (frame_same _ _ evs).
  - assert (Hcases : (timestamp = None -> sign = None)
                     \/ (timestamp = None /\ exists s, sign = Some s)).
    { destruct timestamp; [left; discriminate|].
      destruct sign as [s|]; [right; eauto | now left]. }
    destruct Hcases as [Hv | [-> [s ->]]]; [|apply frame_refl].
    rewrite login_eq by assumption. cbv zeta.
    set (t := time_time w (trace st)).
    destruct (int_of_float _) as [ms | e];
      [|now apply (frame_same _ _ [EvTime t])].
    destruct (outcome _) as [data | e];
      [destruct (py_getitem data "token") as [token | e]|];
      try (apply (frame_same _ _ [EvTime t; EvRequest (login_request (self st) ms)]);
           [reflexivity | simpl; now rewrite <- app_assoc]).
    unfold frame. simpl. repeat split.
    exists [EvTime t; EvRequest (login_request (self st) ms)].
    split; [now rewrite <- app_assoc|].
    right. exists ms. simpl. auto.
Qed.

Lemma keeps_stateful (c : call) : keeps (Raise3DStatefulPrinterAPI.printer_request c).
Proof.
  intros w st. rewrite printer_request_unfold, printer_request_via_eq.
  pose proof (keeps_body c w st) as H1.
  destruct (Raise3DPrinterAPI.printer_request_body c w st) as [[a | exc] st1];
    [exact H1|].
  destruct (response_error_status exc) as [status|]; [|exact H1].
  destruct (_ && _); [|exact H1].
  pose proof (keeps_login None None w st1) as H2.
  destruct (Raise3DStatefulPrinterAPI.login None None w st1) as [[r | e] st2].
  - eapply frame_trans; [exact H1|]. eapply frame_trans; [exact H2|].
    apply keeps_body.
  - eapply frame_trans; [exact H1 | exact H2].
Qed.

Lemma keeps_camera_info : keeps Raise3DStatefulPrinterAPI.get_camera_info.
Proof.
  unfold Raise3DStatefulPrinterAPI.get_camera_info.
  apply keeps_bind; [apply keeps_stateful | intros response_data; cbv beta].
  apply keeps_bind; [apply keeps_get_self | intros this; cbv beta].
  apply keeps_bind; [|intros; cbv beta; apply keeps_ret].
  destruct (is_camera_api this); [|apply keeps_ret].
  apply keeps_bind; [apply keeps_lift | intros user_name; cbv beta].
  apply keeps_bind; [apply keeps_set_self; reflexivity | intros _].
  apply keeps_bind; [apply keeps_lift | intros password; cbv beta].
  apply keeps_bind; [apply keeps_set_self; reflexivity | intros _].
  destruct (is_host_based this); [|apply keeps_ret].
  apply keeps_bind; [apply keeps_lift | intros uri; cbv beta].
  apply keeps_bind; [|intros port; cbv beta; apply keeps_set_self; reflexivity].
  destruct uri; keeps_step.
Qed.

Lemma keeps_perform_stateful (op : operation) : keeps (perform_stateful op).
Proof.
  destruct op; unfold perform_stateful, perform;
    try apply keeps_stateful; try apply keeps_camera_info.
  unfold Raise3DPrinterAPI.upload_file.
  destruct (rpartition "/" destination_path).
  apply keeps_bind; [apply keeps_open_read | intros; apply keeps_stateful].
Qed.

Lemma plain_self (c : call) (w : world) (st : state) :
  self (snd (Raise3DPrinterAPI.printer_request c w st)) = self st.
Proof.
  unfold Raise3DPrinterAPI.printer_request.
  destruct (c_auto_auth c); [reflexivity | apply body_self].
Qed.

Lemma perform_plain_self (op : operation) (w : world) (st : state) :
  self (snd (perform_plain op w st)) = self st.
Proof.
  destruct op; unfold perform_plain, perform; try apply plain_self.
  unfold Raise3DPrinterAPI.upload_file.
  destruct (rpartition "/" destination_path). unfold bind, open_read.
  destruct (open_rb w (trace st) file_path); [|reflexivity].
  etransitivity; [apply plain_self | reflexivity].
Qed.

(** C7, as the code has it.  For every operation of the printer API other
    than login, in every world and from every state: on the stateful client
    the stored password is unchanged afterwards, and the stored token is
    unchanged unless a login request was sent while the operation ran (the
    automatic re-authentication); on the plain client neither changes; and
    login itself leaves the password unchanged.  This holds whether the
    operation returns or raises. *)
Theorem password_fixed_token_set_by_login_only :
  forall (op : operation) (w : world) (st : state),
    (printer_password (self (snd (perform_stateful op w st)))
     = printer_password (self st)
     /\ (printer_token (self (snd (perform_stateful op w st)))
         = printer_token (self st)
         \/ exists (evs : list event) (ms : Z),
              trace (snd (perform_stateful op w st)) = trace st ++ evs
              /\ In (EvRequest (login_request (self st) ms)) evs))
    /\ (printer_password (self (snd (perform_plain op w st)))
        = printer_password (self st)
        /\ printer_token (self (snd (perform_plain op w st)))
           = printer_token (self st))
    /\ (forall (sign : option string) (timestamp : option Z),
          printer_password
            (self (snd (Raise3DStatefulPrinterAPI.login sign timestamp w st)))
          = printer_password (self st)).
Proof.
  intros op w st. split; [|split].
  - destruct (keeps_perform_stateful op w st) as (Hp & _ & evs & Ht & Hk).
    split; [exact Hp|].
    destruct Hk as [Hk | (ms & Hin)]; [now left|].
    right. now exists evs, ms.
  - now rewrite perform_plain_self.
  - intros sign timestamp. apply (keeps_login sign timestamp w st).
Qed.

(** C7, as the claim states it, fails: [get_system_info] is not login, yet
    on the stateful client it changes the stored token when the printer
    answers 401 and the automatic login returns another token. *)
Lemma get_system_info_replaces_token :
  printer_token (self (fresh (sample_client (JStr "old") true))) = JStr "old"
  /\ printer_token
       (self (snd (perform_stateful GetSystemInfo relogin_world
                     (fresh (sample_client (JStr "old") true)))))
     = JStr "new".
Proof. split; reflexivity. Qed.

(** With auto-authentication off the token stays. *)
Lemma no_auto_auth_keeps_token (c : call) (w : world) (st : state) :
  effective_auto_auth (self st) c = false ->
  self (snd (Raise3DStatefulPrinterAPI.printer_request c w st)) = self st.
Proof.
  intros H. rewrite printer_request_no_auto by exact H. apply body_self.
Qed.

(** ** Further properties of the code *)

(** *** What one request through the stateful client sends *)

(** The events of one [printer_request]: nothing; the request; the request,
    a clock reading and nothing more (the timestamp could not be made); then
    the login request; then the request again, built from the client as the
    login left it. *)
Lemma stateful_shape (c : call) (w : world) (st : state) :
  let st' := snd (Raise3DStatefulPrinterAPI.printer_request c w st) in
  let r1 := EvRequest (Raise3DPrinterAPI.build_request (self st) c) in
  printer_url (self st') = printer_url (self st)
  /\ session_closed (self st') = session_closed (self st)
  /\ (trace st' = trace st
      \/ trace st' = trace st ++ [r1]
      \/ (exists t, trace st' = trace st ++ [r1; EvTime t])
      \/ (exists t ms,
            trace st' = trace st ++ [r1; EvTime t; EvRequest (login_request (self st) ms)])
      \/ (exists t ms,
            trace st' = trace st ++ [r1; EvTime t; EvRequest (login_request (self st) ms);
                                     EvRequest (Raise3DPrinterAPI.build_request (self st') c)])).
Proof.
  cbv zeta. rewrite printer_request_unfold, printer_request_via_eq.
  destruct (session_closed (self st)) eqn:Hc.
  { rewrite body_closed by exact Hc. simpl. auto. }
  pose proof Hc as Hc'.
  destruct (c_auth c && negb (truthy (printer_token (self st)))) eqn:E.
  { apply andb_prop in E. destruct E as [Ha Ht]. apply negb_true_iff in Ht.
    rewrite body_missing_token by assumption. simpl. auto. }
  assert (Htok : c_auth c = true -> truthy (printer_token (self st)) = true).
  { intros Ha. rewrite Ha in E. simpl in E. now apply negb_false_iff in E. }
  rewrite body_sent by assumption.
  set (rq1 := Raise3DPrinterAPI.build_request (self st) c).
  destruct (outcome (server w (trace st) rq1)) as [a | exc];
    [simpl; auto|].
  destruct (response_error_status exc) as [status|]; [|simpl; auto].
  destruct (effective_auto_auth (self st) c && (status =? 401)); [|simpl; auto].
  rewrite login_eq by (try exact Hc; reflexivity). cbv zeta.
  unfold emit. cbn [self trace].
  set (t := time_time w (trace st ++ [EvRequest rq1])).
  destruct (int_of_float _) as [ms | e].
  2:{ cbn [snd self trace]. split; [reflexivity | split; [exact Hc'|]].
      right. right. left. exists t. now rewrite <- app_assoc. }
  set (lrq := login_request (self st) ms).
  assert (Etr : ((trace st ++ [EvRequest rq1]) ++ [EvTime t]) ++ [EvRequest lrq]
                = trace st ++ [EvRequest rq1; EvTime t; EvRequest lrq]).
  { now rewrite <- !app_assoc. }
  rewrite Etr.
  destruct (outcome _) as [data | e].
  2:{ cbn [snd self trace]. split; [reflexivity | split; [exact Hc'|]].
      right. right. right. left. now exists t, ms. }
  destruct (py_getitem data "token") as [token | e].
  2:{ cbn [snd self trace]. split; [reflexivity | split; [exact Hc'|]].
      right. right. right. left. now exists t, ms. }
  set (st2 := {| self := set_printer_token token (self st);
                 trace := trace st ++ [EvRequest rq1; EvTime t; EvRequest lrq] |}).
  destruct (c_auth c && negb (truthy (printer_token (self st2)))) eqn:E2.
  { apply andb_prop in E2. destruct E2 as [Ha Ht]. apply negb_true_iff in Ht.
    rewrite body_missing_token by (try assumption; exact Hc).
    cbn [snd]. unfold st2. cbn [self trace set_printer_token printer_url session_closed].
    split; [reflexivity | split; [exact Hc'|]].
    right. right. right. left. now exists t, ms. }
  rewrite body_sent.
  - cbn [snd]. unfold emit, st2.
    cbn [self trace set_printer_token printer_url session_closed].
    split; [reflexivity | split; [exact Hc'|]].
    right. right. right. right. exists t, ms. now rewrite <- app_assoc.
  - exact Hc.
  - intros Ha. rewrite Ha in E2. simpl in E2. now apply negb_false_iff in E2.
Qed.

Lemma requests_app (a b : list event) : requests (a ++ b) = requests a ++ requests b.
Proof. unfold requests. apply flat_map_app. Qed.

(** X1.  One call of the stateful [printer_request] adds at most three
    requests to the trace (the call, one login, one retry), reads the clock
    at most once and never sleeps, whatever the printer answers. *)
Theorem stateful_request_is_bounded :
  forall (c : call) (w : world) (st : state),
    exists evs : list event,
      trace (snd (Raise3DStatefulPrinterAPI.printer_request c w st)) = trace st ++ evs
      /\ (List.length (requests evs) <= 3)%nat
      /\ (List.length (filter is_time evs) <= 1)%nat
      /\ filter is_sleep evs = [].
Proof.
  intros c w st.
  destruct (stateful_shape c w st) as (_ & _ & H).
  destruct H as [H | [H | [[t H] | [[t [ms H]] | [t [ms H]]]]]];
    [exists [] | eexists | eexists | eexists | eexists];
    (split; [rewrite H; try reflexivity; now rewrite app_nil_r|]);
    simpl; repeat split; lia.
Qed.

Lemma quiet_bind {A B} (m : M A) (k : A -> M B) :
  quiet m -> (forall a, quiet (k a)) -> quiet (bind m k).
Proof.
  intros Hm Hk w st. unfold bind. specialize (Hm w st).
  destruct (m w st) as [[a | e] st1]; [|exact Hm].
  now rewrite Hk.
Qed.

Lemma quiet_lift {A} (r : result A) : quiet (lift r).
Proof. intros w st. reflexivity. Qed.

Lemma quiet_set_self (f : client -> client) : quiet (set_self f).
Proof. intros w st. reflexivity. Qed.

Lemma quiet_ret {A} (a : A) : quiet (ret a).
Proof. intros w st. reflexivity. Qed.

Lemma quiet_raise {A} (e : exn) : quiet (@raise A e).
Proof. intros w st. reflexivity. Qed.

(** After its request, [get_camera_info] only assigns attributes. *)
Lemma camera_info_trace (w : world) (st : state) :
  trace (snd (Raise3DStatefulPrinterAPI.get_camera_info w st))
  = trace (snd (Raise3DStatefulPrinterAPI.printer_request camera_info_call w st)).
Proof.
  unfold Raise3DStatefulPrinterAPI.get_camera_info.
  unfold bind at 1.
  change (Raise3DPrinterAPI.get_camera_info Raise3DStatefulPrinterAPI.printer_request)
    with (Raise3DStatefulPrinterAPI.printer_request camera_info_call).
  destruct (Raise3DStatefulPrinterAPI.printer_request camera_info_call w st)
    as [[response_data | e] st1]; [|reflexivity].
  cbn [snd].
  match goal with |- trace (snd (?m w st1)) = _ => enough (Hq : quiet m) by apply Hq end.
  apply quiet_bind; [intros ? ?; reflexivity | intros this; cbv beta].
  apply quiet_bind; [|intros; apply quiet_ret].
  destruct (is_camera_api this); [|apply quiet_ret].
  apply quiet_bind; [apply quiet_lift | intros user_name; cbv beta].
  apply quiet_bind; [apply quiet_set_self | intros _].
  apply quiet_bind; [apply quiet_lift | intros password; cbv beta].
  apply quiet_bind; [apply quiet_set_self | intros _].
  destruct (is_host_based this); [|apply quiet_ret].
  apply quiet_bind; [apply quiet_lift | intros uri; cbv beta].
  apply quiet_bind; [|intros port; cbv beta; apply quiet_set_self].
  destruct uri; first [apply quiet_lift | apply quiet_raise].
Qed.

(** Every operation is one [printer_request], which [upload_file] precedes
    by opening the file and [get_camera_info] follows by assignments. *)
Lemma perform_stateful_trace (op : operation) (w : world) (st : state) :
  exists (c : call) (st0 : state),
    self st0 = self st
    /\ (trace st0 = trace st \/ exists p, trace st0 = trace st ++ [EvOpen p])
    /\ (trace (snd (perform_stateful op w st)) = trace st0
        \/ trace (snd (perform_stateful op w st))
           = trace (snd (Raise3DStatefulPrinterAPI.printer_request c w st0)))
    /\ (is_api_method op = true -> exists s, c_endpoint c = ("/v1" ++ s)%string).
Proof.
  destruct op; unfold perform_stateful, perform;
    try (eexists; exists st; split; [reflexivity|]; split; [now left|];
         split; [right; reflexivity|]; simpl; intros _; eexists; reflexivity).
  - exists c, st. repeat split; auto. discriminate.
  - exists camera_info_call, st. repeat split; auto.
    + right. apply camera_info_trace.
    + intros _. now exists "/printer/camera".
  - unfold Raise3DPrinterAPI.upload_file.
    destruct (rpartition "/" destination_path) as [dir_path filename].
    unfold bind, open_read.
    destruct (open_rb w (trace st) file_path) as [content|].
    + eexists. exists (emit (EvOpen file_path) st). split; [reflexivity|].
      split; [right; now exists file_path|].
      split; [right; reflexivity|]. intros _. eexists. reflexivity.
    + exists camera_info_call, (emit (EvOpen file_path) st). split; [reflexivity|].
      split; [right; now exists file_path|].
      split; [now left|]. intros _. now exists "/printer/camera".
Qed.

(** What the operations send, from the shape of one request. *)
Lemma perform_stateful_events (op : operation) (w : world) (st : state) :
  exists evs : list event,
    trace (snd (perform_stateful op w st)) = trace st ++ evs
    /\ (List.length (requests evs) <= 3)%nat
    /\ filter is_sleep evs = []
    /\ Forall (fun rq =>
                 exists path : string,
                   rq_url rq = (printer_url (self st) ++ path)%string
                   /\ (is_api_method op = true ->
                       exists rest, path = ("/v1" ++ rest)%string))
              (requests evs).
Proof.
  destruct (perform_stateful_trace op w st) as (c & st0 & Hs & Hpre & Hrun & Hv1).
  assert (Hlogin : forall ms, exists path,
             rq_url (login_request (self st) ms) = (printer_url (self st) ++ path)%string
             /\ (is_api_method op = true -> exists rest, path = ("/v1" ++ rest)%string)).
  { intros ms. exists "/v1/login". split; [reflexivity|]. intros _. now exists "/login". }
  assert (Hreq : forall this, printer_url this = printer_url (self st) ->
             exists path,
               rq_url (Raise3DPrinterAPI.build_request this c)
               = (printer_url (self st) ++ path)%string
               /\ (is_api_method op = true -> exists rest, path = ("/v1" ++ rest)%string)).
  { intros this Hu. exists (c_endpoint c). split; [|exact Hv1].
    unfold Raise3DPrinterAPI.build_request. cbn [rq_url]. now rewrite Hu. }
  assert (Hpre' : exists pre, trace st0 = trace st ++ pre /\ requests pre = []
                              /\ filter is_sleep pre = []).
  { destruct Hpre as [H | [p H]]; [exists [] | exists [EvOpen p]];
      (split; [rewrite H; try reflexivity; now rewrite app_nil_r|]); now split. }
  destruct Hpre' as (pre & Hpre' & Hpr & Hps).
  destruct Hrun as [Hrun | Hrun].
  { exists pre. rewrite Hrun, Hpr, Hps. repeat split; auto; simpl; lia. }
  destruct (stateful_shape c w st0) as (Hu & _ & H). rewrite Hs in *.
  assert (Hcase : exists evs, trace (snd (perform_stateful op w st)) = trace st0 ++ evs
             /\ (List.length (requests evs) <= 3)%nat /\ filter is_sleep evs = []
             /\ Forall (fun rq =>
                 exists path : string,
                   rq_url rq = (printer_url (self st) ++ path)%string
                   /\ (is_api_method op = true ->
                       exists rest, path = ("/v1" ++ rest)%string))
              (requests evs)).
  { rewrite Hrun.
    destruct H as [H | [H | [[t H] | [[t [ms H]] | [t [ms H]]]]]];
      [exists [] | eexists | eexists | eexists | eexists];
      (split; [rewrite H; try reflexivity; now rewrite app_nil_r|]);
      simpl; (split; [lia|]); (split; [reflexivity|]);
      repeat (apply Forall_cons || apply Forall_nil);
      try apply Hlogin; apply Hreq; (reflexivity || exact Hu). }
  destruct Hcase as (evs & Ht & Hn & Hsl & Hall).
  exists (pre ++ evs). rewrite Ht, Hpre', <- app_assoc.
  split; [reflexivity|]. rewrite requests_app, Hpr, filter_app, Hps. simpl.
  repeat split; assumption.
Qed.

(** X2.  Whatever operation is performed on the stateful client and
    whatever the printer answers, every request sent goes to the stored
    printer URL followed by a path, and for the API methods that path begins
    with "/v1": the client contacts no other address. *)
Theorem requests_go_to_the_printer :
  forall (op : operation) (w : world) (st : state),
    exists evs : list event,
      trace (snd (perform_stateful op w st)) = trace st ++ evs
      /\ Forall (fun rq =>
                   exists path : string,
                     rq_url rq = (printer_url (self st) ++ path)%string
                     /\ (is_api_method op = true ->
                         exists rest, path = ("/v1" ++ rest)%string))
                (requests evs).
Proof.
  intros op w st.
  destruct (perform_stateful_events op w st) as (evs & Ht & _ & _ & Hall).
  now exists evs.
Qed.

(** The retry helper runs its method once, or once more after one sleep of
    1.5 seconds from the state the first run left. *)
Lemma call_api_method_runs {A} (method : M A) (w : world) (st : state) :
  _async_call_api_method method w st = method w st
  \/ _async_call_api_method method w st
     = method w (emit (EvSleep 1.5%float) (snd (method w st))).
Proof.
  unfold _async_call_api_method, try_except.
  destruct (method w st) as [[a | exc] st1]; [now left|].
  destruct exc; cbn [snd]; try (now left); try (now right);
    match goal with
    | |- context [?x =? ?n] => destruct (x =? n); cbn [negb]; auto
    end.
Qed.

(** X3.  An API operation run through [_async_call_api_method] on the
    stateful client sends at most six requests and sleeps at most once, and
    that sleep lasts 1.5 seconds: retries and re-logins together are
    bounded. *)
Theorem retried_operation_is_bounded :
  forall (op : operation) (w : world) (st : state),
    exists evs : list event,
      trace (snd (_async_call_api_method (perform_stateful op) w st)) = trace st ++ evs
      /\ (List.length (requests evs) <= 6)%nat
      /\ (filter is_sleep evs = [] \/ filter is_sleep evs = [EvSleep 1.5%float]).
Proof.
  intros op w st.
  destruct (perform_stateful_events op w st) as (evs1 & Ht1 & Hn1 & Hs1 & _).
  destruct (call_api_method_runs (perform_stateful op) w st) as [E | E]; rewrite E.
  - exists evs1. repeat split; auto; lia.
  - destruct (perform_stateful_events op w
                (emit (EvSleep 1.5%float) (snd (perform_stateful op w st))))
      as (evs2 & Ht2 & Hn2 & Hs2 & _).
    exists (evs1 ++ [EvSleep 1.5%float] ++ evs2).
    rewrite Ht2. cbn [emit trace]. rewrite Ht1, <- !app_assoc.
    split; [reflexivity|].
    rewrite !requests_app, !filter_app, Hs1, Hs2, !length_app. simpl.
    split; [lia | now right].
Qed.

(** *** What login and a request leave in the client *)

Lemma set_own_token (c : client) : set_printer_token (printer_token c) c = c.
Proof. now destruct c. Qed.

(** What [login] leaves in the client, on return and on raise. *)
Lemma login_effect :
  forall (sign : option string) (timestamp : option Z) (w : world) (st : state),
    match Raise3DStatefulPrinterAPI.login sign timestamp w st with
    | (Ok data, st') =>
        py_getitem data "token" = Ok (printer_token (self st'))
        /\ self st' = set_printer_token (printer_token (self st')) (self st)
    | (Err _, st') => self st' = self st
    end.
Proof.
  intros sign timestamp w st.
  assert (Hcases : (timestamp = None -> sign = None)
                   \/ (timestamp = None /\ exists s, sign = Some s)).
  { destruct timestamp; [left; discriminate|].
    destruct sign as [s|]; [right; eauto | now left]. }
  destruct Hcases as [Hv | [-> [s ->]]]; [|reflexivity].
  destruct (session_closed (self st)) eqn:Hc.
  - assert (E : Raise3DStatefulPrinterAPI.login sign timestamp w st
                = Raise3DStatefulPrinterAPI.login None None w st).
    { destruct timestamp, sign; try reflexivity. specialize (Hv eq_refl). discriminate. }
    rewrite E, login_closed_eq by exact Hc. cbv zeta.
    destruct (int_of_float _); reflexivity.
  - rewrite login_eq by assumption. cbv zeta.
    destruct (int_of_float _) as [ms | e]; [|reflexivity].
    destruct (outcome _) as [data | e]; [|reflexivity].
    destruct (py_getitem data "token") as [token | e] eqn:Etok; [|reflexivity].
    cbn [self set_printer_token printer_token]. now split.
Qed.

(** X4.  The stateful [login] is all or nothing.  When it returns, the
    stored token is the value under "token" of the data it returns and
    nothing else of the client has changed; when it raises, for whatever
    reason, the client is exactly as it was, old token included. *)
Theorem login_stores_token_or_changes_nothing :
  forall (sign : option string) (timestamp : option Z) (w : world) (st : state),
    match Raise3DStatefulPrinterAPI.login sign timestamp w st with
    | (Ok data, st') =>
        py_getitem data "token" = Ok (printer_token (self st'))
        /\ self st' = set_printer_token (printer_token (self st')) (self st)
    | (Err _, st') => self st' = self st
    end.
Proof. exact login_effect. Qed.

(** A request through the stateful client changes at most the token. *)
Lemma stateful_only_token (c : call) (w : world) (st : state) :
  let st' := snd (Raise3DStatefulPrinterAPI.printer_request c w st) in
  self st' = set_printer_token (printer_token (self st')) (self st).
Proof.
  cbv zeta. rewrite printer_request_unfold, printer_request_via_eq.
  destruct (body_self c w st) as [H1 _].
  destruct (Raise3DPrinterAPI.printer_request_body c w st) as [[a | exc] st1];
    cbn [snd] in *; try (now rewrite H1, set_own_token).
  destruct (response_error_status exc) as [status|];
    [|cbn [snd]; now rewrite H1, set_own_token].
  destruct (effective_auto_auth (self st) c && (status =? 401));
    [|cbn [snd]; now rewrite H1, set_own_token].
  pose proof (login_effect None None w st1) as H2.
  destruct (Raise3DStatefulPrinterAPI.login None None w st1) as [[data | e] st2].
  - destruct H2 as [_ H2]. destruct (body_self c w st2) as [H3 _].
    rewrite H3. rewrite H1 in H2. exact H2.
  - cbn [snd]. now rewrite H2, H1, set_own_token.
Qed.

(** *** API error codes are treated like HTTP statuses *)

Lemma outcome_api_error (reason : string) (body err : dict) (code : Z) :
  eq_one (lookup_or "status" body JNull) = false ->
  dict_lookup "error" body = Some (JDict err) ->
  py_int (lookup_or "code" err JNull) = Ok code ->
  outcome (Response 200 reason (Ok (JDict body)))
  = Err (APIResponseError code (lookup_or "msg" err (JStr "Unknown error"))).
Proof.
  intros Hs He Hc. cbn [outcome]. cbn [Z.leb Z.compare Pos.compare Pos.compare_cont].
  rewrite handle_response_failure by now right.
  now apply api_error_specific; [right|].
Qed.

(** X5.  An application error delivered with HTTP 200 whose [error.code] is
    401 is handled like an HTTP 401: with auto-authentication in force the
    stateful client reads the clock and sends a login request right after
    the failed request. *)
Theorem api_error_401_triggers_login :
  forall (c : call) (w : world) (st : state) (reason : string) (body err : dict)
         (ms : Z),
    session_closed (self st) = false ->
    (c_auth c = true -> truthy (printer_token (self st)) = true) ->
    effective_auto_auth (self st) c = true ->
    let rq1 := Raise3DPrinterAPI.build_request (self st) c in
    server w (trace st) rq1 = Response 200 reason (Ok (JDict body)) ->
    eq_one (lookup_or "status" body JNull) = false ->
    dict_lookup "error" body = Some (JDict err) ->
    py_int (lookup_or "code" err JNull) = Ok 401 ->
    let t := time_time w (trace st ++ [EvRequest rq1]) in
    int_of_float (PrimFloat.mul t 1000%float) = Ok ms ->
    exists evs : list event,
      trace (snd (Raise3DStatefulPrinterAPI.printer_request c w st))
      = trace st ++ [EvRequest rq1; EvTime t; EvRequest (login_request (self st) ms)]
          ++ evs.
Proof.
  intros c w st reason body err ms Hopen Htok Hauto rq1 Hans Hs He Hc t Hms.
  rewrite printer_request_unfold, printer_request_via_eq.
  rewrite body_sent by assumption. fold rq1.
  rewrite Hans, (outcome_api_error reason body err 401 Hs He Hc).
  cbn [response_error_status]. rewrite Hauto. cbn [andb Z.eqb Pos.eqb].
  rewrite login_eq by (try exact Hopen; reflexivity).
  cbv zeta. unfold emit. cbn [self trace]. fold t. rewrite Hms.
  assert (Etr : ((trace st ++ [EvRequest rq1]) ++ [EvTime t])
                  ++ [EvRequest (login_request (self st) ms)]
                = trace st ++ [EvRequest rq1; EvTime t;
                               EvRequest (login_request (self st) ms)]).
  { now rewrite <- !app_assoc. }
  rewrite Etr.
  destruct (outcome _) as [data | e];
    [destruct (py_getitem data "token") as [token | e]|];
    try (exists []; cbn [snd trace]; now rewrite app_nil_r).
  match goal with
  | |- context [Raise3DPrinterAPI.printer_request_body c w ?s] =>
      destruct (body_self c w s) as [_ [evs Hevs]]; exists evs;
      rewrite Hevs; cbn [trace]; now rewrite <- app_assoc
  end.
Qed.

Lemma api_error_401_triggers_login_witness :
  exists evs : list event,
    trace (snd (Raise3DStatefulPrinterAPI.printer_request system_info_call
                  (scripted [Response 200 "OK" (Ok (JDict unauthorized_body))] 2.5%float)
                  (fresh (sample_client (JStr "old") true))))
    = [EvRequest (Raise3DPrinterAPI.build_request (sample_client (JStr "old") true)
                    system_info_call);
       EvTime 2.5%float;
       EvRequest (login_request (sample_client (JStr "old") true) 2500)] ++ evs.
Proof.
  exact (api_error_401_triggers_login system_info_call
           (scripted [Response 200 "OK" (Ok (JDict unauthorized_body))] 2.5%float)
           (fresh (sample_client (JStr "old") true)) "OK" unauthorized_body
           [("code", JInt 401); ("msg", JStr "token expired")] 2500
           eq_refl (fun _ => eq_refl) eq_refl eq_refl eq_refl eq_refl eq_refl eq_refl).
Defined.

(** X6.  An application error delivered with HTTP 200 whose [error.code] is
    429 is retried by [_async_call_api_method] like an HTTP 429: the helper
    sleeps 1.5 seconds after the failed request and runs the call again, and
    the stateful client does not log in for it. *)
Theorem api_error_429_is_retried :
  forall (c : call) (w : world) (st : state) (reason : string) (body err : dict),
    session_closed (self st) = false ->
    (c_auth c = true -> truthy (printer_token (self st)) = true) ->
    let rq1 := Raise3DPrinterAPI.build_request (self st) c in
    server w (trace st) rq1 = Response 200 reason (Ok (JDict body)) ->
    eq_one (lookup_or "status" body JNull) = false ->
    dict_lookup "error" body = Some (JDict err) ->
    py_int (lookup_or "code" err JNull) = Ok 429 ->
    _async_call_api_method (Raise3DStatefulPrinterAPI.printer_request c) w st
    = Raise3DStatefulPrinterAPI.printer_request c w
        {| self := self st; trace := trace st ++ [EvRequest rq1; EvSleep 1.5%float] |}.
Proof.
  intros c w st reason body err Hopen Htok rq1 Hans Hs He Hc.
  assert (E : Raise3DStatefulPrinterAPI.printer_request c w st
              = (Err (APIResponseError 429 (lookup_or "msg" err (JStr "Unknown error"))),
                 emit (EvRequest rq1) st)).
  { rewrite printer_request_unfold, printer_request_via_eq.
    rewrite body_sent by assumption. fold rq1.
    rewrite Hans, (outcome_api_error reason body err 429 Hs He Hc).
    cbn [response_error_status].
    replace (429 =? 401) with false by reflexivity.
    now rewrite andb_false_r. }
  unfold _async_call_api_method, try_except. rewrite E.
  cbn [negb Z.eqb Pos.eqb]. unfold bind, asyncio_sleep, emit. cbn [self trace].
  now rewrite <- app_assoc.
Qed.

Lemma api_error_429_is_retried_witness :
  _async_call_api_method
    (Raise3DStatefulPrinterAPI.printer_request system_info_call)
    (scripted [Response 200 "OK" (Ok (JDict rate_limit_body))] 0%float)
    (fresh (sample_client (JStr "tok") true))
  = Raise3DStatefulPrinterAPI.printer_request system_info_call
      (scripted [Response 200 "OK" (Ok (JDict rate_limit_body))] 0%float)
      {| self := sample_client (JStr "tok") true;
         trace := [EvRequest (Raise3DPrinterAPI.build_request
                                (sample_client (JStr "tok") true) system_info_call);
                   EvSleep 1.5%float] |}.
Proof.
  exact (api_error_429_is_retried system_info_call
           (scripted [Response 200 "OK" (Ok (JDict rate_limit_body))] 0%float)
           (fresh (sample_client (JStr "tok") true)) "OK" rate_limit_body
           [("code", JStr "429"); ("msg", JStr "slow down")]
           eq_refl (fun _ => eq_refl) eq_refl eq_refl eq_refl eq_refl).
Defined.

(** *** A closed client *)

Lemma perform_closed (op : operation) (w : world) (st : state) :
  session_closed (self st) = true ->
  perform_stateful op w st = (Err (RuntimeError "Client session is closed!"), st)
  \/ exists p : string,
       perform_stateful op w st
       = (Err (RuntimeError "Client session is closed!"), emit (EvOpen p) st)
       \/ perform_stateful op w st = (Err (OSError p), emit (EvOpen p) st).
Proof.
  intros Hc.
  destruct op; unfold perform_stateful, perform;
    try (left; apply stateful_closed; exact Hc).
  - left. unfold Raise3DStatefulPrinterAPI.get_camera_info. unfold bind at 1.
    change (Raise3DPrinterAPI.get_camera_info Raise3DStatefulPrinterAPI.printer_request)
      with (Raise3DStatefulPrinterAPI.printer_request camera_info_call).
    now rewrite stateful_closed.
  - right. exists file_path. unfold Raise3DPrinterAPI.upload_file.
    destruct (rpartition "/" destination_path) as [dir_path filename].
    unfold bind, open_read.
    destruct (open_rb w (trace st) file_path) as [content|]; [left | now right].
    apply stateful_closed. exact Hc.
Qed.

(** X7.  After [close()], every operation of the stateful client raises
    (a [RuntimeError], or the [OSError] of a file [upload_file] could not
    open) without sending any request, the retry helper does not retry it,
    and [login] raises without sending anything either. *)
Theorem closed_client_sends_nothing :
  forall (op : operation) (w : world) (st : state),
    let st1 := snd (close w st) in
    (exists (e : exn) (evs : list event),
        fst (perform_stateful op w st1) = Err e
        /\ trace (snd (perform_stateful op w st1)) = trace st ++ evs
        /\ requests evs = [])
    /\ _async_call_api_method (perform_stateful op) w st1 = perform_stateful op w st1
    /\ (forall (sign : option string) (timestamp : option Z),
          exists (e : exn) (evs : list event),
            fst (Raise3DStatefulPrinterAPI.login sign timestamp w st1) = Err e
            /\ trace (snd (Raise3DStatefulPrinterAPI.login sign timestamp w st1))
               = trace st ++ evs
            /\ requests evs = []).
Proof.
  intros op w st st1.
  assert (Hc : session_closed (self st1) = true) by reflexivity.
  assert (Ht : trace st1 = trace st) by reflexivity.
  split; [|split].
  - destruct (perform_closed op w st1 Hc) as [E | [p [E | E]]]; rewrite E, <- Ht;
      [exists (RuntimeError "Client session is closed!"), []
      |exists (RuntimeError "Client session is closed!"), [EvOpen p]
      |exists (OSError p), [EvOpen p]];
      repeat split; cbn [snd trace]; now rewrite ?app_nil_r.
  - unfold _async_call_api_method, try_except.
    destruct (perform_closed op w st1 Hc) as [E | [p [E | E]]]; now rewrite E.
  - intros sign timestamp. rewrite <- Ht.
    assert (Hcases : (timestamp = None -> sign = None)
                     \/ (timestamp = None /\ exists s, sign = Some s)).
    { destruct timestamp; [left; discriminate|].
      destruct sign as [s|]; [right; eauto | now left]. }
    destruct Hcases as [Hv | [-> [s ->]]].
    + assert (E : Raise3DStatefulPrinterAPI.login sign timestamp w st1
                  = Raise3DStatefulPrinterAPI.login None None w st1).
      { destruct timestamp, sign; try reflexivity.
        specialize (Hv eq_refl). discriminate. }
      rewrite E, login_closed_eq by exact Hc. cbv zeta.
      destruct (int_of_float _) as [ms | e];
        [exists (RuntimeError "Client session is closed!") | exists e];
        exists [EvTime (time_time w (trace st1))]; now repeat split.
    + exists (ValueError "signature provided without timestamp"), [].
      repeat split. cbn [snd]. now rewrite app_nil_r.
Qed.

(** *** The query parameters of a request *)

Lemma lookup_set (k k' : string) (v : json) (d : dict) :
  dict_lookup k (dict_set k' v d)
  = if String.eqb k k' then Some v else dict_lookup k d.
Proof.
  induction d as [| [k0 v0] r IH]; simpl.
  - reflexivity.
  - destruct (String.eqb k' k0) eqn:E0; simpl.
    + apply String.eqb_eq in E0. subst k0.
      destruct (String.eqb k k'); reflexivity.
    + rewrite IH. destruct (String.eqb k k0) eqn:E1; [|reflexivity].
      destruct (String.eqb k k') eqn:E2; [|reflexivity].
      apply String.eqb_eq in E1, E2. subst. rewrite String.eqb_refl in E0.
      discriminate.
Qed.

Lemma lookup_app (k : string) (a b : dict) :
  dict_lookup k (a ++ b)
  = match dict_lookup k a with
    | Some v => Some v
    | None => dict_lookup k b
    end.
Proof.
  induction a as [| [k0 v0] r IH]; simpl; [reflexivity|].
  destruct (String.eqb k k0); [reflexivity | exact IH].
Qed.

Lemma lookup_update (k : string) (d upd : dict) :
  dict_lookup k (dict_update d upd)
  = match dict_lookup k (rev upd) with
    | Some v => Some v
    | None => dict_lookup k d
    end.
Proof.
  induction upd as [| [k0 v0] r IH] using rev_ind; [reflexivity|].
  unfold dict_update in *. rewrite fold_left_app. simpl.
  rewrite lookup_set, rev_app_distr. simpl.
  destruct (String.eqb k k0); [reflexivity | exact IH].
Qed.

Lemma lookup_absent (k : string) (d : dict) :
  ~ In k (map fst d) -> dict_lookup k d = None.
Proof.
  induction d as [| [k0 v0] r IH]; simpl; [reflexivity|].
  intros H. destruct (String.eqb k k0) eqn:E.
  - apply String.eqb_eq in E. subst. exfalso. apply H. now left.
  - apply IH. intros Hin. apply H. now right.
Qed.

Lemma lookup_rev (k : string) (d : dict) :
  NoDup (map fst d) -> dict_lookup k (rev d) = dict_lookup k d.
Proof.
  induction d as [| [k0 v0] r IH]; simpl; [reflexivity|].
  intros H. inversion H as [| ? ? Hnot Hnd]; subst.
  rewrite lookup_app, IH by assumption. simpl.
  destruct (String.eqb k k0) eqn:E.
  - apply String.eqb_eq in E. subst. now rewrite lookup_absent.
  - destruct (dict_lookup k r); reflexivity.
Qed.

(** X8.  The query parameters of a request are the caller's parameters,
    plus the stored token under "token" when the call is authenticated; a
    "token" among the caller's parameters takes the place of the stored one,
    and an unauthenticated call carries no token unless the caller passes
    one. *)
Theorem request_parameters :
  forall (this : client) (c : call) (k : string),
    (forall params, c_params c = Some params -> NoDup (map fst params)) ->
    dict_lookup k (rq_params (Raise3DPrinterAPI.build_request this c))
    = match match c_params c with
            | Some params => dict_lookup k params
            | None => None
            end with
      | Some v => Some v
      | None =>
          if c_auth c && String.eqb k "token" then Some (printer_token this)
          else None
      end.
Proof.
  intros this c k Hnd. unfold Raise3DPrinterAPI.build_request. cbn [rq_params].
  assert (Hbase : dict_lookup k
                    (if c_auth c then dict_set "token" (printer_token this) [] else [])
                  = if c_auth c && String.eqb k "token" then Some (printer_token this)
                    else None).
  { destruct (c_auth c); simpl; [|reflexivity].
    destruct (String.eqb k "token"); reflexivity. }
  destruct (c_params c) as [params|] eqn:Ep.
  - specialize (Hnd params eq_refl).
    destruct params as [| kv r].
    + simpl. exact Hbase.
    + cbn [truthy]. rewrite lookup_update, lookup_rev by assumption.
      rewrite Hbase. reflexivity.
  - exact Hbase.
Qed.

Lemma request_parameters_witness :
  dict_lookup "token"
    (rq_params
       (Raise3DPrinterAPI.build_request (sample_client (JStr "stored") true)
          {| c_method := GET; c_endpoint := "/v1/fileops/list";
             c_params := Some [("dir", JStr "Local/"); ("token", JStr "mine")];
             c_json := None; c_data := None; c_auth := true;
             c_auto_auth := None |}))
  = Some (JStr "mine").
Proof.
  apply (request_parameters (sample_client (JStr "stored") true)
           {| c_method := GET; c_endpoint := "/v1/fileops/list";
              c_params := Some [("dir", JStr "Local/"); ("token", JStr "mine")];
              c_json := None; c_data := None; c_auth := true;
              c_auto_auth := None |} "token").
  intros params E. injection E as <-. simpl.
  repeat constructor; simpl; intuition discriminate.
Defined.

(** The events of one [login]. *)
Lemma login_events :
  forall (sign : option string) (timestamp : option Z) (w : world) (st : state),
    exists evs : list event,
      trace (snd (Raise3DStatefulPrinterAPI.login sign timestamp w st)) = trace st ++ evs
      /\ (List.length (requests evs) <= 1)%nat
      /\ Forall (fun rq =>
                   rq_method rq = GET
                   /\ rq_url rq = (printer_url (self st) ++ "/v1/login")%string
                   /\ dict_lookup "token" (rq_params rq) = None)
                (requests evs).
Proof.
  intros sign timestamp w st.
  assert (Hcases : (timestamp = None -> sign = None)
                   \/ (timestamp = None /\ exists s, sign = Some s)).
  { destruct timestamp; [left; discriminate|].
    destruct sign as [s|]; [right; eauto | now left]. }
  destruct Hcases as [Hv | [-> [s ->]]].
  2:{ exists []. cbn [snd]. rewrite app_nil_r. repeat split; simpl; auto. }
  destruct (session_closed (self st)) eqn:Hc.
  - assert (E : Raise3DStatefulPrinterAPI.login sign timestamp w st
                = Raise3DStatefulPrinterAPI.login None None w st).
    { destruct timestamp, sign; try reflexivity. specialize (Hv eq_refl). discriminate. }
    rewrite E, login_closed_eq by exact Hc. cbv zeta.
    exists [EvTime (time_time w (trace st))].
    destruct (int_of_float _); repeat split; simpl; auto.
  - rewrite login_eq by assumption. cbv zeta.
    set (t := time_time w (trace st)).
    destruct (int_of_float _) as [ms | e].
    2:{ exists [EvTime t]. repeat split; simpl; auto. }
    exists [EvTime t; EvRequest (login_request (self st) ms)].
    split.
    + destruct (outcome _) as [data | e];
        [destruct (py_getitem data "token")|]; cbn [snd trace emit];
        now rewrite <- app_assoc.
    + split; [simpl; lia|]. simpl. repeat constructor.
Qed.

(** X9.  The stateful [login] sends at most one request; it is a GET to the
    printer URL followed by "/v1/login", and it carries no "token"
    parameter: the stored token is never sent along with a login. *)
Theorem login_sends_one_request_without_token :
  forall (sign : option string) (timestamp : option Z) (w : world) (st : state),
    exists evs : list event,
      trace (snd (Raise3DStatefulPrinterAPI.login sign timestamp w st)) = trace st ++ evs
      /\ (List.length (requests evs) <= 1)%nat
      /\ Forall (fun rq =>
                   rq_method rq = GET
                   /\ rq_url rq = (printer_url (self st) ++ "/v1/login")%string
                   /\ dict_lookup "token" (rq_params rq) = None)
                (requests evs).
Proof. exact login_events. Qed.

(** *** The camera attributes and the URLs of a host-based client *)

Lemma preserves_bind (P : client -> Prop) {A B} (m : M A) (k : A -> M B) :
  preserves P m -> (forall a, preserves P (k a)) -> preserves P (bind m k).
Proof.
  intros Hm Hk w st HP. unfold bind. specialize (Hm w st HP).
  destruct (m w st) as [[a | e] st1]; [|exact Hm].
  now apply Hk.
Qed.

Lemma preserves_pure (P : client -> Prop) {A} (m : M A) :
  (forall w st, self (snd (m w st)) = self st) -> preserves P m.
Proof. intros H w st HP. now rewrite H. Qed.

Lemma preserves_set_self (P : client -> Prop) (f : client -> client) :
  (forall c, P c -> P (f c)) -> preserves P (set_self f).
Proof. intros H w st HP. now apply H. Qed.

Lemma consistent_set_token (v : json) (c : client) :
  urls_consistent c -> urls_consistent (set_printer_token v c).
Proof. intros H. exact H. Qed.

Lemma preserves_stateful (c : call) :
  preserves urls_consistent (Raise3DStatefulPrinterAPI.printer_request c).
Proof.
  intros w st HP. pose proof (stateful_only_token c w st) as H. cbv zeta in H.
  rewrite H. now apply consistent_set_token.
Qed.

Lemma preserves_camera_info :
  preserves urls_consistent Raise3DStatefulPrinterAPI.get_camera_info.
Proof.
  unfold Raise3DStatefulPrinterAPI.get_camera_info.
  apply preserves_bind; [apply preserves_stateful | intros response_data; cbv beta].
  apply preserves_bind; [now apply preserves_pure | intros this; cbv beta].
  apply preserves_bind; [|intros; now apply preserves_pure].
  destruct (is_camera_api this); [|now apply preserves_pure].
  apply preserves_bind; [now apply preserves_pure | intros user_name; cbv beta].
  apply preserves_bind; [apply preserves_set_self; now intros c H | intros _].
  apply preserves_bind; [now apply preserves_pure | intros password; cbv beta].
  apply preserves_bind; [apply preserves_set_self; now intros c H | intros _].
  destruct (is_host_based this); [|now apply preserves_pure].
  apply preserves_bind; [now apply preserves_pure | intros uri; cbv beta].
  apply preserves_bind; [destruct uri; now apply preserves_pure|].
  intros port. apply preserves_set_self.
  intros c [Hp _]. split; [exact Hp | reflexivity].
Qed.

(** X10.  On a client whose printer and camera URLs are the ones its host
    and ports give (as the host-based constructor builds them), every
    operation of the stateful client and [login] leave them so, also when
    [get_camera_info] changes the camera port. *)
Theorem urls_stay_consistent :
  forall (op : operation) (w : world) (st : state),
    urls_consistent (self st) ->
    urls_consistent (self (snd (perform_stateful op w st)))
    /\ forall (sign : option string) (timestamp : option Z),
         urls_consistent
           (self (snd (Raise3DStatefulPrinterAPI.login sign timestamp w st))).
Proof.
  intros op w st HP. split.
  - revert w st HP. change (preserves urls_consistent (perform_stateful op)).
    destruct op; unfold perform_stateful, perform;
      try apply preserves_stateful; try apply preserves_camera_info.
    unfold Raise3DPrinterAPI.upload_file.
    destruct (rpartition "/" destination_path).
    apply preserves_bind; [apply preserves_pure | intros; apply preserves_stateful].
    intros w st. unfold open_read. now destruct (open_rb w (trace st) file_path).
  - intros sign timestamp.
    pose proof (login_effect sign timestamp w st) as H.
    destruct (Raise3DStatefulPrinterAPI.login sign timestamp w st) as [[data | e] st'];
      cbn [snd].
    + destruct H as [_ H]. rewrite H. now apply consistent_set_token.
    + now rewrite H.
Qed.

Lemma urls_stay_consistent_witness :
  urls_consistent
    (self (snd (perform_stateful GetCameraInfo camera_info_world
                  (fresh configured_client)))).
Proof.
  apply (urls_stay_consistent GetCameraInfo camera_info_world (fresh configured_client)).
  split; reflexivity.
Defined.

(** The witness above, computed: the port announced by the printer is
    taken over and the camera URL follows it. *)
Example camera_port_follows_the_printer :
  let c := self (snd (perform_stateful GetCameraInfo camera_info_world
                        (fresh configured_client))) in
  camera_port c = 8554 /\ camera_url c = "http://10.0.0.5:8554"
  /\ camera_username c = JStr "cam" /\ camera_password c = JStr "pw".
Proof. repeat split; vm_compute; reflexivity. Qed.

(** The port is what [int] reads: Arabic-Indic digits give a port, the
    separator 0x1C before the digits is a [ValueError]; the credentials are
    stored in both runs. *)
Example camera_port_is_read_by_int :
  let announce (uri : string) : world :=
    scripted [Response 200 "OK"
                (ok_body (JDict [("user_name", JStr "cam"); ("password", JStr "pw");
                                 ("camerserver_URI", JStr uri)]))]
             0%float in
  let run (uri : string) :=
    Raise3DStatefulPrinterAPI.get_camera_info (announce uri) (fresh configured_client) in
  camera_port (self (snd (run (str_of_code_points [0x3A; 0x661; 0x662; 0x2F; 0x78])))) = 12
  /\ fst (run (str_of_code_points [0x3A; 0x1C; 0x31; 0x32; 0x2F; 0x78]))
     = Err (ValueError "invalid literal for int() with base 10")
  /\ camera_port (self (snd (run (str_of_code_points [0x3A; 0x1C; 0x31; 0x32; 0x2F; 0x78]))))
     = 30
  /\ camera_username
       (self (snd (run (str_of_code_points [0x3A; 0x1C; 0x31; 0x32; 0x2F; 0x78]))))
     = JStr "cam".
Proof. repeat split; vm_compute; reflexivity. Qed.

Lemma camera_info_request (w : world) (st : state) :
  Raise3DStatefulPrinterAPI.get_camera_info w st
  = match Raise3DStatefulPrinterAPI.printer_request camera_info_call w st with
    | (Ok response_data, st1) =>
        (this <- get_self;;
         (if is_camera_api this then
            user_name <- lift (py_getitem response_data "user_name");;
            set_self (set_camera_username user_name);;
            password <- lift (py_getitem response_data "password");;
            set_self (set_camera_password password);;
            if is_host_based this then
              uri <- lift (py_getitem response_data "camerserver_URI");;
              port <- match uri with
                      | JStr s => lift (int_of_string (str_tail (str_partition_head "/" s)))
                      | _ => raise (AttributeError "object has no attribute 'partition'")
                      end;;
              set_self (set_camera_port port)
            else ret tt
          else ret tt);;
         ret response_data) w st1
    | (Err e, st1) => (Err e, st1)
    end.
Proof. reflexivity. Qed.

Lemma stateful_flags (c : call) (w : world) (st : state) :
  let c' := self (snd (Raise3DStatefulPrinterAPI.printer_request c w st)) in
  is_camera_api c' = is_camera_api (self st)
  /\ is_host_based c' = is_host_based (self st)
  /\ host c' = host (self st)
  /\ camera_username c' = camera_username (self st)
  /\ camera_password c' = camera_password (self st).
Proof.
  cbv zeta. pose proof (stateful_only_token c w st) as H. cbv zeta in H.
  rewrite H. repeat split.
Qed.

(** X11.  When [get_camera_info] returns on a client that is a camera API,
    the camera user name and password stored are the values under
    "user_name" and "password" of the data returned; on a host-based client
    the camera port is moreover the integer read from "camerserver_URI"
    (first character dropped, up to the first "/") and the camera URL is
    rebuilt from the host and that port. *)
Theorem camera_info_stores_credentials :
  forall (w : world) (st st' : state) (data : json),
    Raise3DStatefulPrinterAPI.get_camera_info w st = (Ok data, st') ->
    is_camera_api (self st) = true ->
    py_getitem data "user_name" = Ok (camera_username (self st'))
    /\ py_getitem data "password" = Ok (camera_password (self st'))
    /\ (is_host_based (self st) = true ->
        exists uri : string,
          py_getitem data "camerserver_URI" = Ok (JStr uri)
          /\ int_of_string (str_tail (str_partition_head "/" uri))
             = Ok (camera_port (self st'))
          /\ camera_url (self st') = http_url (host (self st)) (camera_port (self st'))).
Proof.
  intros w st st' data H Hcam. rewrite camera_info_request in H.
  destruct (stateful_flags camera_info_call w st) as (Fc & Fh & Fhost & _).
  destruct (Raise3DStatefulPrinterAPI.printer_request camera_info_call w st)
    as [[response_data | e] st1]; [|discriminate].
  cbn [snd] in *. revert H. run_monad. rewrite Fc, Hcam, Fh.
  destruct (py_getitem response_data "user_name") as [user_name|] eqn:Eun;
    [|discriminate].
  destruct (py_getitem response_data "password") as [password|] eqn:Ep; [|discriminate].
  destruct (is_host_based (self st)).
  - destruct (py_getitem response_data "camerserver_URI") as [uri|] eqn:Eu;
      [|discriminate].
    destruct uri; try discriminate.
    destruct (int_of_string _) as [port|] eqn:Eport; [|discriminate].
    intros H. injection H as <- <-. cbn [self set_camera_port camera_username
      camera_password camera_port camera_url host set_camera_password
      set_camera_username].
    rewrite Eun, Ep. split; [reflexivity | split; [reflexivity|]].
    intros _. exists s. rewrite Eu, Eport, Fhost.
    split; [reflexivity | split; reflexivity].
  - intros H. injection H as <- <-. cbn [self camera_username camera_password
      set_camera_password set_camera_username].
    rewrite Eun, Ep. split; [reflexivity | split; [reflexivity | discriminate]].
Qed.

Lemma camera_info_stores_credentials_witness :
  py_getitem (JDict [("user_name", JStr "cam"); ("password", JStr "pw");
                     ("camerserver_URI", JStr ":8554/stream")]) "user_name"
  = Ok (camera_username
          (self (snd (Raise3DStatefulPrinterAPI.get_camera_info camera_info_world
                        (fresh configured_client))))).
Proof.
  refine (proj1 (camera_info_stores_credentials camera_info_world
                   (fresh configured_client)
                   (snd (Raise3DStatefulPrinterAPI.get_camera_info camera_info_world
                           (fresh configured_client)))
                   (JDict [("user_name", JStr "cam"); ("password", JStr "pw");
                           ("camerserver_URI", JStr ":8554/stream")])
                   _ eq_refl)).
  vm_compute. reflexivity.
Defined.

(** X12.  [get_camera_info] assigns the camera attributes one by one: when
    the data holds "user_name" but no "password", it raises
    [KeyError("password")] after the camera user name has been overwritten,
    the camera password staying as it was. *)
Theorem camera_info_partial_update :
  forall (w : world) (st st1 : state) (d : dict) (user_name : json),
    Raise3DStatefulPrinterAPI.printer_request camera_info_call w st
    = (Ok (JDict d), st1) ->
    is_camera_api (self st) = true ->
    dict_lookup "user_name" d = Some user_name ->
    dict_lookup "password" d = None ->
    Raise3DStatefulPrinterAPI.get_camera_info w st
    = (Err (KeyError "password"),
       {| self := set_camera_username user_name (self st1); trace := trace st1 |})
    /\ camera_password (set_camera_username user_name (self st1))
       = camera_password (self st).
Proof.
  intros w st st1 d user_name H Hcam Hu Hp.
  rewrite camera_info_request.
  destruct (stateful_flags camera_info_call w st) as (Fc & _ & _ & _ & Fp).
  rewrite H in *. cbn [snd] in *. run_monad. rewrite Fc, Hcam, Hu, Hp.
  split; [reflexivity | exact Fp].
Qed.

Lemma camera_info_partial_update_witness :
  Raise3DStatefulPrinterAPI.get_camera_info no_password_world (fresh configured_client)
  = (Err (KeyError "password"),
     {| self := set_camera_username (JStr "cam")
                  (self (snd (Raise3DStatefulPrinterAPI.printer_request camera_info_call
                                no_password_world (fresh configured_client))));
        trace := trace (snd (Raise3DStatefulPrinterAPI.printer_request camera_info_call
                               no_password_world (fresh configured_client))) |}).
Proof.
  refine (proj1 (camera_info_partial_update no_password_world (fresh configured_client)
                   (snd (Raise3DStatefulPrinterAPI.printer_request camera_info_call
                           no_password_world (fresh configured_client)))
                   [("user_name", JStr "cam")] (JStr "cam") _ eq_refl eq_refl eq_refl)).
  vm_compute. reflexivity.
Defined.

(** *** [convert_unempty] and [wrap_convert_unempty] *)

Lemma lstrip_forall (is_space : Z -> bool) (l : list Z) :
  forallb is_space l = true -> lstrip is_space l = [].
Proof.
  induction l as [| c r IH]; simpl; [reflexivity|].
  intros H. apply andb_prop in H. destruct H as [Hc Hr]. rewrite Hc. now apply IH.
Qed.

Lemma lstrip_empty (is_space : Z -> bool) (l : list Z) :
  lstrip is_space l = [] -> forallb is_space l = true.
Proof.
  induction l as [| c r IH]; simpl; [reflexivity|].
  destruct (is_space c); [exact IH | discriminate].
Qed.

(** What is left of [lstrip] starts with no white space. *)
Lemma lstrip_head (is_space : Z -> bool) (l : list Z) :
  lstrip is_space l = []
  \/ exists c r, lstrip is_space l = c :: r /\ is_space c = false.
Proof.
  induction l as [| c r IH]; simpl; [now left|].
  destruct (is_space c) eqn:E; [exact IH|]. right. now exists c, r.
Qed.

Lemma utf8_char_not_empty (cp : Z) : utf8_char cp <> EmptyString.
Proof.
  unfold utf8_char.
  destruct (cp <? 0x80); [discriminate|].
  destruct (cp <? 0x800); [discriminate|].
  destruct (cp <? 0x10000); discriminate.
Qed.

Lemma str_of_code_points_empty (l : list Z) :
  str_of_code_points l = EmptyString -> l = [].
Proof.
  destruct l as [| cp r]; [reflexivity|]. simpl. intros H.
  destruct (utf8_char cp) eqn:E; [now apply utf8_char_not_empty in E | discriminate].
Qed.

Lemma strip_blank (s : string) :
  String.eqb (strip s) EmptyString = all_space s.
Proof.
  unfold strip, all_space. set (l := code_points s).
  destruct (forallb Py_UNICODE_ISSPACE l) eqn:E.
  - rewrite (lstrip_forall _ l E). reflexivity.
  - apply String.eqb_neq. intros H. apply str_of_code_points_empty in H.
    apply (f_equal (@rev Z)) in H. rewrite rev_involutive in H. simpl in H.
    apply lstrip_empty in H.
    destruct (lstrip_head Py_UNICODE_ISSPACE l) as [H0 | (c & r & H0 & Hc)].
    + apply lstrip_empty in H0. congruence.
    + rewrite H0 in H. simpl in H. rewrite forallb_app in H. simpl in H.
      rewrite Hc in H. rewrite andb_false_r in H. discriminate.
Qed.

Lemma convert_unempty_eq (value : json) :
  convert_unempty value
  = match value with
    | JStr s => if all_space s then JNull else JStr s
    | _ => value
    end.
Proof.
  destruct value; try reflexivity. unfold convert_unempty. cbn [truthy].
  rewrite strip_blank, negb_involutive. reflexivity.
Qed.

(** X13.  [convert_unempty] turns a string made of white space only (the
    white space of [str.strip]: ASCII and Unicode), the empty string
    included, into [None] and returns every other value as it is; applying
    it twice changes nothing more. *)
Theorem convert_unempty_blank_strings :
  forall value : json,
    convert_unempty value
    = match value with
      | JStr s => if all_space s then JNull else JStr s
      | _ => value
      end
    /\ convert_unempty (convert_unempty value) = convert_unempty value.
Proof.
  intros value. split; [apply convert_unempty_eq|].
  rewrite (convert_unempty_eq value). destruct value; try reflexivity.
  destruct (all_space s) eqn:Es; [reflexivity|].
  now rewrite convert_unempty_eq, Es.
Qed.

(** X14.  A converter wrapped by [wrap_convert_unempty] is never applied to
    [None] or to a string of white space only (ASCII or Unicode, the empty
    string included): both give [None], so a converter that would raise on
    them (like [float]) does not; every other value is handed to the
    converter as it is. *)
Theorem wrapped_converter_skips_blanks :
  forall (converter : json -> result json) (value : json),
    wrap_convert_unempty converter value
    = match value with
      | JNull => Ok JNull
      | JStr s => if all_space s then Ok JNull else converter (JStr s)
      | _ => converter value
      end.
Proof.
  intros converter value. unfold wrap_convert_unempty.
  rewrite convert_unempty_eq.
  destruct value; try reflexivity.
  destruct (all_space s); reflexivity.
Qed.

(** *** The update coordinator and a missing endpoint *)

(** X15.  When the first attempt of the update method raises a response
    error with status 404, [_async_update_data] does not retry and does not
    sleep: it returns [None] from the state that attempt left and shuts the
    coordinator down, instead of raising. *)
Theorem not_found_stops_the_updater :
  forall (update_method : M json) (co : coordinator) (w : world)
         (st st1 : state) (exc : exn),
    update_method w st = (Err exc, st1) ->
    response_error_status exc = Some 404 ->
    _async_update_data update_method co w st
    = (Ok (JNull, {| shutdown_requested := true |}), st1).
Proof.
  intros update_method co w st st1 exc Hrun Hst.
  unfold _async_update_data, _async_call_api_method, try_except, bind.
  rewrite Hrun.
  destruct exc; try discriminate; cbn [response_error_status] in Hst;
    injection Hst as ->; cbn [negb Z.eqb Pos.eqb raise response_error_status];
    reflexivity.
Qed.

Lemma not_found_stops_the_updater_witness :
  _async_update_data
    (Raise3DPrinterAPI.get_statistics Raise3DStatefulPrinterAPI.printer_request)
    {| shutdown_requested := false |}
    (scripted [not_found_answer] 0%float) (fresh (sample_client (JStr "tok") true))
  = (Ok (JNull, {| shutdown_requested := true |}),
     emit (EvRequest
             (Raise3DPrinterAPI.build_request (sample_client (JStr "tok") true)
                (simple_call GET "/v1/dashboard/statistics" true)))
          (fresh (sample_client (JStr "tok") true))).
Proof.
  apply (not_found_stops_the_updater
           (Raise3DPrinterAPI.get_statistics Raise3DStatefulPrinterAPI.printer_request)
           {| shutdown_requested := false |}
           (scripted [not_found_answer] 0%float)
           (fresh (sample_client (JStr "tok") true)) _
           (ClientResponseError 404 "Not Found")); reflexivity.
Defined.

(** *** [upload_file] *)

Lemma rsplit_spec (sep : ascii) (s : string) :
  match str_rsplit sep s with
  | Some (h, t) => s = (h ++ String sep t)%string /\ has_char sep t = false
  | None => has_char sep s = false
  end.
Proof.
  induction s as [| c r IH]; simpl; [reflexivity|].
  destruct (str_rsplit sep r) as [[h t]|].
  - destruct IH as [-> Ht]. now split.
  - destruct (Ascii.eqb c sep) eqn:E; simpl.
    + apply Ascii.eqb_eq in E. subst. now split.
    + exact IH.
Qed.

Lemma has_char_app (sep : ascii) (a b : string) :
  has_char sep (a ++ b)%string = has_char sep a || has_char sep b.
Proof.
  induction a as [| c r IH]; simpl; [reflexivity|].
  now rewrite IH, orb_assoc.
Qed.

(** X16.  [upload_file] opens the local file first: when it cannot be
    opened the [OSError] is raised and nothing is sent.  Otherwise the
    upload is one [printer_request] whose directory and file name are the
    destination cut at its last "/": the file name holds no "/", the two
    joined by "/" give the destination back, and a destination without "/"
    is a file name in the empty directory. *)
Theorem upload_file_splits_destination :
  forall (file_path destination_path : string) (w : world) (st : state),
    match open_rb w (trace st) file_path with
    | None =>
        perform_stateful (UploadFile file_path destination_path) w st
        = (Err (OSError file_path), emit (EvOpen file_path) st)
    | Some content =>
        exists dir_path filename : string,
          perform_stateful (UploadFile file_path destination_path) w st
          = Raise3DStatefulPrinterAPI.printer_request
              (upload_call dir_path filename content) w (emit (EvOpen file_path) st)
          /\ has_char "/" filename = false
          /\ (if has_char "/" destination_path
              then destination_path = (dir_path ++ "/" ++ filename)%string
              else dir_path = EmptyString /\ filename = destination_path)
    end.
Proof.
  intros file_path destination_path w st.
  unfold perform_stateful, perform, Raise3DPrinterAPI.upload_file, rpartition.
  pose proof (rsplit_spec "/" destination_path) as H.
  destruct (str_rsplit "/" destination_path) as [[h t]|].
  - unfold bind, open_read.
    destruct (open_rb w (trace st) file_path) as [content|]; [|reflexivity].
    exists h, t. destruct H as [-> Ht]. split; [reflexivity|]. split; [exact Ht|].
    rewrite has_char_app. simpl. now rewrite orb_true_r.
  - unfold bind, open_read.
    destruct (open_rb w (trace st) file_path) as [content|]; [|reflexivity].
    exists EmptyString, destination_path. rewrite H. now repeat split.
Qed.

(** *** A login that returns an unusable token *)

(** After a first 401 with auto-authentication in force, the request
    continues from what the login request yields. *)
Lemma relogin_steps (c : call) (w : world) (st : state) (reason : string)
    (body : result json) (ms : Z) :
  session_closed (self st) = false ->
  (c_auth c = true -> truthy (printer_token (self st)) = true) ->
  effective_auto_auth (self st) c = true ->
  let rq1 := Raise3DPrinterAPI.build_request (self st) c in
  server w (trace st) rq1 = Response 401 reason body ->
  let t := time_time w (trace st ++ [EvRequest rq1]) in
  int_of_float (PrimFloat.mul t 1000%float) = Ok ms ->
  let lrq := login_request (self st) ms in
  let tr3 := trace st ++ [EvRequest rq1; EvTime t; EvRequest lrq] in
  Raise3DStatefulPrinterAPI.printer_request c w st
  = match outcome (server w (trace st ++ [EvRequest rq1; EvTime t]) lrq) with
    | Err e => (Err e, {| self := self st; trace := tr3 |})
    | Ok data =>
        match py_getitem data "token" with
        | Err e => (Err e, {| self := self st; trace := tr3 |})
        | Ok token =>
            Raise3DPrinterAPI.printer_request_body c w
              {| self := set_printer_token token (self st); trace := tr3 |}
        end
    end.
Proof.
  intros Hopen Htok Hauto rq1 Hans t Hms lrq tr3.
  rewrite printer_request_unfold, printer_request_via_eq.
  rewrite body_sent by assumption. fold rq1. rewrite Hans, outcome_401.
  cbn [response_error_status]. rewrite Hauto. cbn [andb Z.eqb Pos.eqb].
  rewrite login_eq by (try exact Hopen; reflexivity).
  cbv zeta. unfold emit. cbn [trace self]. fold t. rewrite Hms.
  replace ((trace st ++ [EvRequest rq1]) ++ [EvTime t])
    with (trace st ++ [EvRequest rq1; EvTime t]) by now rewrite <- app_assoc.
  replace ((trace st ++ [EvRequest rq1; EvTime t]) ++ [EvRequest (login_request (self st) ms)])
    with tr3 by (unfold tr3, lrq; now rewrite <- app_assoc).
  fold lrq.
  destruct (outcome _) as [data | e]; [|reflexivity].
  destruct (py_getitem data "token"); reflexivity.
Qed.

(** X17.  When the automatic login after a 401 succeeds but returns an
    empty (falsy) token, that token is stored in place of the old one, an
    authenticated request is not sent again, and the caller gets the "token
    is required" [ValueError] instead of the 401. *)
Theorem relogin_with_empty_token_is_not_retried :
  forall (c : call) (w : world) (st : state) (reason : string)
         (body : result json) (ms : Z) (data token : json),
    session_closed (self st) = false ->
    c_auth c = true ->
    truthy (printer_token (self st)) = true ->
    effective_auto_auth (self st) c = true ->
    let rq1 := Raise3DPrinterAPI.build_request (self st) c in
    server w (trace st) rq1 = Response 401 reason body ->
    let t := time_time w (trace st ++ [EvRequest rq1]) in
    int_of_float (PrimFloat.mul t 1000%float) = Ok ms ->
    let lrq := login_request (self st) ms in
    outcome (server w (trace st ++ [EvRequest rq1; EvTime t]) lrq) = Ok data ->
    py_getitem data "token" = Ok token ->
    truthy token = false ->
    Raise3DStatefulPrinterAPI.printer_request c w st
    = (Err (ValueError "Authentication token is required for this API call."),
       {| self := set_printer_token token (self st);
          trace := trace st ++ [EvRequest rq1; EvTime t; EvRequest lrq] |}).
Proof.
  intros c w st reason body ms data token Hopen Hauth Htok Hauto rq1 Hans t Hms lrq
    Hdata Htoken Hfalsy.
  rewrite (relogin_steps c w st reason body ms Hopen (fun _ => Htok) Hauto Hans Hms).
  fold rq1 t lrq. rewrite Hdata, Htoken.
  now apply body_missing_token.
Qed.

Lemma relogin_with_empty_token_is_not_retried_witness :
  Raise3DStatefulPrinterAPI.printer_request system_info_call empty_token_world
    (fresh (sample_client (JStr "old") true))
  = (Err (ValueError "Authentication token is required for this API call."),
     {| self := set_printer_token (JStr EmptyString) (sample_client (JStr "old") true);
        trace := [EvRequest (Raise3DPrinterAPI.build_request
                               (sample_client (JStr "old") true) system_info_call);
                  EvTime 2.5%float;
                  EvRequest (login_request (sample_client (JStr "old") true) 2500)] |}).
Proof.
  exact (relogin_with_empty_token_is_not_retried system_info_call empty_token_world
           (fresh (sample_client (JStr "old") true)) "Unauthorized"
           (Err (OtherException "no body")) 2500
           (JDict [("token", JStr EmptyString)]) (JStr EmptyString)
           eq_refl eq_refl eq_refl eq_refl eq_refl eq_refl eq_refl eq_refl eq_refl).
Defined.

(** *** The signature [generate_sign] returns *)

Lemma hex_digit_is_hex (n : Z) : 0 <= n < 16 -> is_hex_char (Hashlib.hex_digit n) = true.
Proof.
  intros H.
  assert (A : forallb (fun k => is_hex_char (Hashlib.hex_digit (Z.of_nat k))) (seq 0 16)
              = true) by reflexivity.
  rewrite forallb_forall in A.
  rewrite <- (Z2Nat.id n) by lia. apply A, in_seq. lia.
Qed.

Lemma le_bytes_range (n : nat) (x : Z) :
  Forall (fun b => 0 <= b < 256) (Hashlib.le_bytes n x).
Proof.
  revert x. induction n as [| k IH]; intros x; simpl; constructor; [|apply IH].
  change 255 with (Z.ones 8). rewrite Z.land_ones by lia.
  apply Z.mod_pos_bound. lia.
Qed.

Lemma le_bytes_length (n : nat) (x : Z) : List.length (Hashlib.le_bytes n x) = n.
Proof. revert x. induction n as [| k IH]; intros x; simpl; [reflexivity | now rewrite IH]. Qed.

Lemma hex_of_bytes_shape (bs : list Z) :
  Forall (fun b => 0 <= b < 256) bs ->
  String.length (Hashlib.hex_of_bytes bs) = (2 * List.length bs)%nat
  /\ string_forall is_hex_char (Hashlib.hex_of_bytes bs) = true.
Proof.
  induction 1 as [| b r Hb Hr [IHl IHh]]; simpl; [now split|].
  rewrite IHl, IHh. split; [lia|].
  rewrite !hex_digit_is_hex; [reflexivity | |].
  - apply Z.mod_pos_bound. lia.
  - split; [apply Z.div_pos; lia | apply Z.div_lt_upper_bound; lia].
Qed.

Lemma md5_hexdigest_shape (s : string) :
  String.length (Hashlib.md5_hexdigest s) = 32%nat
  /\ string_forall is_hex_char (Hashlib.md5_hexdigest s) = true.
Proof.
  unfold Hashlib.md5_hexdigest, Hashlib.md5_digest.
  destruct (fold_left Hashlib.md5_block _ _) as [[[a b] c] d].
  destruct (hex_of_bytes_shape
              (Hashlib.le_bytes 4 a ++ Hashlib.le_bytes 4 b
                 ++ Hashlib.le_bytes 4 c ++ Hashlib.le_bytes 4 d)) as [Hl Hh].
  { repeat (apply Forall_app; split); apply le_bytes_range. }
  split; [|exact Hh]. rewrite Hl, !length_app, !le_bytes_length. reflexivity.
Qed.

(** X18.  Whenever [generate_sign] returns, the signature is the MD5 hex
    digest of the SHA-1 hex digest of "password=...&timestamp=..." for the
    millisecond value it returns with it, so it is 32 lower-case hexadecimal
    characters; the client is untouched, and the clock has been read once
    when no timestamp was given and not at all otherwise. *)
Theorem generate_sign_result :
  forall (password : string) (timestamp : pyobj) (w : world) (st st' : state)
         (sign : string) (ms : Z),
    Raise3DPrinterAPI.generate_sign password timestamp w st = (Ok (sign, ms), st') ->
    sign = Hashlib.md5_hexdigest
             (Hashlib.sha1_hexdigest
                ("password=" ++ password ++ "&timestamp=" ++ str_of_int ms)%string)
    /\ String.length sign = 32%nat
    /\ string_forall is_hex_char sign = true
    /\ self st' = self st
    /\ trace st' = match timestamp with
                   | Value JNull => trace st ++ [EvTime (time_time w (trace st))]
                   | _ => trace st
                   end.
Proof.
  intros password timestamp w st st' sign ms H.
  assert (Hfloat : forall f st0,
             Raise3DPrinterAPI.generate_sign password (Value (JFloat f)) w st0
             = (Ok (sign, ms), st') ->
             sign = Hashlib.md5_hexdigest
                      (Hashlib.sha1_hexdigest
                         ("password=" ++ password ++ "&timestamp=" ++ str_of_int ms)%string)
             /\ st' = st0).
  { intros f st0 E. rewrite generate_sign_float in E.
    destruct (int_of_float _); [|discriminate]. now inversion E. }
  assert (Hshape : sign = Hashlib.md5_hexdigest
                      (Hashlib.sha1_hexdigest
                         ("password=" ++ password ++ "&timestamp=" ++ str_of_int ms)%string)
                   -> String.length sign = 32%nat
                      /\ string_forall is_hex_char sign = true).
  { intros ->. apply md5_hexdigest_shape. }
  destruct timestamp as [posix | v].
  - rewrite generate_sign_datetime in H. apply Hfloat in H. destruct H as [Hs ->].
    destruct (Hshape Hs). now repeat split.
  - destruct v; try discriminate.
    + rewrite generate_sign_now in H. apply Hfloat in H. destruct H as [Hs ->].
      destruct (Hshape Hs). now repeat split.
    + apply Hfloat in H. destruct H as [Hs ->].
      destruct (Hshape Hs). now repeat split.
Qed.

Lemma generate_sign_result_witness :
  "5403004a58bd1eee5f04caed7a75e7aa"
  = Hashlib.md5_hexdigest
      (Hashlib.sha1_hexdigest
         ("password=" ++ "secret" ++ "&timestamp=" ++ str_of_int 1700000000000)%string).
Proof.
  refine (proj1 (generate_sign_result "secret" (Datetime 1700000000%float)
                   relogin_world (fresh (sample_client JNull true))
                   (fresh (sample_client JNull true))
                   "5403004a58bd1eee5f04caed7a75e7aa" 1700000000000 _)).
  vm_compute. reflexivity.
Defined.

(** *** Setting up and migrating a config entry *)

Lemma setup_eq (data : config_data) (w : world) (st : state) :
  async_initialize_api_from_configuration data w st
  = match Raise3DStatefulPrinterAPI.login None None w
            {| self := Raise3DHostBasedStatefulAPI.init (conf_host data)
                         DEFAULT_CAMERA_PORT (conf_port data) (conf_password data)
                         true false;
               trace := trace st |} with
    | (Ok _, st1) => (Ok (self st1), st1)
    | (Err e, st1) => (Err e, st1)
    end.
Proof.
  unfold async_initialize_api_from_configuration, bind, set_self, get_self, ret.
  cbn [self trace].
  destruct (Raise3DStatefulPrinterAPI.login None None w _) as [[d | e] st1];
    reflexivity.
Qed.

(** X19.  [async_initialize_api_from_configuration] sends at most one
    request, the login, as a GET without token to "http://host:port/v1/login"
    for the configured host and port.  When it returns, it has read the
    clock and sent that login request, signed for the millisecond value
    read; the printer's answer was a success carrying some data, and the
    client returned is the one built from the configuration (open session,
    same host, port and password, URLs derived from them) with the value
    under "token" of that data stored as its token. *)
Theorem setup_logs_in_once :
  forall (data : config_data) (w : world) (st : state),
    let built :=
      Raise3DHostBasedStatefulAPI.init (conf_host data) DEFAULT_CAMERA_PORT
        (conf_port data) (conf_password data) true false in
    let t := time_time w (trace st) in
    exists evs : list event,
      trace (snd (async_initialize_api_from_configuration data w st)) = trace st ++ evs
      /\ (List.length (requests evs) <= 1)%nat
      /\ Forall (fun rq =>
                   rq_method rq = GET
                   /\ rq_url rq
                      = (http_url (conf_host data) (conf_port data) ++ "/v1/login")%string
                   /\ dict_lookup "token" (rq_params rq) = None)
                (requests evs)
      /\ match fst (async_initialize_api_from_configuration data w st) with
         | Ok raise3d_api =>
             exists (ms : Z) (login_data token : json),
               int_of_float (PrimFloat.mul t 1000%float) = Ok ms
               /\ evs = [EvTime t; EvRequest (login_request built ms)]
               /\ outcome (server w (trace st ++ [EvTime t]) (login_request built ms))
                  = Ok login_data
               /\ py_getitem login_data "token" = Ok token
               /\ raise3d_api = set_printer_token token built
               /\ printer_token raise3d_api = token
               /\ urls_consistent raise3d_api
         | Err _ => True
         end.
Proof.
  intros data w st built t. rewrite setup_eq. fold built.
  set (st0 := {| self := built; trace := trace st |}).
  rewrite (login_eq None None w st0 (fun _ => eq_refl) eq_refl). cbv zeta.
  unfold emit. cbn [self trace st0]. fold t.
  assert (Hrq : forall ms,
             Forall (fun rq =>
                       rq_method rq = GET
                       /\ rq_url rq
                          = (http_url (conf_host data) (conf_port data) ++ "/v1/login")%string
                       /\ dict_lookup "token" (rq_params rq) = None)
                    (requests [EvTime t; EvRequest (login_request built ms)])).
  { intros ms. simpl. repeat constructor. }
  destruct (int_of_float (PrimFloat.mul t 1000%float)) as [ms | e].
  2:{ exists [EvTime t]. cbn [fst snd trace]. repeat split; simpl; auto. }
  exists [EvTime t; EvRequest (login_request built ms)].
  destruct (outcome _) as [login_data | e] eqn:Hout.
  2:{ cbn [fst snd trace]. rewrite <- app_assoc.
      split; [reflexivity|]. split; [simpl; lia|]. split; [apply Hrq | exact I]. }
  destruct (py_getitem login_data "token") as [token | e] eqn:Htok.
  2:{ cbn [fst snd trace]. rewrite <- app_assoc.
      split; [reflexivity|]. split; [simpl; lia|]. split; [apply Hrq | exact I]. }
  cbn [fst snd trace self]. rewrite <- app_assoc.
  split; [reflexivity|]. split; [simpl; lia|]. split; [apply Hrq|].
  exists ms, login_data, token.
  split; [reflexivity|]. split; [reflexivity|]. split; [exact Hout|].
  split; [exact Htok|]. split; [reflexivity|]. split; [reflexivity|].
  split; reflexivity.
Qed.

Lemma migrate_version_2_raises (async_update_entry : update_entry)
    (rename_unique_ids : M unit) (entry : config_entry) (w : world) (st : state) :
  version entry = 2 ->
  exists (e : exn) (st' : state),
    migrate_version_2 async_update_entry rename_unique_ids entry w st = (Err e, st').
Proof.
  intros Hv. unfold migrate_version_2. rewrite Hv. cbn [Z.eqb Pos.eqb].
  unfold bind, ret, raise.
  destruct (minor_version entry =? 1); [|eauto].
  destruct (rename_unique_ids w st) as [[[] | e] st']; [|eauto].
  destruct (async_update_entry entry 2 2 w st') as [[entry' | e] st'']; eauto.
Qed.

(** What the first block hands to the second one is what the host's update
    made of the entry. *)
Lemma migrate_version_1_result (async_update_entry : update_entry)
    (data : config_data) (entry : config_entry) (w : world) (st : state) :
  version entry = 1 ->
  match migrate_version_1 async_update_entry data entry w st with
  | (Ok entry', st') =>
      exists st1 : state, async_update_entry entry 2 1 w st1 = (Ok entry', st')
  | (Err _, _) => True
  end.
Proof.
  intros Hv. unfold migrate_version_1. rewrite Hv. cbn [Z.eqb Pos.eqb].
  unfold bind, ret, lift.
  destruct (async_initialize_api_from_configuration data w st) as [[api | e] st1];
    [|exact I].
  destruct (Raise3DPrinterAPI.get_system_info _ w st1) as [[info | e] st2]; [|exact I].
  destruct (py_getitem info "machine_id"); [|exact I].
  destruct (async_update_entry entry 2 1 w st2) as [[entry' | e] st3] eqn:E;
    [|exact I].
  now exists st2.
Qed.

(** X20.  What [async_migrate_entry] can do with an entry of version 1 or
    more, whatever the printer, the entity registry and the host's
    [async_update_entry] do.  It returns [False] exactly for an entry newer
    than the flow's 2.2, which it leaves untouched.  For an entry of version
    2 up to 2.2 it raises, at the latest the [NameError] on
    [config_entries].  For an entry of version 1 it raises as well, unless
    the host's update, asked for version 2.1, leaves the entry at a version
    other than 2: only then does it return [True]. *)
Theorem migration_outcomes :
  forall (async_update_entry : update_entry) (rename_unique_ids : M unit)
         (data : config_data) (entry : config_entry) (w : world) (st : state),
    1 <= version entry ->
    match async_migrate_entry async_update_entry rename_unique_ids data entry w st with
    | (Ok (migrated, entry'), st') =>
        (migrated = false /\ entry' = entry /\ st' = st
         /\ (2 < version entry \/ (version entry = 2 /\ 2 < minor_version entry)))
        \/ (migrated = true /\ version entry = 1 /\ version entry' <> 2
            /\ exists st1 : state,
                 async_update_entry entry 2 1 w st1 = (Ok entry', st'))
    | (Err _, _) =>
        version entry = 1 \/ (version entry = 2 /\ minor_version entry <= 2)
    end.
Proof.
  intros async_update_entry rename_unique_ids data entry w st H1.
  unfold async_migrate_entry, FLOW_VERSION, FLOW_MINOR_VERSION.
  destruct ((2 <? version entry)
            || ((version entry =? 2) && (2 <? minor_version entry))) eqn:Hdown.
  - unfold ret. left. split; [reflexivity|]. split; [reflexivity|].
    split; [reflexivity|].
    apply orb_true_iff in Hdown. destruct Hdown as [H | H].
    + left. now apply Z.ltb_lt.
    + right. apply andb_prop in H. destruct H as [Hv Hm].
      apply Z.eqb_eq in Hv. apply Z.ltb_lt in Hm. now split.
  - apply orb_false_iff in Hdown. destruct Hdown as [Hlt Hm].
    apply Z.ltb_ge in Hlt.
    assert (Hcase : version entry = 1 \/ (version entry = 2 /\ minor_version entry <= 2)).
    { assert (Hv : version entry = 1 \/ version entry = 2) by lia.
      destruct Hv as [Hv | Hv]; [now left|]. right. split; [exact Hv|].
      rewrite Hv in Hm. cbn [Z.eqb Pos.eqb andb] in Hm. now apply Z.ltb_ge. }
    unfold bind at 1.
    destruct Hcase as [Hv | [Hv Hle]].
    + pose proof (migrate_version_1_result async_update_entry data entry w st Hv) as R1.
      destruct (migrate_version_1 async_update_entry data entry w st)
        as [[entry1 | e] st1]; [|now left].
      unfold bind.
      destruct (Z.eq_dec (version entry1) 2) as [H2 | H2].
      * destruct (migrate_version_2_raises async_update_entry rename_unique_ids
                    entry1 w st1 H2) as (e & st' & E).
        rewrite E. now left.
      * unfold migrate_version_2. apply Z.eqb_neq in H2. rewrite H2.
        unfold ret. right. split; [reflexivity|]. split; [exact Hv|].
        split; [now apply Z.eqb_neq | exact R1].
    + assert (E1 : migrate_version_1 async_update_entry data entry w st = (Ok entry, st)).
      { unfold migrate_version_1. rewrite Hv. reflexivity. }
      rewrite E1. unfold bind.
      destruct (migrate_version_2_raises async_update_entry rename_unique_ids
                  entry w st Hv) as (e & st' & E).
      rewrite E. right. now split.
Qed.

Lemma migration_outcomes_witness :
  match async_migrate_entry obliging_update_entry (ret tt)
          {| conf_host := "10.0.0.5"; conf_port := 10800; conf_password := "secret" |}
          {| version := 2; minor_version := 2 |} relogin_world
          (fresh (sample_client JNull true)) with
  | (Ok (migrated, entry'), st') =>
      (migrated = false /\ entry' = {| version := 2; minor_version := 2 |}
       /\ st' = fresh (sample_client JNull true)
       /\ (2 < 2 \/ (2 = 2 /\ 2 < 2)))
      \/ (migrated = true /\ 2 = 1 /\ version entry' <> 2
          /\ exists st1 : state,
               obliging_update_entry {| version := 2; minor_version := 2 |} 2 1
                 relogin_world st1 = (Ok entry', st'))
  | (Err _, _) => 2 = 1 \/ (2 = 2 /\ 2 <= 2)
  end.
Proof.
  apply (migration_outcomes obliging_update_entry (ret tt)
           {| conf_host := "10.0.0.5"; conf_port := 10800; conf_password := "secret" |}
           {| version := 2; minor_version := 2 |} relogin_world
           (fresh (sample_client JNull true))).
  simpl. lia.
Defined.

(** With a host that sets the version asked for, a current entry (2.2) and
    a fresh one (version 1, with a printer that answers) both end in the
    [NameError].  With a host that leaves the entry alone, the version 1
    entry skips the second block and the migration reports success. *)
Example migration_raises_name_error :
  fst (async_migrate_entry obliging_update_entry (ret tt)
         {| conf_host := "10.0.0.5"; conf_port := 10800; conf_password := "secret" |}
         {| version := 2; minor_version := 2 |} relogin_world
         (fresh (sample_client JNull true)))
  = Err (OtherException "NameError: name 'config_entries' is not defined")
  /\ fst (async_migrate_entry obliging_update_entry (ret tt)
            {| conf_host := "10.0.0.5"; conf_port := 10800; conf_password := "secret" |}
            {| version := 1; minor_version := 1 |}
            (scripted [Response 200 "OK" (ok_body (JDict [("token", JStr "t")]));
                       Response 200 "OK" (ok_body (JDict [("machine_id", JStr "m1")]))]
                      0%float)
            (fresh (sample_client JNull true)))
     = Err (OtherException "NameError: name 'config_entries' is not defined")
  /\ fst (async_migrate_entry idle_update_entry (ret tt)
            {| conf_host := "10.0.0.5"; conf_port := 10800; conf_password := "secret" |}
            {| version := 1; minor_version := 1 |}
            (scripted [Response 200 "OK" (ok_body (JDict [("token", JStr "t")]));
                       Response 200 "OK" (ok_body (JDict [("machine_id", JStr "m1")]))]
                      0%float)
            (fresh (sample_client JNull true)))
     = Ok (true, {| version := 1; minor_version := 1 |}).
Proof. repeat split; vm_compute; reflexivity. Qed.

(** *** [axis_control] *)

(** X21.  [axis_control] posts a JSON object in which "is_relative_pos" is
    an integer (0 or 1 for a boolean) and each of "x", "y", "z", "e", "feed"
    and "nozzle" is present with its value exactly when the argument was
    given; no key occurs twice. *)
Theorem axis_control_body :
  forall (dispatch : call -> M json) (is_relative_pos : Z + bool)
         (x y z e feed nozzle : option Z),
    exists body : dict,
      Raise3DPrinterAPI.axis_control dispatch is_relative_pos x y z e feed nozzle
      = dispatch (axis_call body)
      /\ dict_lookup "is_relative_pos" body
         = Some (JInt (match is_relative_pos with
                       | inl n => n
                       | inr b => if b then 1 else 0
                       end))
      /\ dict_lookup "x" body = opt_json x
      /\ dict_lookup "y" body = opt_json y
      /\ dict_lookup "z" body = opt_json z
      /\ dict_lookup "e" body = opt_json e
      /\ dict_lookup "feed" body = opt_json feed
      /\ dict_lookup "nozzle" body = opt_json nozzle
      /\ NoDup (map fst body).
Proof.
  intros dispatch is_relative_pos x y z e feed nozzle.
  unfold Raise3DPrinterAPI.axis_control, Raise3DPrinterAPI._prv1. cbv zeta.
  eexists. split; [reflexivity|].
  destruct x, y, z, e, feed, nozzle; cbn [Raise3DPrinterAPI.set_if_given];
    (repeat split; [reflexivity ..|]);
    simpl; repeat constructor; simpl; intuition discriminate.
Qed.

(** *** Auto-authentication switched off *)

(** X22.  With auto-authentication off (the attribute, or the keyword
    [auto_auth=False] of the call), the stateful client makes one attempt
    like the plain client: same result, at most one request, no login, and
    the client object untouched, also when the printer answers 401. *)
Theorem without_auto_auth_one_attempt :
  forall (c : call) (w : world) (st : state),
    effective_auto_auth (self st) c = false ->
    Raise3DStatefulPrinterAPI.printer_request c w st
    = Raise3DPrinterAPI.printer_request (super_call c) w st
    /\ self (snd (Raise3DStatefulPrinterAPI.printer_request c w st)) = self st
    /\ (trace (snd (Raise3DStatefulPrinterAPI.printer_request c w st)) = trace st
        \/ trace (snd (Raise3DStatefulPrinterAPI.printer_request c w st))
           = trace st ++ [EvRequest (Raise3DPrinterAPI.build_request (self st) c)]).
Proof.
  intros c w st H. rewrite printer_request_no_auto, plain_super by exact H.
  split; [reflexivity|]. split; [apply body_self|].
  destruct (session_closed (self st)) eqn:Hc.
  { rewrite body_closed by exact Hc. now left. }
  destruct (c_auth c && negb (truthy (printer_token (self st)))) eqn:E.
  { apply andb_prop in E. destruct E as [Ha Ht]. apply negb_true_iff in Ht.
    rewrite body_missing_token by assumption. now left. }
  right. rewrite body_sent; [reflexivity | exact Hc |].
  intros Ha. rewrite Ha in E. simpl in E. now apply negb_false_iff in E.
Qed.

Lemma without_auto_auth_one_attempt_witness :
  Raise3DStatefulPrinterAPI.printer_request system_info_call relogin_world
    (fresh (sample_client (JStr "old") false))
  = Raise3DPrinterAPI.printer_request (super_call system_info_call) relogin_world
      (fresh (sample_client (JStr "old") false)).
Proof.
  apply (without_auto_auth_one_attempt system_info_call relogin_world
           (fresh (sample_client (JStr "old") false))).
  reflexivity.
Defined.

(** *** The exceptions of response handling *)

Lemma int_of_string_errors (s : string) (e : exn) :
  int_of_string s = Err e -> type_or_value_error e = true.
Proof.
  unfold int_of_string. cbv zeta.
  destruct (snd _) as [| c r]; [intros H; now inversion H|].
  destruct (c =? 0x5F); [intros H; now inversion H|].
  destruct (scan_digits _ _ _ _) as [[[z digits] rest]|]; [|intros H; now inversion H].
  destruct (int_max_str_digits <? digits); [intros H; now inversion H|].
  destruct (digits =? 0); [intros H; now inversion H|].
  destruct (forallb Py_ISSPACE rest); intros H; now inversion H.
Qed.

Lemma py_int_errors (v : json) (e : exn) :
  py_int v = Err e ->
  type_or_value_error e = true \/ exists m, e = OverflowError m.
Proof.
  destruct v; simpl; try discriminate;
    try (intros H; inversion H; now left).
  - unfold int_of_float. destruct (Prim2SF f); intros H; inversion H;
      [right; eauto | now left].
  - intros H. left. now apply (int_of_string_errors s).
Qed.

(** X23.  Whatever the status and the document, [handle_response] returns
    or raises one of four exceptions: the API error, the generic client
    error, [AttributeError] (a document or an [error] field that is no
    object) or [OverflowError] (an infinite [error.code]); the [TypeError]
    and [ValueError] of reading the code never reach the caller. *)
Theorem response_handling_exceptions :
  forall (status : Z) (response_data : json),
    match Raise3DPrinterAPI.handle_response status response_data with
    | Ok _ => True
    | Err e => response_handling_error e = true
    end.
Proof.
  intros status response_data. rewrite handle_response_eq.
  assert (Hapi : match api_error response_data with
                 | Ok _ => True
                 | Err e => response_handling_error e = true
                 end).
  { unfold api_error.
    destruct response_data as [| | | | | | body]; try reflexivity.
    cbn [py_get rbind].
    destruct (match dict_lookup "error" body with
              | Some x => x
              | None => JDict []
              end) as [| | | | | | err]; try reflexivity.
    cbn [py_get rbind].
    destruct (py_int _) as [code | e] eqn:Ecode; cbn [rtry rbind]; [reflexivity|].
    destruct (py_int_errors _ _ Ecode) as [H | [m ->]]; [|reflexivity].
    destruct e; try discriminate; reflexivity. }
  destruct (status =? 200).
  - destruct response_data as [| | | | | | body]; try reflexivity.
    cbn [py_get rbind].
    destruct (eq_one _); [reflexivity | exact Hapi].
  - exact Hapi.
Qed.

(** *** The coordinator is shut down by a 404 only *)

(** X24.  [_async_update_data] never raises a response error with status
    404 to its caller, and it changes the coordinator in one case only: when
    it returns [None] with the shutdown requested. *)
Theorem update_data_never_raises_404 :
  forall (update_method : M json) (co : coordinator) (w : world) (st : state),
    match _async_update_data update_method co w st with
    | (Ok (data, co'), _) =>
        co' = co \/ (data = JNull /\ shutdown_requested co' = true)
    | (Err exc, _) => response_error_status exc <> Some 404
    end.
Proof.
  intros update_method co w st. unfold _async_update_data, try_except, bind.
  destruct (_async_call_api_method update_method w st) as [[data | exc] st1].
  - now left.
  - destruct (response_error_status exc) as [status|] eqn:Es.
    + destruct (status =? 404) eqn:E4.
      * right. now split.
      * cbn [raise]. rewrite Es. intros H. injection H as ->. discriminate.
    + cbn [raise]. rewrite Es. discriminate.
Qed.
